(** * DataVisual: the column-role inference and aggregation engine

    A shallow embedding of the chart components of the CSV visualiser
    ([bar-chart-view], [line-chart-view], [pie-chart-view]) and of
    [lib/utils.ts], together with the fragment of ECMAScript they rely on:
    strings, IEEE-754 binary64 numbers, the conversions [String], [Number],
    [parseFloat], plain objects with their own-property order, and
    [Array.prototype.sort].

    Modelling conventions.
    - Strings are sequences of code units in the Latin-1 range
      U+0000..U+00FF, one [ascii] per code unit.
    - A finite binary64 number is an integer multiple of 2^-1074; [Fin k]
      is the number k * 2^-1074.  Sums, products and quotients are computed
      exactly on integers and then rounded to 53 significant bits, ties to
      even, which is what binary64 arithmetic does, subnormals included.
    - A cell of a row is a primitive value: undefined, null, a boolean, a
      number or a string.  A row is a record of own properties; reading an
      absent column gives undefined.  (A row that lacks a column named
      after a property of [Object.prototype] would read that property
      instead; such rows are outside the model.)
    - [Date.parse] is left to the implementation by ECMAScript outside the
      ISO format; it is a parameter of the line chart.
    - [Math.random] is the one source of hidden state; the bar chart takes
      the sequence of its draws as an explicit argument. *)

From Stdlib Require Import ZArith List String Ascii Bool Lia.
From Stdlib Require Import Permutation Sorted DecimalString.
Import ListNotations.

Local Open Scope Z_scope.
Local Open Scope list_scope.

(* ================================================================== *)
(** ** Strings *)

Module Str.

Definition code (c : ascii) : Z := Z.of_N (N_of_ascii c).

Definition chr (n : Z) : ascii := ascii_of_N (Z.to_N n).

(** WhiteSpace and LineTerminator code units below U+0100. *)
Definition isWhiteSpace (c : ascii) : bool :=
  let n := code c in
  ((9 <=? n) && (n <=? 13)) || (n =? 32) || (n =? 160).

Fixpoint trimStart (s : string) : string :=
  match s with
  | EmptyString => EmptyString
  | String c s' => if isWhiteSpace c then trimStart s' else s
  end.

Fixpoint rev_append (s acc : string) : string :=
  match s with
  | EmptyString => acc
  | String c s' => rev_append s' (String c acc)
  end.

Definition rev (s : string) : string := rev_append s EmptyString.

Definition trimEnd (s : string) : string := rev (trimStart (rev s)).

(** [String.prototype.trim]. *)
Definition trim (s : string) : string := trimEnd (trimStart s).

Definition lowerChar (c : ascii) : ascii :=
  let n := code c in
  if ((65 <=? n) && (n <=? 90))
     || ((192 <=? n) && (n <=? 222) && negb (n =? 215))
  then chr (n + 32) else c.

(** [String.prototype.toLowerCase]. *)
Fixpoint toLowerCase (s : string) : string :=
  match s with
  | EmptyString => EmptyString
  | String c s' => String (lowerChar c) (toLowerCase s')
  end.

(** [String.prototype.includes]. *)
Fixpoint includes (s t : string) : bool :=
  String.prefix t s
  || match s with
     | EmptyString => false
     | String _ s' => includes s' t
     end.

Fixpoint repeat (c : ascii) (n : nat) : string :=
  match n with
  | O => EmptyString
  | S n' => String c (repeat c n')
  end.

(** Decimal digits of a non-negative integer. *)
Definition ofZ (n : Z) : string :=
  NilZero.string_of_uint (N.to_uint (Z.to_N n)).

(** Comparison of strings by code units, as the default [sort] uses. *)
Definition ltb (s t : string) : bool :=
  match String.compare s t with Lt => true | _ => false end.

End Str.

(* ================================================================== *)
(** ** Numbers *)

Module Num.

Inductive number : Type :=
| NaN
| PInf
| NInf
| NegZero
| Fin (k : Z).

(** One is [unit] multiples of the quantum 2^-1074: [unit] is 2^1074. *)
Definition unit : Z := Z.shiftl 1 1074.

(** The first magnitude that overflows: 2^1024, that is 2^2098 quanta. *)
Definition overflow : Z := Z.shiftl 1 2098.

(** [round_pow2 n t], for [0 <= n] and [0 <= t], is [n / 2^t] rounded to
    53 significant bits, ties to even. *)
Definition round_pow2 (n t : Z) : Z :=
  let q0 := Z.shiftr n t in
  let s := Z.max 0 (Z.log2 q0 - 52) in
  let q := Z.shiftr n (t + s) in
  let r := n - Z.shiftl q (t + s) in
  let d := Z.shiftl 1 (t + s) in
  let q' := if 2 * r <? d then q
            else if d <? 2 * r then q + 1
            else if Z.even q then q else q + 1 in
  Z.shiftl q' s.

(** [round_nat n m], for [0 <= n] and [0 < m], is the quotient [n / m]
    rounded to 53 significant bits, ties to even. *)
Definition round_nat (n m : Z) : Z :=
  let q0 := n / m in
  let s := Z.max 0 (Z.log2 q0 - 52) in
  let d := Z.shiftl m s in
  let q := n / d in
  let r := n mod d in
  let q' := if 2 * r <? d then q
            else if d <? 2 * r then q + 1
            else if Z.even q then q else q + 1 in
  Z.shiftl q' s.

Definition mkFin (neg : bool) (mag : Z) : number :=
  if overflow <=? mag then (if neg then NInf else PInf)
  else if mag =? 0 then (if neg then NegZero else Fin 0)
  else Fin (if neg then - mag else mag).

Definition of_ratio (neg : bool) (n m : Z) : number :=
  mkFin neg (round_nat n m).

(** In quanta. *)
Definition scale (n : Z) : Z := Z.shiftl n 1074.

Definition ofZ (z : Z) : number :=
  mkFin (z <? 0) (round_pow2 (scale (Z.abs z)) 0).

(** The value of the decimal numeral [d * 10^e]. *)
Definition of_decimal (neg : bool) (d e : Z) : number :=
  if 0 <=? e then mkFin neg (round_pow2 (scale (d * 10 ^ e)) 0)
  else of_ratio neg (scale d) (10 ^ (- e)).

Definition isNaN (x : number) : bool :=
  match x with NaN => true | _ => false end.

Definition isZero (x : number) : bool :=
  match x with NegZero | Fin 0 => true | _ => false end.

(** Sign bit of a number that is not NaN. *)
Definition signbit (x : number) : bool :=
  match x with
  | NInf | NegZero => true
  | Fin k => k <? 0
  | _ => false
  end.

(** Magnitude in quanta of a finite number. *)
Definition mag (x : number) : Z :=
  match x with Fin k => Z.abs k | _ => 0 end.

Definition quanta (x : number) : Z :=
  match x with Fin k => k | _ => 0 end.

Definition neg (x : number) : number :=
  match x with
  | NaN => NaN
  | PInf => NInf
  | NInf => PInf
  | NegZero => Fin 0
  | Fin 0 => NegZero
  | Fin k => Fin (- k)
  end.

Definition add (x y : number) : number :=
  match x, y with
  | NaN, _ | _, NaN => NaN
  | PInf, NInf | NInf, PInf => NaN
  | PInf, _ | _, PInf => PInf
  | NInf, _ | _, NInf => NInf
  | NegZero, NegZero => NegZero
  | NegZero, Fin b => Fin b
  | Fin a, NegZero => Fin a
  | Fin a, Fin b =>
      let c := a + b in mkFin (c <? 0) (round_pow2 (Z.abs c) 0)
  end.

Definition sub (x y : number) : number := add x (neg y).

Definition isInf (x : number) : bool :=
  match x with PInf | NInf => true | _ => false end.

Definition mul (x y : number) : number :=
  match x, y with
  | NaN, _ | _, NaN => NaN
  | _, _ =>
      let s := xorb (signbit x) (signbit y) in
      if isInf x || isInf y then
        if isZero x || isZero y then NaN
        else if s then NInf else PInf
      else mkFin s (round_pow2 (mag x * mag y) 1074)
  end.

Definition div (x y : number) : number :=
  match x, y with
  | NaN, _ | _, NaN => NaN
  | _, _ =>
      let s := xorb (signbit x) (signbit y) in
      if isInf x then
        if isInf y then NaN else if s then NInf else PInf
      else if isInf y then mkFin s 0
      else if isZero y then
        if isZero x then NaN else if s then NInf else PInf
      else of_ratio s (scale (mag x)) (mag y)
  end.

(** [x < y]; false when either side is NaN. *)
Definition ltb (x y : number) : bool :=
  match x, y with
  | NaN, _ | _, NaN => false
  | _, NInf => false
  | NInf, _ => true
  | PInf, _ => false
  | _, PInf => true
  | _, _ => quanta x <? quanta y
  end.

(** [x <= y]; false when either side is NaN. *)
Definition leb (x y : number) : bool :=
  match x, y with
  | NaN, _ | _, NaN => false
  | NInf, _ => true
  | _, NInf => false
  | _, PInf => true
  | PInf, _ => false
  | _, _ => quanta x <=? quanta y
  end.

Definition gtb (x y : number) : bool := ltb y x.
Definition geb (x y : number) : bool := leb y x.

(** SameValueZero on numbers: NaN equals NaN, the two zeros are equal. *)
Definition sameValueZero (x y : number) : bool :=
  match x, y with
  | NaN, NaN | PInf, PInf | NInf, NInf => true
  | NaN, _ | _, NaN | PInf, _ | _, PInf | NInf, _ | _, NInf => false
  | _, _ => quanta x =? quanta y
  end.

(** [Math.floor]. *)
Definition floor (x : number) : number :=
  match x with
  | Fin k => Fin (scale (Z.shiftr k 1074))
  | _ => x
  end.

(** [Math.min] of two numbers. *)
Definition min (x y : number) : number :=
  match x, y with
  | NaN, _ | _, NaN => NaN
  | _, _ =>
      if ltb x y then x
      else if ltb y x then y
      else if signbit x then x else y
  end.

(** Truncation towards zero of a finite number, in quanta. *)
Definition trunc (k : Z) : Z :=
  if k <? 0 then - scale (Z.shiftr (- k) 1074) else scale (Z.shiftr k 1074).

End Num.

(* ================================================================== *)
(** ** Conversions between strings and numbers *)

Module Conv.
Import Num.
Local Open Scope string_scope.
Local Open Scope Z_scope.

Definition isDigit (c : ascii) : bool :=
  (48 <=? Str.code c) && (Str.code c <=? 57).

Definition digitVal (c : ascii) : Z := Str.code c - 48.

(** A run of decimal digits: the value accumulated on top of [acc], the
    number of digits read on top of [cnt], and what follows. *)
Fixpoint scanDigits (s : string) (acc cnt : Z) : Z * Z * string :=
  match s with
  | EmptyString => (acc, cnt, s)
  | String c s' =>
      if isDigit c then scanDigits s' (10 * acc + digitVal c) (cnt + 1)
      else (acc, cnt, s)
  end.

(** ExponentPart, when one is there: its value and what follows. *)
Definition scanExponent (s : string) : Z * string :=
  match s with
  | String c s1 =>
      if (Str.code c =? 101) || (Str.code c =? 69) then
        let '(sg, s2) :=
          match s1 with
          | String "+" t => (false, t)
          | String "-" t => (true, t)
          | _ => (false, s1)
          end in
        let '(v, n, rest) := scanDigits s2 0 0 in
        if n =? 0 then (0, s) else ((if sg then - v else v), rest)
      else (0, s)
  | EmptyString => (0, s)
  end.

Fixpoint drop (n : nat) (s : string) : string :=
  match n, s with
  | S n', String _ s' => drop n' s'
  | _, _ => s
  end.

(** The longest prefix of [s] that is a StrUnsignedDecimalLiteral. *)
Definition scanUnsigned (neg : bool) (s : string)
  : option (number * string) :=
  if String.prefix "Infinity" s
  then Some ((if neg then NInf else PInf), drop 8 s)
  else
    let '(i, ni, s1) := scanDigits s 0 0 in
    match s1 with
    | String "." s2 =>
        let '(m, nf, s3) := scanDigits s2 i 0 in
        if (ni =? 0) && (nf =? 0) then None
        else
          let '(e, rest) := scanExponent s3 in
          Some (of_decimal neg m (e - nf), rest)
    | _ =>
        if ni =? 0 then None
        else
          let '(e, rest) := scanExponent s1 in
          Some (of_decimal neg i e, rest)
    end.

(** The longest prefix of [s] that is a StrDecimalLiteral. *)
Definition scanDecimal (s : string) : option (number * string) :=
  match s with
  | String "+" s' => scanUnsigned false s'
  | String "-" s' => scanUnsigned true s'
  | _ => scanUnsigned false s
  end.

Definition digitIn (radix : Z) (c : ascii) : option Z :=
  let n := Str.code c in
  let v := if isDigit c then n - 48
           else if (97 <=? n) && (n <=? 102) then n - 87
           else if (65 <=? n) && (n <=? 70) then n - 55
           else radix in
  if v <? radix then Some v else None.

Fixpoint scanRadix (radix : Z) (s : string) (acc cnt : Z) : option Z :=
  match s with
  | EmptyString => if cnt =? 0 then None else Some acc
  | String c s' =>
      match digitIn radix c with
      | Some v => scanRadix radix s' (radix * acc + v) (cnt + 1)
      | None => None
      end
  end.

(** NonDecimalIntegerLiteral: 0x, 0o and 0b numerals. *)
Definition nonDecimal (s : string) : option number :=
  match s with
  | String "0" (String c s') =>
      let n := Str.code c in
      let radix := if (n =? 120) || (n =? 88) then 16
                   else if (n =? 111) || (n =? 79) then 8
                   else if (n =? 98) || (n =? 66) then 2
                   else 0 in
      if radix =? 0 then None
      else option_map Num.ofZ (scanRadix radix s' 0 0)
  | _ => None
  end.

(** StringToNumber, that is [Number(str)] on a string. *)
Definition StringToNumber (str : string) : number :=
  let s := Str.trim str in
  match s with
  | EmptyString => Fin 0
  | _ =>
      match nonDecimal s with
      | Some v => v
      | None =>
          match scanDecimal s with
          | Some (v, EmptyString) => v
          | _ => NaN
          end
      end
  end.

(** [parseFloat] on a string. *)
Definition parseFloat (str : string) : number :=
  match scanDecimal (Str.trimStart str) with
  | Some (v, _) => v
  | None => NaN
  end.

(** *** Number::toString, radix 10 *)

Definition below_pow10 (k n : Z) : bool :=
  if 0 <=? n then k <? scale (10 ^ n) else k * 10 ^ (- n) <? unit.

Fixpoint find_n (fuel : nat) (k n : Z) : Z :=
  match fuel with
  | O => n
  | S f => if below_pow10 k n then n else find_n f k (n + 1)
  end.

(** The [n] with [10^(n-1) <= x < 10^n], for [x] of [k > 0] quanta.  The
    search starts just below the estimate that the binary logarithm
    gives. *)
Definition decExponent (k : Z) : Z :=
  find_n 8 k ((Z.log2 k - 1074) * 30103 / 100000 - 1).

Definition scaled (k e : Z) : Z * Z :=
  if 0 <=? e then (k, scale (10 ^ e)) else (k * 10 ^ (- e), unit).

(** The [p]-digit integer [s], if any, for which [s * 10^(n0-p)] is the
    number of [k] quanta; the closest one when two of them are. *)
Definition shortest_at (k n0 p : Z) : option Z :=
  let e := n0 - p in
  let '(num, den) := scaled k e in
  let lo := num / den in
  let r := num mod den in
  let okLo := sameValueZero (of_decimal false lo e) (Fin k) in
  let okHi := sameValueZero (of_decimal false (lo + 1) e) (Fin k) in
  let preferHi := (den <? 2 * r) || ((den =? 2 * r) && Z.odd lo) in
  if okLo && okHi then Some (if preferHi then lo + 1 else lo)
  else if okLo then Some lo
  else if okHi then Some (lo + 1)
  else None.

(** The least number of digits that reads back as the number, and the
    digits; 17 digits always do. *)
Fixpoint shortest (fuel : nat) (k n0 p : Z) : Z * Z :=
  match fuel with
  | O => let '(num, den) := scaled k (n0 - p) in (num / den, p)
  | S f =>
      match shortest_at k n0 p with
      | Some s => (s, p)
      | None => shortest f k n0 (p + 1)
      end
  end.

Definition formatDigits (digits : string) (n : Z) : string :=
  let k := Z.of_nat (String.length digits) in
  if (k <=? n) && (n <=? 21)
  then digits ++ Str.repeat "0" (Z.to_nat (n - k))
  else if (0 <? n) && (n <=? 21)
  then substring 0 (Z.to_nat n) digits ++ "."
       ++ substring (Z.to_nat n) (Z.to_nat (k - n)) digits
  else if (-6 <? n) && (n <=? 0)
  then "0." ++ Str.repeat "0" (Z.to_nat (- n)) ++ digits
  else
    let e := n - 1 in
    let es := (if e <? 0 then "-" else "+") ++ Str.ofZ (Z.abs e) in
    match digits with
    | EmptyString => EmptyString
    | String c EmptyString => String c ("e" ++ es)
    | String c rest => String c ("." ++ rest ++ "e" ++ es)
    end.

Definition positiveToString (k : Z) : string :=
  let n0 := decExponent k in
  let '(s, p) := shortest 17 k n0 1 in
  if s =? 10 ^ p then formatDigits "1" (n0 + 1)
  else formatDigits (Str.ofZ s) n0.

Definition Number_toString (x : number) : string :=
  match x with
  | NaN => "NaN"
  | PInf => "Infinity"
  | NInf => "-Infinity"
  | NegZero => "0"
  | Fin k =>
      if k =? 0 then "0"
      else if k <? 0 then "-" ++ positiveToString (- k)
      else positiveToString k
  end.

(** The characters a printed number can start with: a digit, the minus
    sign, N of NaN and I of Infinity. *)
Definition numeralHead (c : ascii) : bool :=
  isDigit c || Ascii.eqb c "-" || Ascii.eqb c "N" || Ascii.eqb c "I".

Definition startsNumeral (s : string) : Prop :=
  match s with
  | EmptyString => False
  | String c _ => numeralHead c = true
  end.

Definition startsDigit (s : string) : Prop :=
  match s with
  | EmptyString => False
  | String c _ => isDigit c = true
  end.

End Conv.

(* ================================================================== *)
(** ** Primitive values *)

Module Val.
Import Num.
Local Open Scope string_scope.
Local Open Scope Z_scope.

Inductive value : Type :=
| VUndefined
| VNull
| VBool (b : bool)
| VNum (n : number)
| VStr (s : string).

(** [String(v)]. *)
Definition ToString (v : value) : string :=
  match v with
  | VUndefined => "undefined"
  | VNull => "null"
  | VBool true => "true"
  | VBool false => "false"
  | VNum n => Conv.Number_toString n
  | VStr s => s
  end.

(** Truthiness, as [||], [!] and [if] test it. *)
Definition ToBoolean (v : value) : bool :=
  match v with
  | VUndefined | VNull => false
  | VBool b => b
  | VNum n => negb (isNaN n || isZero n)
  | VStr EmptyString => false
  | VStr _ => true
  end.

(** [Number(v)]. *)
Definition ToNumber (v : value) : number :=
  match v with
  | VUndefined => NaN
  | VNull => Fin 0
  | VBool true => Num.ofZ 1
  | VBool false => Fin 0
  | VNum n => n
  | VStr s => Conv.StringToNumber s
  end.

(** [a || b]. *)
Definition or_else (a b : value) : value :=
  if ToBoolean a then a else b.

(** [a + b] on primitives: concatenation as soon as one side is a
    string, addition of numbers otherwise. *)
Definition plus (a b : value) : value :=
  match a, b with
  | VStr _, _ | _, VStr _ => VStr (ToString a ++ ToString b)
  | _, _ => VNum (add (ToNumber a) (ToNumber b))
  end.

(** SameValueZero, the equality of [Set] and of [Array.prototype.includes]. *)
Definition sameValueZero (a b : value) : bool :=
  match a, b with
  | VUndefined, VUndefined => true
  | VNull, VNull => true
  | VBool x, VBool y => Bool.eqb x y
  | VNum x, VNum y => Num.sameValueZero x y
  | VStr x, VStr y => String.eqb x y
  | _, _ => false
  end.

(** A row of the dataset: its own properties.  Reading a column the row
    does not have gives undefined. *)
Definition row : Type := list (string * value).

Fixpoint get (r : row) (column : string) : value :=
  match r with
  | [] => VUndefined
  | (k, v) :: r' => if String.eqb k column then v else get r' column
  end.

(** The elements of [new Set(l)], in insertion order. *)
Fixpoint uniq (l : list value) : list value :=
  match l with
  | [] => []
  | a :: l' => a :: filter (fun b => negb (sameValueZero a b)) (uniq l')
  end.

Fixpoint uniqStr (l : list string) : list string :=
  match l with
  | [] => []
  | a :: l' => a :: filter (fun b => negb (String.eqb a b)) (uniqStr l')
  end.

End Val.

(* ================================================================== *)
(** ** Plain objects *)

Module Obj.
Local Open Scope string_scope.
Local Open Scope Z_scope.

(** The own properties of an object, in creation order. *)
Definition t (A : Type) : Type := list (string * A).

Section Props.
Context {A : Type}.

Fixpoint getOwn (o : t A) (k : string) : option A :=
  match o with
  | [] => None
  | (k', v) :: o' => if String.eqb k' k then Some v else getOwn o' k
  end.

(** [o[k] = v]: an existing property keeps its place, a new one is
    created last. *)
Fixpoint set (o : t A) (k : string) (v : A) : t A :=
  match o with
  | [] => [(k, v)]
  | (k', v') :: o' =>
      if String.eqb k' k then (k', v) :: o' else (k', v') :: set o' k v
  end.

(** An array index is the canonical numeral of an integer below
    2^32 - 1. *)
Definition arrayIndex (k : string) : option Z :=
  match Conv.scanDigits k 0 0 with
  | (v, cnt, EmptyString) =>
      if (0 <? cnt) && (v <=? 4294967294) && String.eqb (Str.ofZ v) k
      then Some v else None
  | _ => None
  end.

Fixpoint insertIndex (i : Z) (e : string * A) (l : list (Z * (string * A)))
  : list (Z * (string * A)) :=
  match l with
  | [] => [(i, e)]
  | (j, w) :: l' =>
      if i <? j then (i, e) :: l else (j, w) :: insertIndex i e l'
  end.

(** The array-index properties in ascending order of index, and the
    others in creation order. *)
Fixpoint split (o : t A) : list (Z * (string * A)) * list (string * A) :=
  match o with
  | [] => ([], [])
  | (k, v) :: o' =>
      let '(ix, named) := split o' in
      match arrayIndex k with
      | Some i => (insertIndex i (k, v) ix, named)
      | None => (ix, (k, v) :: named)
      end
  end.

(** [Object.entries(o)]: OrdinaryOwnPropertyKeys lists the array indices
    first, ascending, then the string keys in creation order. *)
Definition entries (o : t A) : list (string * A) :=
  let '(ix, named) := split o in map snd ix ++ named.

(** [Object.keys(o)]. *)
Definition keys (o : t A) : list string := map fst (entries o).

(** [Object.values(o)]. *)
Definition values (o : t A) : list A := map snd (entries o).

End Props.

(** The same keys with other values. *)
Definition mapv {A B : Type} (f : string -> A -> B) (o : t A) : t B :=
  map (fun e => (fst e, f (fst e) (snd e))) o.

(** [keyOrder ks]: the keys [ks], given in creation order, in the order
    [Object.keys] lists them. *)
Definition keyOrder (ks : list string) : list string :=
  keys (map (fun k => (k, tt)) ks).

(** The properties every plain object inherits from [Object.prototype];
    each of them holds a function or an object, hence is truthy. *)
Definition prototypeKeys : list string :=
  [ "constructor"; "__defineGetter__"; "__defineSetter__";
    "hasOwnProperty"; "__lookupGetter__"; "__lookupSetter__";
    "isPrototypeOf"; "propertyIsEnumerable"; "toString"; "valueOf";
    "__proto__"; "toLocaleString" ].

Definition inherited (k : string) : bool :=
  existsb (String.eqb k) prototypeKeys.

(** Truthiness of [o[k]] for an object whose own properties all hold
    objects: an own property, or one found on the prototype. *)
Definition has {A : Type} (o : t A) (k : string) : bool :=
  match getOwn o k with
  | Some _ => true
  | None => inherited k
  end.

End Obj.

(* ================================================================== *)
(** ** Objects that hold primitive values *)

Module Item.
Import Val.

Definition t : Type := Obj.t value.

(** [o[k]] on an object that owns [k]. *)
Definition read (o : t) (k : string) : value :=
  match Obj.getOwn o k with
  | Some v => v
  | None => VUndefined
  end.

(** [o[k] += v]. *)
Definition addTo (o : t) (k : string) (v : value) : t :=
  Obj.set o k (plus (read o k) v).

End Item.

(* ================================================================== *)
(** ** Arrays *)

Module Arr.
Import Num.

Section Sort.
Context {A : Type}.

(** [after a b] holds when the comparison puts [a] after [b]. *)
Variable after : A -> A -> bool.

Fixpoint insert (a : A) (l : list A) : list A :=
  match l with
  | [] => [a]
  | b :: l' => if after a b then b :: insert a l' else a :: l
  end.

(** A stable sort: an element moves past those it has to come after,
    and past no other. *)
Definition isort (l : list A) : list A := fold_right insert [] l.

(** [a] may stand before [b]. *)
Definition ord (a b : A) : Prop := after a b = false.

End Sort.

(** [l.sort(cmp)]: the comparator's result is a number; NaN counts as
    zero, so [a] comes after [b] exactly when [cmp a b > 0].  ECMAScript
    fixes the outcome when the comparator is consistent on [l], and
    leaves the order to the implementation otherwise. *)
Definition sort {A : Type} (cmp : A -> A -> number) (l : list A) : list A :=
  isort (fun a b => Num.ltb (Fin 0) (cmp a b)) l.

(** [l.sort()] on strings: by code units. *)
Definition sortStrings (l : list string) : list string :=
  isort (fun a b => Str.ltb b a) l.

(** [l.slice(0, n)]. *)
Definition slice0 {A : Type} (n : nat) (l : list A) : list A := firstn n l.

(** [l.map(f)] with the index passed to the callback. *)
Fixpoint mapi {A B : Type} (f : A -> nat -> B) (i : nat) (l : list A)
  : list B :=
  match l with
  | [] => []
  | a :: l' => f a i :: mapi f (S i) l'
  end.

(** [l[i] || d] on an array of strings. *)
Definition first_or (a b : option string) : option string :=
  match a with
  | Some EmptyString | None => b
  | Some _ => a
  end.

(** A value used as a property key: undefined reads as "undefined". *)
Definition propKey (o : option string) : string :=
  match o with
  | Some s => s
  | None => "undefined"%string
  end.

End Arr.

(* ================================================================== *)
(** ** lib/utils.ts *)

Module Utils.
Import Num Val.

Definition isNumeric (value : value) : bool :=
  match value with
  | VNull | VUndefined | VStr EmptyString => false
  | _ =>
      let str := Str.trim (ToString value) in
      negb (isNaN (Conv.StringToNumber str))
      && negb (isNaN (Conv.parseFloat str))
  end.

(** The string the two conversions of [isNumeric] read. *)
Definition trimmed (v : value) : string := Str.trim (ToString v).

End Utils.

(* ================================================================== *)
(** ** What the three chart components share *)

Module Roles.
Import Num Val Utils Arr.
Local Open Scope string_scope.

Definition ofNat (n : nat) : number := Num.ofZ (Z.of_nat n).

(** The literals 0.8, 0.2 and 0.5. *)
Definition lit_0_8 : number := of_decimal false 8 (-1).
Definition lit_0_2 : number := of_decimal false 2 (-1).
Definition lit_0_5 : number := of_decimal false 5 (-1).

(** [new Set(data.map((row) => row[column]))]. *)
Definition columnSet (data : list row) (column : string) : list value :=
  uniq (map (fun row => get row column) data).

(** The same in the three components: a column is numeric when at least
    80% of its values are. *)
Definition numericColumns (data : list row) (columns : list string)
  : list string :=
  filter (fun column =>
    let numericCount :=
      List.length (filter (fun row => isNumeric (get row column)) data) in
    Num.geb (Num.div (ofNat numericCount) (ofNat (List.length data))) lit_0_8)
    columns.

(** The column name suggests a state, a region or a location. *)
Definition regionLike (column : string) : bool :=
  let name := Str.toLowerCase column in
  Str.includes name "state"
  || Str.includes name "region"
  || Str.includes name "country"
  || Str.includes name "province"
  || Str.includes name "location"
  || Str.includes name "territory".

(** The same in the line and pie components. *)
Definition stateColumns (data : list row) (columns : list string)
  : list string :=
  filter (fun column =>
    if regionLike column then true
    else
      let uniqueValues := List.length (columnSet data column) in
      (2 <=? uniqueValues)%nat && (uniqueValues <=? 100)%nat)
    columns.

(** [String(row[column] || "Unknown")], the group label of a row. *)
Definition labelOf (column : string) (row : row) : string :=
  ToString (or_else (get row column) (VStr "Unknown")).

(** What a component renders. *)
Inductive outcome (S : Type) : Type :=
| NotEnoughColumns (message : string)
| Chart (series : S)
| NoValidData (message : string).

Arguments NotEnoughColumns {S} message.
Arguments Chart {S} series.
Arguments NoValidData {S} message.

Definition noData : string :=
  "No valid data for the selected columns. Try selecting different columns.".

End Roles.

(* ================================================================== *)
(** ** Grouping rows in an object *)

Module Group.
Import Val Obj.

Section Reduce.
Context {G : Type}.
Variable label : row -> string.
Variable numeric : row -> bool.
Variable init : string -> G.
Variable upd : row -> G -> G.

(** The shape the reducers of the bar and pie charts share. *)
Definition step (acc : Obj.t G) (row : row) : Obj.t G :=
  let l := label row in
  let acc1 := if has acc l then acc else set acc l (init l) in
  if numeric row then
    match getOwn acc1 l with
    | Some g => set acc1 l (upd row g)
    | None => acc1
    end
  else acc1.

(** The labels of the rows, each once, in the order of first appearance,
    those that resolve to a property of [Object.prototype] left out. *)
Definition groupKeys (data : list row) : list string :=
  uniqStr (filter (fun l => negb (inherited l)) (map label data)).

(** What the rows labelled [l] make of a group, taken in row order. *)
Definition total (l : string) (data : list row) (g0 : G) : G :=
  fold_left (fun g row =>
               if String.eqb (label row) l && numeric row then upd row g else g)
    data g0.

Definition touch (row : row) (g : G) : G :=
  if numeric row then upd row g else g.

End Reduce.
End Group.

(* ================================================================== *)
(** ** bar-chart-view *)

Module Bar.
Import Num Val Utils Arr Roles Item.
Local Open Scope string_scope.

Definition item : Type := Item.t.

Record state : Type := { xAxis : option string; yAxis : option string }.

Section View.
Variable data : list row.
Variable columns : list string.

Definition numericColumns : list string := Roles.numericColumns data columns.

Definition categoricalColumns : list string :=
  filter (fun column =>
    let uniqueValues := List.length (columnSet data column) in
    negb (existsb (String.eqb column) numericColumns)
    || Num.ltb (ofNat uniqueValues) (Num.mul (ofNat (List.length data)) lit_0_2))
    columns.

(** The initial values of the two [useState] hooks. *)
Definition initialState : state :=
  {| xAxis := first_or (nth_error categoricalColumns 0) (nth_error columns 0);
     yAxis := first_or (nth_error numericColumns 0)
                (first_or (nth_error columns 1) (nth_error columns 0)) |}.

Section Chart.
Variable st : state.

Let x : string := propKey (xAxis st).
Let y : string := propKey (yAxis st).

(** [{ [xAxis]: xValue, [yAxis]: 0, count: 0 }]. *)
Definition newGroup (xValue : string) : item :=
  Obj.set (Obj.set (Obj.set [] x (VStr xValue)) y (VNum (Fin 0)))
    "count" (VNum (Fin 0)).

(** The two updates of a group on a numeric row. *)
Definition bump (row : row) (g : item) : item :=
  addTo (addTo g y (VNum (ToNumber (get row y)))) "count" (VNum (Num.ofZ 1)).

(** The callback of [data.reduce].  When [acc[xValue]] resolves to a
    property inherited from [Object.prototype], no group is created and
    the updates land on that shared object: [acc] is left as it is. *)
Definition step (acc : Obj.t item) (row : row) : Obj.t item :=
  let xValue := labelOf x row in
  let acc1 := if Obj.has acc xValue then acc
              else Obj.set acc xValue (newGroup xValue) in
  if isNumeric (get row y) then
    match Obj.getOwn acc1 xValue with
    | Some g => Obj.set acc1 xValue (bump row g)
    | None => acc1
    end
  else acc1.

Definition groupedData : Obj.t item := fold_left step data [].

(** The keys of the groups, in the order the rows first show them. *)
Definition groupKeys : list string := Group.groupKeys (labelOf x) data.

(** The sum of the group [l]: [Number(row[yAxis])] over its numeric
    rows, added in row order starting from 0. *)
Definition groupSum (l : string) : number :=
  fold_left (fun s row =>
               if String.eqb (labelOf x row) l && isNumeric (get row y)
               then Num.add s (ToNumber (get row y)) else s)
    data (Fin 0).


(** The template literal of the [fill] property, for one draw of
    [Math.random]. *)
Definition fill (r : number) : string :=
  "hsl(var(--chart-"
  ++ ToString (VNum (Num.add (Num.floor (Num.mul r (Num.ofZ 5))) (Num.ofZ 1)))
  ++ "))".

(** [random i] is the result of the [i]-th call of [Math.random] made
    while the series is computed. *)
Definition chartData (random : nat -> number) : list item :=
  slice0 20
    (mapi (fun it i =>
             Obj.set (Obj.set (Obj.set [] x (read it x)) y (read it y))
               "fill" (VStr (fill (random i))))
       0 (Obj.values groupedData)).

Definition chartConfig : Obj.t (string * string) :=
  Obj.set [] y (y, "hsl(var(--chart-1))").

End Chart.

Definition notEnough : string :=
  "Not enough columns for a bar chart. Please upload a CSV with at least two columns.".


End View.
End Bar.

(* ================================================================== *)
(** ** pie-chart-view *)

Module Pie.
Import Num Val Utils Arr Roles.
Local Open Scope string_scope.

Record item : Type := { name : string; value : number }.

Record state : Type :=
  { labelColumn : option string;
    valueColumn : option string;
    stateColumn : string;
    selectedState : string;
    groupByState : bool }.

Definition nonEmpty (s : string) : bool :=
  match s with EmptyString => false | _ => true end.

Definition COLORS : list string :=
  [ "hsl(var(--chart-1))"; "hsl(var(--chart-2))"; "hsl(var(--chart-3))";
    "hsl(var(--chart-4))"; "hsl(var(--chart-5))";
    "hsl(var(--chart-6, var(--chart-1)))";
    "hsl(var(--chart-7, var(--chart-2)))";
    "hsl(var(--chart-8, var(--chart-3)))" ].

(** [COLORS[index % COLORS.length]]. *)
Definition color (index : nat) : string :=
  nth (index mod List.length COLORS) COLORS "".

Section View.
Variable data : list row.
Variable columns : list string.

Definition categoricalColumns : list string :=
  filter (fun column =>
    let uniqueValues := List.length (columnSet data column) in
    Num.ltb (ofNat uniqueValues)
      (Num.min (Num.mul (ofNat (List.length data)) lit_0_2) (Num.ofZ 10)))
    columns.

Definition numericColumns : list string := Roles.numericColumns data columns.

Definition stateColumns : list string := Roles.stateColumns data columns.

(** The initial values of the [useState] hooks. *)
Definition initialState : state :=
  {| labelColumn :=
       first_or (nth_error categoricalColumns 0) (nth_error columns 0);
     valueColumn :=
       first_or (nth_error numericColumns 0)
         (first_or (nth_error columns 1) (nth_error columns 0));
     stateColumn :=
       match first_or (nth_error stateColumns 0) (Some "") with
       | Some s => s
       | None => ""
       end;
     selectedState := "";
     groupByState := false |}.

Section Chart.
Variable st : state.

Definition stateOptions : list string :=
  if negb (nonEmpty (stateColumn st)) then []
  else sortStrings (uniqStr (map (labelOf (stateColumn st)) data)).

Definition filteredData : list row :=
  if nonEmpty (stateColumn st) && negb (groupByState st)
     && nonEmpty (selectedState st)
  then filter (fun row =>
                 String.eqb (ToString (get row (stateColumn st)))
                   (selectedState st)) data
  else data.

Definition actualLabelColumn : string :=
  if groupByState st && nonEmpty (stateColumn st) then stateColumn st
  else propKey (labelColumn st).

(** The callback of [filteredData.reduce]; see [Bar.step] for labels that
    resolve to a property of [Object.prototype]. *)
Definition step (acc : Obj.t item) (row : row) : Obj.t item :=
  let label := labelOf actualLabelColumn row in
  let acc1 := if Obj.has acc label then acc
              else Obj.set acc label {| name := label; value := Fin 0 |} in
  if isNumeric (get row (propKey (valueColumn st))) then
    match Obj.getOwn acc1 label with
    | Some g =>
        Obj.set acc1 label
          {| name := name g;
             value := Num.add (value g)
                        (ToNumber (get row (propKey (valueColumn st)))) |}
    | None => acc1
    end
  else acc1.

Definition groupedData : Obj.t item := fold_left step filteredData [].

(** The keys of the groups, in the order the rows first show them. *)
Definition groupKeys : list string :=
  Group.groupKeys (labelOf actualLabelColumn) filteredData.

(** The sum of the group [l]: [Number(row[valueColumn])] over its numeric
    rows, added in row order starting from 0. *)
Definition groupSum (l : string) : number :=
  fold_left (fun s row =>
               if String.eqb (labelOf actualLabelColumn row) l
                  && isNumeric (get row (propKey (valueColumn st)))
               then Num.add s (ToNumber (get row (propKey (valueColumn st))))
               else s)
    filteredData (Fin 0).

Definition chartData : list item :=
  slice0 12
    (sort (fun a b => Num.sub (value b) (value a))
       (filter (fun it => Num.gtb (value it) (Fin 0))
          (Obj.values groupedData))).

(** [config[item.name] = { label, color }] for each item in turn. *)
Definition chartConfig : Obj.t (string * string) :=
  fold_left (fun config e => Obj.set config (fst e) (snd e))
    (mapi (fun it index => (name it, (name it, color index))) 0 chartData)
    [].

(** The [fill] of the cell drawn for each item. *)
Definition cells : list (item * string) :=
  mapi (fun it index => (it, color index)) 0 chartData.

End Chart.

Definition notEnough : string :=
  "Not enough columns for a pie chart. Please upload a CSV with at least two columns.".

Definition PieChartView (st : state) : outcome (list (item * string)) :=
  if (List.length columns <? 2)%nat then NotEnoughColumns notEnough
  else if (0 <? List.length (chartData st))%nat
       then Chart (cells st)
       else NoValidData noData.

End View.
End Pie.

(* ================================================================== *)
(** ** line-chart-view *)

Module Line.
Import Num Val Utils Arr Roles Item.
Local Open Scope string_scope.

Definition item : Type := Item.t.

Record state : Type :=
  { xAxis : option string;
    yAxis : option string;
    stateColumn : string;
    selectedState : string;
    showAllStates : bool }.

(** One [<Line>] element: its name, the palette slot of its stroke when
    it has one of its own, and the points it draws. *)
Record line : Type :=
  { lineName : option string;
    colorIndex : option nat;
    points : list item }.

Definition nonEmpty (s : string) : bool :=
  match s with EmptyString => false | _ => true end.

(** The largest time value, 8.64e15 ms, in quanta. *)
Definition maxTime : Z := Num.scale 8640000000000000.

(** TimeClip. *)
Definition TimeClip (t : number) : number :=
  match t with
  | Fin k => if (maxTime <? Z.abs k)%Z then NaN else Fin (Num.trunc k)
  | NegZero => Fin 0
  | _ => NaN
  end.

(** The column name suggests a date or a time. *)
Definition dateLike (column : string) : bool :=
  let name := Str.toLowerCase column in
  Str.includes name "date"
  || Str.includes name "time"
  || Str.includes name "year"
  || Str.includes name "month"
  || Str.includes name "day".

Section View.

(** [Date.parse] on a string: a time value or NaN. *)
Variable Date_parse : string -> number.

Variable data : list row.
Variable columns : list string.

Definition numericColumns : list string := Roles.numericColumns data columns.

Definition sequentialColumns : list string :=
  filter (fun column =>
    if dateLike column then true
    else
      let uniqueValues := columnSet data column in
      if (3 <? List.length uniqueValues)%nat
         && Num.leb (ofNat (List.length uniqueValues))
              (Num.mul (ofNat (List.length data)) lit_0_5)
      then true
      else false)
    columns.

Definition stateColumns : list string := Roles.stateColumns data columns.

(** The initial values of the [useState] hooks. *)
Definition initialState : state :=
  {| xAxis := first_or (nth_error sequentialColumns 0) (nth_error columns 0);
     yAxis := first_or (nth_error numericColumns 0)
                (first_or (nth_error columns 1) (nth_error columns 0));
     stateColumn :=
       match first_or (nth_error stateColumns 0) (Some "") with
       | Some s => s
       | None => ""
       end;
     selectedState := "";
     showAllStates := true |}.

(** [new Date(v).getTime()]. *)
Definition getTime (v : value) : number :=
  TimeClip (match v with
            | VStr s => Date_parse s
            | _ => ToNumber v
            end).

Section Chart.
Variable st : state.

Let x : string := propKey (xAxis st).
Let y : string := propKey (yAxis st).

Definition stateOptions : list string :=
  if negb (nonEmpty (stateColumn st)) then []
  else sortStrings (uniqStr (map (labelOf (stateColumn st)) data)).

(** The test of [dataToSort.some] for dates. *)
Definition looksLikeDate (row : row) : bool :=
  let val := get row x in
  ToBoolean val && negb (isNaN (Date_parse (ToString val))).

Definition isDate : bool := existsb looksLikeDate data.

Definition isNum : bool := existsb (fun row => isNumeric (get row x)) data.

Definition byDate (a b : row) : number :=
  Num.sub (getTime (get a x)) (getTime (get b x)).

Definition byNumber (a b : row) : number :=
  Num.sub (ToNumber (get a x)) (ToNumber (get b x)).

Definition sortedData : list row :=
  if isDate then sort byDate data
  else if isNum then sort byNumber data
  else data.

Definition stateFilter (rows : list row) : list row :=
  if nonEmpty (stateColumn st) && negb (showAllStates st)
     && nonEmpty (selectedState st)
  then filter (fun row =>
                 String.eqb (ToString (get row (stateColumn st)))
                   (selectedState st)) rows
  else rows.

(** [row[xAxis] !== undefined && row[xAxis] !== null]. *)
Definition hasX (row : row) : bool :=
  match get row x with
  | VUndefined | VNull => false
  | _ => true
  end.

Definition point (row : row) : item :=
  let o :=
    Obj.set (Obj.set [] x (get row x)) y
      (VNum (if isNumeric (get row y) then ToNumber (get row y) else Fin 0)) in
  if nonEmpty (stateColumn st)
  then Obj.set o (stateColumn st) (get row (stateColumn st))
  else o.

Definition chartData : list item :=
  slice0 100 (map point (filter hasX (stateFilter sortedData))).

Definition chartConfig : Obj.t (string * string) :=
  if nonEmpty (stateColumn st) && negb (showAllStates st) then
    Obj.set [] y
      ((if nonEmpty (selectedState st) then selectedState st else "All")
         ++ " - " ++ y, "hsl(var(--chart-1))")
  else if nonEmpty (stateColumn st) && showAllStates st then
    let uniqueStates :=
      uniqStr
        (map (fun it =>
                ToString (or_else (read it (stateColumn st)) (VStr "Unknown")))
           chartData) in
    fold_left (fun config e => Obj.set config (fst e) (snd e))
      (mapi (fun state index =>
               (state,
                (state,
                 "hsl(var(--chart-"
                 ++ Str.ofZ (Z.of_nat (index mod 5 + 1)) ++ "))")))
         0 uniqueStates)
      []
  else Obj.set [] y (y, "hsl(var(--chart-1))").

(** The points of the line drawn for one option of the state selector. *)
Definition subSeries (state : string) : list item :=
  filter (fun it => String.eqb (ToString (read it (stateColumn st))) state)
    chartData.

Definition lines : list line :=
  if nonEmpty (stateColumn st) && showAllStates st then
    mapi (fun state index =>
            {| lineName := Some state;
               colorIndex := Some (index mod 5 + 1)%nat;
               points := subSeries state |})
      0 stateOptions
  else [ {| lineName := None; colorIndex := None; points := chartData |} ].

End Chart.

Definition notEnough : string :=
  "Not enough columns for a line chart. Please upload a CSV with at least two columns.".

Definition LineChartView (st : state) : outcome (list line) :=
  if (List.length columns <? 2)%nat then NotEnoughColumns notEnough
  else if (0 <? List.length (chartData st))%nat
       then Chart (lines st)
       else NoValidData noData.

End View.

(** *** The ISO date-only format

    ECMAScript fixes what [Date.parse] returns on the date-time string
    format; on anything else an implementation may fall back to formats of
    its own or return NaN.  [isoDateParse] reads the date-only form
    YYYY-MM-DD, which is UTC, and returns NaN on everything else. *)

Definition isLeap (yr : Z) : bool :=
  ((yr mod 4 =? 0) && negb (yr mod 100 =? 0) || (yr mod 400 =? 0))%Z.

Definition daysInMonth (yr m : Z) : Z :=
  (if m =? 2 then (if isLeap yr then 29 else 28)
   else if (m =? 4) || (m =? 6) || (m =? 9) || (m =? 11) then 30
   else 31)%Z.

(** Days from 1970-01-01 to the given civil date. *)
Definition daysFromCivil (yr m d : Z) : Z :=
  (let y' := if m <=? 2 then yr - 1 else yr in
   let era := y' / 400 in
   let yoe := y' - era * 400 in
   let mp := (m + 9) mod 12 in
   let doy := (153 * mp + 2) / 5 + d - 1 in
   let doe := yoe * 365 + yoe / 4 - yoe / 100 + doy in
   era * 146097 + doe - 719468)%Z.

Definition twoDigits (a b : ascii) : option Z :=
  if Conv.isDigit a && Conv.isDigit b
  then Some (10 * Conv.digitVal a + Conv.digitVal b)%Z
  else None.

Definition isoDateParse (s : string) : number :=
  match s with
  | String y1 (String y2 (String y3 (String y4
      (String "-" (String m1 (String m2
        (String "-" (String d1 (String d2 EmptyString))))))))) =>
      match twoDigits y1 y2, twoDigits y3 y4, twoDigits m1 m2, twoDigits d1 d2
      with
      | Some yh, Some yl, Some m, Some d =>
          let yr := (100 * yh + yl)%Z in
          if ((1 <=? m) && (m <=? 12) && (1 <=? d)
              && (d <=? daysInMonth yr m))%Z
          then Num.ofZ (daysFromCivil yr m d * 86400000)
          else NaN
      | _, _, _, _ => NaN
      end
  | _ => NaN
  end.

End Line.

(* ================================================================== *)
(** ** Numbers that binary64 holds *)

Module Binary64.
Import Num.

(** [Fin k] is a binary64 number when [k] has at most 53 significant
    bits and is below the overflow threshold; every value a script can
    hold is one. *)
Definition representable (x : number) : bool :=
  match x with
  | Fin k => (round_pow2 (Z.abs k) 0 =? Z.abs k) && (Z.abs k <? overflow)
  | _ => true
  end.

(** The largest length of an array, 2^32 - 1. *)
Definition maxLength : Z := 4294967295.

End Binary64.

(* ================================================================== *)
(** ** data-table *)

Module Table.
Import Num Val Arr.
Local Open Scope string_scope.
Local Open Scope Z_scope.

(** Page numbers and indices are integers far below 2^53, on which
    binary64 arithmetic is exact: they are integers here.  The one
    quotient that is no integer, [filteredData.length / itemsPerPage], is
    computed in binary64. *)

(** An entry of [pageNumbers]: a number or the string "...". *)
Inductive page : Type :=
| PageNum (n : Z)
| Ellipsis.

Record state : Type := { currentPage : Z; searchTerm : string }.

Definition initialState : state := {| currentPage := 1; searchTerm := "" |}.

Definition itemsPerPage : Z := 10.

Definition maxPageButtons : Z := 5.

(** [Math.ceil]. *)
Definition ceil (x : number) : number :=
  match x with
  | Fin k =>
      let q := - Z.shiftr (- k) 1074 in
      if (q =? 0) && (k <? 0) then NegZero else Fin (scale q)
  | _ => x
  end.

(** The integer a number holds. *)
Definition toZ (x : number) : Z := Z.shiftr (quanta x) 1074.

(** [l.slice(start, end)]: a negative index counts from the end. *)
Definition slice {A : Type} (start end_ : Z) (l : list A) : list A :=
  let len := Z.of_nat (List.length l) in
  let k := if start <? 0 then Z.max (len + start) 0 else Z.min start len in
  let final := if end_ <? 0 then Z.max (len + end_) 0 else Z.min end_ len in
  firstn (Z.to_nat (final - k)) (skipn (Z.to_nat k) l).

(** The integers from [start] to [end_], as the loop
    [for (let i = start; i <= end; i++)] visits them. *)
Definition range (start end_ : Z) : list Z :=
  map (fun i => start + Z.of_nat i) (seq 0 (Z.to_nat (end_ - start + 1))).

(** What the component renders: the three numbers of the "Showing"
    line, the rows of the table body ([None] for the "No data found"
    row) and the entries of the pagination ([None] when it is not
    rendered). *)
Record view : Type :=
  { showingFrom : Z;
    showingTo : Z;
    showingOf : Z;
    tableRows : option (list row);
    pager : option (list page) }.

Inductive event : Type :=
| Search (term : string)
| Previous
| Next
| Click (index : nat).

Section View.
Variable data : list row.
Variable columns : list string.

Section Render.
Variable st : state.

(** The predicate of [data.filter]. *)
Definition found (row : row) : bool :=
  existsb (fun value =>
             Str.includes (Str.toLowerCase (ToString value))
               (Str.toLowerCase (searchTerm st)))
    (Obj.values row).

Definition filteredData : list row := filter found data.

Definition totalPages : Z :=
  toZ (ceil (Num.div (Num.ofZ (Z.of_nat (List.length filteredData)))
               (Num.ofZ itemsPerPage))).

Definition startIndex : Z := (currentPage st - 1) * itemsPerPage.

Definition paginatedData : list row :=
  slice startIndex (startIndex + itemsPerPage) filteredData.

Definition pageNumbers : list page :=
  if totalPages <=? maxPageButtons then map PageNum (range 1 totalPages)
  else
    let start := Z.max 2 (currentPage st - 1) in
    let end_ := Z.min (totalPages - 1) (currentPage st + 1) in
    let '(start, end_) :=
      if currentPage st <=? 2
      then (start, Z.min (totalPages - 1) (maxPageButtons - 1))
      else if totalPages - 2 <=? currentPage st
      then (Z.max 2 (totalPages - maxPageButtons + 2), end_)
      else (start, end_) in
    [PageNum 1]
    ++ (if 2 <? start then [Ellipsis] else [])
    ++ map PageNum (range start end_)
    ++ (if end_ <? totalPages - 1 then [Ellipsis] else [])
    ++ (if 1 <? totalPages then [PageNum totalPages] else []).

Definition DataTable : view :=
  let n := Z.of_nat (List.length filteredData) in
  {| showingFrom := if 0 <? n then startIndex + 1 else 0;
     showingTo := Z.min (startIndex + itemsPerPage) n;
     showingOf := n;
     tableRows :=
       if (0 <? List.length paginatedData)%nat then Some paginatedData
       else None;
     pager := if 1 <? totalPages then Some pageNumbers else None |}.

(** The handlers.  Those of the pagination exist only while it is
    rendered; an entry "..." is a plain [span]. *)
Definition handle (e : event) : state :=
  match e with
  | Search term => {| currentPage := 1; searchTerm := term |}
  | Previous =>
      if 1 <? totalPages
      then {| currentPage := Z.max (currentPage st - 1) 1;
              searchTerm := searchTerm st |}
      else st
  | Next =>
      if 1 <? totalPages
      then {| currentPage := Z.min (currentPage st + 1) totalPages;
              searchTerm := searchTerm st |}
      else st
  | Click index =>
      if 1 <? totalPages then
        match nth_error pageNumbers index with
        | Some (PageNum p) =>
            {| currentPage := p; searchTerm := searchTerm st |}
        | _ => st
        end
      else st
  end.

End Render.

(** The state after a sequence of events, from the initial one. *)
Definition run (events : list event) : state :=
  fold_left handle events initialState.

End View.
End Table.

(* ================================================================== *)
(** ** page.tsx *)

Module Home.
Import Val.
Local Open Scope string_scope.

Record state : Type :=
  { csvData : list row;
    columns : list string;
    fileName : string;
    isLoading : bool }.

Definition initialState : state :=
  {| csvData := []; columns := []; fileName := ""; isLoading := false |}.

(** What happens to the page: a change of the file input, with the name
    of the chosen file if there is one, and the two callbacks of
    [Papa.parse], [complete] with the rows it parsed. *)
Inductive event : Type :=
| Change (file : option string)
| Complete (data : list row)
| Error.

Definition handle (st : state) (e : event) : state :=
  match e with
  | Change None => st
  | Change (Some name) =>
      {| csvData := csvData st; columns := columns st;
         fileName := name; isLoading := true |}
  | Complete data =>
      {| csvData := data;
         columns := match data with
                    | row0 :: _ => Obj.keys row0
                    | [] => columns st
                    end;
         fileName := fileName st;
         isLoading := false |}
  | Error =>
      {| csvData := csvData st; columns := columns st;
         fileName := fileName st; isLoading := false |}
  end.

Definition run (events : list event) : state :=
  fold_left handle events initialState.

(** What the page shows: the upload card, or the heading with the tabs,
    each of which is handed [csvData] and [columns]. *)
Inductive screen : Type :=
| UploadCard
| Dashboard (name : string) (rows : nat) (cols : nat)
    (data : list row) (columns : list string).

Definition render (st : state) : screen :=
  match csvData st with
  | [] => UploadCard
  | _ =>
      Dashboard (fileName st) (List.length (csvData st))
        (List.length (columns st)) (csvData st) (columns st)
  end.

End Home.

(* ================================================================== *)
(** ** Datasets and selections of the scenarios *)

Module Examples.
Import Num Val Roles.
Local Open Scope string_scope.

(** The dataset of the end-to-end scenario. *)
Definition sample : list row :=
  [ [("category", VStr "A"); ("amount", VStr "10")];
    [("category", VStr "B"); ("amount", VStr "20")];
    [("category", VStr "A"); ("amount", VStr "5")] ].

Definition barOnCategory : Bar.state :=
  {| Bar.xAxis := Some "category"; Bar.yAxis := Some "amount" |}.

(** Two rows whose keys are the numerals 2 and 1, in that order. *)
Definition numbered : list row :=
  [ [("category", VStr "2"); ("amount", VStr "1")];
    [("category", VStr "1"); ("amount", VStr "1")] ].

(** Twenty-one rows keyed 20, 19, ..., 0, with no value column. *)
Definition countdown : list row :=
  map (fun k => [("category", VStr k)])
    [ "20"; "19"; "18"; "17"; "16"; "15"; "14"; "13"; "12"; "11"; "10";
      "9"; "8"; "7"; "6"; "5"; "4"; "3"; "2"; "1"; "0" ].

(** Rows whose key is the number 0, false, the string "0", the empty
    string, and missing. *)
Definition falsyKeys : list row :=
  [ [("category", VNum (Fin 0)); ("amount", VStr "1")];
    [("category", VBool false); ("amount", VStr "1")];
    [("category", VStr "0"); ("amount", VStr "1")];
    [("category", VStr ""); ("amount", VStr "1")];
    [("amount", VStr "1")] ].

(** Two groups with the same sum. *)
Definition tied : list row :=
  [ [("category", VStr "A"); ("amount", VStr "5")];
    [("category", VStr "B"); ("amount", VStr "5")] ].

Definition pieOnCategory : Pie.state :=
  {| Pie.labelColumn := Some "category";
     Pie.valueColumn := Some "amount";
     Pie.stateColumn := "";
     Pie.selectedState := "";
     Pie.groupByState := false |}.

Definition showAll (x y g : string) : Line.state :=
  {| Line.xAxis := Some x; Line.yAxis := Some y; Line.stateColumn := g;
     Line.selectedState := ""; Line.showAllStates := true |}.


(** A region column with a blank cell. *)
Definition blanks : list row :=
  [ [("n", VStr "1"); ("v", VStr "10"); ("region", VStr "")];
    [("n", VStr "2"); ("v", VStr "20"); ("region", VStr "CA")] ].

(** The rows of the sequential-axis scenario. *)
Definition twoDates : list row :=
  [ [("date", VStr "2023-01-02")]; [("date", VStr "2023-01-01")] ].

Definition onDate : Line.state :=
  {| Line.xAxis := Some "date"; Line.yAxis := Some "value";
     Line.stateColumn := ""; Line.selectedState := "";
     Line.showAllStates := true |}.

(** A date column with a cell that is no date. *)
Definition mixedDates : list row :=
  [ [("date", VStr "2023-01-02")]; [("date", VStr "n/a")];
    [("date", VStr "2023-01-01")] ].

(** A constant key column and a value column that is numeric at 80%. *)
Definition measurements : list row :=
  [ [("k", VStr "a"); ("v", VStr "1")];
    [("k", VStr "a"); ("v", VStr "2")];
    [("k", VStr "a"); ("v", VStr "3")];
    [("k", VStr "a"); ("v", VStr "4")];
    [("k", VStr "a"); ("v", VStr "n/a")] ].

(** The draw 0.5. *)
Definition half : number := of_decimal false 5 (-1).

End Examples.

(* ================================================================== *)
(** * Properties *)

(** ** Numbers *)

Module NumFacts.
Import Num.

Lemma round_pow2_zero : round_pow2 0 0 = 0.
Proof. reflexivity. Qed.

Lemma round_pow2_pos : forall n, 0 < n -> 0 < round_pow2 n 0.
Proof.
  intros n Hn. unfold round_pow2.
  rewrite Z.shiftr_0_r.
  set (s := Z.max 0 (Z.log2 n - 52)).
  assert (Hs : 0 <= s) by (unfold s; lia).
  assert (Hp : 0 < 2 ^ s) by (apply Z.pow_pos_nonneg; lia).
  assert (Hle : 2 ^ s <= n).
  { destruct (Z.log2_spec n Hn) as [Hlo _].
    destruct (Z.le_gt_cases (Z.log2 n - 52) 0) as [H|H].
    - replace s with 0 by (unfold s; lia). simpl. lia.
    - replace s with (Z.log2 n - 52) by (unfold s; lia).
      apply Z.le_trans with (2 ^ Z.log2 n); [|exact Hlo].
      apply Z.pow_le_mono_r; lia. }
  rewrite Z.add_0_l.
  rewrite !Z.shiftl_mul_pow2, Z.shiftr_div_pow2 by exact Hs.
  assert (Hq : 1 <= n / 2 ^ s).
  { apply Z.div_le_lower_bound; lia. }
  destruct (2 * (n - n / 2 ^ s * 2 ^ s) <? 1 * 2 ^ s); [nia|].
  destruct (1 * 2 ^ s <? 2 * (n - n / 2 ^ s * 2 ^ s)); [nia|].
  destruct (Z.even (n / 2 ^ s)); nia.
Qed.

Lemma overflow_pos : 0 < overflow.
Proof. unfold overflow. rewrite Z.shiftl_mul_pow2 by lia. lia. Qed.

(** A number built from a sign and a magnitude is positive exactly when
    the sign is plus and the magnitude is not zero. *)
Lemma ltb_zero_mkFin : forall s m, 0 <= m ->
  ltb (Fin 0) (mkFin s m) = negb s && (0 <? m).
Proof.
  intros s m Hm. unfold mkFin. pose proof overflow_pos.
  destruct (overflow <=? m) eqn:Ho.
  - apply Z.leb_le in Ho.
    replace (0 <? m) with true by (symmetry; apply Z.ltb_lt; lia).
    destruct s; reflexivity.
  - destruct (m =? 0) eqn:Hz.
    + apply Z.eqb_eq in Hz. subst m. destruct s; reflexivity.
    + apply Z.eqb_neq in Hz.
      replace (0 <? m) with true by (symmetry; apply Z.ltb_lt; lia).
      destruct s; simpl.
      * apply Z.ltb_ge. lia.
      * apply Z.ltb_lt. lia.
Qed.

Lemma round_abs_pos : forall c, (0 <? round_pow2 (Z.abs c) 0) = negb (c =? 0).
Proof.
  intros c. destruct (c =? 0) eqn:Hc.
  - apply Z.eqb_eq in Hc. subst c. reflexivity.
  - apply Z.eqb_neq in Hc. simpl. apply Z.ltb_lt, round_pow2_pos. lia.
Qed.

Lemma round_abs_nonneg : forall c, 0 <= round_pow2 (Z.abs c) 0.
Proof.
  intros c. destruct (Z.eq_dec c 0) as [->|Hc].
  - simpl Z.abs. rewrite round_pow2_zero; lia.
  - pose proof (round_pow2_pos (Z.abs c)). lia.
Qed.

Lemma add_Fin_pos : forall a b,
  ltb (Fin 0) (add (Fin a) (Fin b)) = (0 <? a + b).
Proof.
  intros a b. cbn [add].
  rewrite ltb_zero_mkFin by apply round_abs_nonneg.
  rewrite round_abs_pos.
  destruct (Z.ltb_spec (a + b) 0), (Z.eqb_spec (a + b) 0),
    (Z.ltb_spec 0 (a + b)); simpl; try reflexivity; lia.
Qed.

(** The sign of a difference decides the comparison: [x - y > 0] exactly
    when [y < x], for numbers other than NaN. *)
Lemma sub_pos : forall x y, isNaN x = false -> isNaN y = false ->
  ltb (Fin 0) (sub x y) = ltb y x.
Proof.
  intros x y Hx Hy. unfold sub.
  destruct x as [| | | |a]; try discriminate;
    destruct y as [| | | |b]; try discriminate; try reflexivity.
  - destruct b as [|p|p]; reflexivity.
  - destruct b as [|p|p]; reflexivity.
  - destruct b as [|p|p]; reflexivity.
  - change (neg NegZero) with (Fin 0). rewrite add_Fin_pos.
    simpl. f_equal. lia.
  - destruct b as [|p|p].
    + simpl neg. cbn [add ltb quanta]. reflexivity.
    + change (neg (Fin (Z.pos p))) with (Fin (- Z.pos p)).
      rewrite add_Fin_pos. simpl ltb.
      destruct (Z.ltb_spec 0 (a + - Z.pos p));
        destruct (Z.ltb_spec (Z.pos p) a); try reflexivity; lia.
    + change (neg (Fin (Z.neg p))) with (Fin (- Z.neg p)).
      rewrite add_Fin_pos. simpl ltb.
      destruct (Z.ltb_spec 0 (a + - Z.neg p));
        destruct (Z.ltb_spec (Z.neg p) a); try reflexivity; lia.
Qed.

Lemma ltb_irrefl : forall x, ltb x x = false.
Proof. destruct x; try reflexivity. simpl. apply Z.ltb_irrefl. Qed.

Lemma ltb_asym : forall x y, ltb x y = true -> ltb y x = false.
Proof.
  intros x y. destruct x, y; simpl; try discriminate; try reflexivity;
    intros H; apply Z.ltb_lt in H; apply Z.ltb_ge; simpl in *; lia.
Qed.

Lemma ltb_not_NaN : forall x y, ltb x y = true -> isNaN x = false /\ isNaN y = false.
Proof. intros x y; destruct x, y; simpl; try discriminate; auto. Qed.

(** [x <= y] is the negation of [y < x], NaN apart. *)
Lemma leb_ltb : forall x y, isNaN x = false -> isNaN y = false ->
  leb x y = negb (ltb y x).
Proof.
  intros x y Hx Hy.
  destruct x, y; try discriminate; try reflexivity; simpl;
    apply Z.leb_antisym.
Qed.

Lemma leb_trans : forall x y z,
  leb x y = true -> leb y z = true -> leb x z = true.
Proof.
  intros x y z.
  destruct x, y, z; simpl; try discriminate; try reflexivity;
    intros H1 H2; apply Z.leb_le in H1; apply Z.leb_le in H2;
    apply Z.leb_le; simpl in *; lia.
Qed.

(** A positive number is not [<= 0]. *)
Lemma gtb_zero_not_leb : forall x,
  gtb x (Fin 0) = true -> leb x (Fin 0) = false.
Proof.
  intros x. unfold gtb.
  destruct x; simpl; try discriminate; try reflexivity.
  intros H. apply Z.ltb_lt in H. apply Z.leb_gt. exact H.
Qed.

End NumFacts.

(** ** Lists *)

Module ListFacts.
Import Val.

Lemma filter_none : forall {A : Type} (p : A -> bool) l,
  (forall a, p a = false) -> filter p l = [].
Proof.
  intros A p l H. induction l as [|a l IH]; simpl; [reflexivity|].
  rewrite H. exact IH.
Qed.

Lemma filter_all : forall {A : Type} (p : A -> bool) l,
  (forall a, p a = true) -> filter p l = l.
Proof.
  intros A p l H. induction l as [|a l IH]; simpl; [reflexivity|].
  rewrite H, IH. reflexivity.
Qed.

Lemma filter_filter : forall {A : Type} (p q : A -> bool) l,
  filter p (filter q l) = filter (fun a => q a && p a) l.
Proof.
  intros A p q l. induction l as [|a l IH]; simpl; [reflexivity|].
  destruct (q a); simpl; [destruct (p a)|]; rewrite IH; reflexivity.
Qed.

Lemma filter_ext_In' : forall {A : Type} (p q : A -> bool) l,
  (forall a, In a l -> p a = q a) -> filter p l = filter q l.
Proof.
  intros A p q l. induction l as [|a l IH]; intros H; simpl; [reflexivity|].
  rewrite (H a) by (simpl; auto). rewrite IH by (intros; apply H; simpl; auto).
  reflexivity.
Qed.

Lemma filter_true : forall {A : Type} (l : list A), filter (fun _ => true) l = l.
Proof. induction l; simpl; congruence. Qed.

Lemma existsb_app1 : forall (k : string) ks a,
  existsb (String.eqb k) (ks ++ [a]) = existsb (String.eqb k) ks || String.eqb a k.
Proof.
  intros k ks a. rewrite existsb_app. simpl. rewrite orb_false_r.
  rewrite (String.eqb_sym k a). reflexivity.
Qed.

Lemma existsb_ext_In : forall {A : Type} (f g : A -> bool) l,
  (forall a, In a l -> f a = g a) -> existsb f l = existsb g l.
Proof.
  intros A f g l. induction l as [|a l IH]; intros H; simpl; [reflexivity|].
  rewrite (H a) by (simpl; auto). rewrite IH by (intros; apply H; simpl; auto).
  reflexivity.
Qed.

Lemma uniqStr_In : forall l k, In k (uniqStr l) <-> In k l.
Proof.
  induction l as [|a l IH]; intros k; simpl.
  - tauto.
  - rewrite filter_In, IH. destruct (String.eqb_spec a k) as [->|Hne].
    + simpl. split; auto. 
    + simpl. split.
      * intros [H|[H _]]; auto.
      * intros [H|H]; auto.
Qed.

Lemma uniqStr_NoDup : forall l, NoDup (uniqStr l).
Proof.
  induction l as [|a l IH]; simpl.
  - constructor.
  - constructor.
    + rewrite filter_In. intros [_ H]. rewrite String.eqb_refl in H.
      discriminate.
    + apply NoDup_filter, IH.
Qed.

Lemma firstn_le : forall {A : Type} n (l : list A),
  (List.length (firstn n l) <= n)%nat.
Proof. intros A n l. rewrite length_firstn. lia. Qed.

Lemma In_firstn : forall {A : Type} n (l : list A) a,
  In a (firstn n l) -> In a l.
Proof.
  intros A n l a H. rewrite <- (firstn_skipn n l). apply in_or_app. auto.
Qed.


Lemma StronglySorted_weaken :
  forall {A : Type} (P : A -> Prop) (R R' : A -> A -> Prop) l,
  Forall P l ->
  (forall a b, P a -> P b -> R a b -> R' a b) ->
  StronglySorted R l -> StronglySorted R' l.
Proof.
  intros A P R R' l HP HR Hs. induction Hs as [|a l Hs IH Ha].
  - constructor.
  - inversion HP as [|? ? Pa Pl]; subst. constructor.
    + apply IH, Pl.
    + rewrite Forall_forall in *. intros b Hb. apply HR; auto.
Qed.

Lemma StronglySorted_firstn :
  forall {A : Type} (R : A -> A -> Prop) n l,
  StronglySorted R l -> StronglySorted R (firstn n l).
Proof.
  intros A R n l Hs. revert n. induction Hs as [|a l Hs IH Ha]; intros n.
  - rewrite firstn_nil. constructor.
  - destruct n as [|n]; simpl; constructor.
    + apply IH.
    + rewrite Forall_forall in *. intros b Hb. apply Ha.
      apply In_firstn in Hb. exact Hb.
Qed.

End ListFacts.

(** ** Sorting *)

Module ArrFacts.
Import Arr.

Section Isort.
Context {A : Type}.
Variable after : A -> A -> bool.

Lemma insert_perm : forall a l, Permutation (insert after a l) (a :: l).
Proof.
  intros a l. induction l as [|b l IH]; simpl.
  - apply Permutation_refl.
  - destruct (after a b).
    + apply Permutation_trans with (b :: a :: l).
      * apply perm_skip. exact IH.
      * apply perm_swap.
    + apply Permutation_refl.
Qed.

Lemma isort_perm : forall l, Permutation (isort after l) l.
Proof.
  induction l as [|a l IH]; simpl.
  - apply perm_nil.
  - apply Permutation_trans with (a :: isort after l).
    + apply insert_perm.
    + apply perm_skip. exact IH.
Qed.

Lemma isort_In : forall l a, In a (isort after l) <-> In a l.
Proof.
  intros l a. split; apply Permutation_in.
  - apply isort_perm.
  - apply Permutation_sym, isort_perm.
Qed.

Lemma isort_length : forall l, List.length (isort after l) = List.length l.
Proof. intros l. apply Permutation_length, isort_perm. Qed.

(** The comparison is consistent on the elements that satisfy [P]. *)
Variable P : A -> Prop.
Hypothesis asym : forall a b, P a -> P b -> after a b = true -> after b a = false.
Hypothesis trans : forall a b c, P a -> P b -> P c ->
  after a b = false -> after b c = false -> after a c = false.

Lemma insert_sorted : forall a l, P a -> Forall P l ->
  StronglySorted (ord after) l -> StronglySorted (ord after) (insert after a l).
Proof.
  intros a l Pa. induction l as [|b l IH]; intros Pl Hs; simpl.
  - constructor; constructor.
  - inversion Pl as [|? ? Pb Pl']; subst.
    inversion Hs as [|? ? Hs' Hb]; subst.
    destruct (after a b) eqn:Hab.
    + constructor.
      * apply IH; assumption.
      * apply Forall_forall. intros c Hc.
        apply (Permutation_in _ (insert_perm a l)) in Hc.
        destruct Hc as [<-|Hc].
        -- apply asym; assumption.
        -- rewrite Forall_forall in Hb. apply Hb, Hc.
    + constructor; [exact Hs|].
      constructor; [exact Hab|].
      apply Forall_forall. intros c Hc.
      rewrite Forall_forall in Hb, Pl'.
      apply trans with b; auto. apply Hb, Hc.
Qed.

Lemma isort_sorted : forall l, Forall P l -> StronglySorted (ord after) (isort after l).
Proof.
  induction l as [|a l IH]; intros Pl; simpl.
  - constructor.
  - inversion Pl as [|? ? Pa Pl']; subst. apply insert_sorted; auto.
    apply Forall_forall. intros b Hb. apply (proj1 (isort_In _ _)) in Hb.
    rewrite Forall_forall in Pl'. auto.
Qed.

End Isort.

Section Stable.
Context {A : Type}.
Variable after : A -> A -> bool.
Variable sel : A -> bool.

Lemma insert_filter : forall a l,
  (sel a = true -> forall b, In b l -> sel b = true -> after a b = false) ->
  filter sel (insert after a l) = filter sel (a :: l).
Proof.
  intros a l. induction l as [|b l IH]; intros H; simpl.
  - reflexivity.
  - destruct (after a b) eqn:Hab.
    + simpl. rewrite IH by (intros Ha c Hc; apply H; simpl; auto).
      simpl. destruct (sel a) eqn:Ha; [|reflexivity].
      destruct (sel b) eqn:Hb; [|reflexivity].
      rewrite (H eq_refl b) in Hab by (simpl; auto). discriminate.
    + reflexivity.
Qed.

(** The sort is stable: elements that the comparison does not tell apart
    keep their order. *)
Lemma isort_stable : forall l,
  (forall a b, In a l -> In b l -> sel a = true -> sel b = true ->
     after a b = false) ->
  filter sel (isort after l) = filter sel l.
Proof.
  induction l as [|a l IH]; intros H; simpl.
  - reflexivity.
  - rewrite insert_filter.
    + simpl. rewrite IH by (intros; apply H; simpl; auto). reflexivity.
    + intros Ha b Hb Hsb. apply (proj1 (isort_In _ _ _)) in Hb.
      apply H; simpl; auto.
Qed.

End Stable.


Lemma mapi_map : forall {A B C : Type} (f : A -> nat -> B) (g : B -> C) l i,
  map g (mapi f i l) = mapi (fun a j => g (f a j)) i l.
Proof.
  intros A B C f g l. induction l as [|a l IH]; intros i; simpl;
    [reflexivity|]. rewrite IH. reflexivity.
Qed.

Lemma mapi_const : forall {A B : Type} (f : A -> B) l i,
  mapi (fun a _ => f a) i l = map f l.
Proof.
  intros A B f l. induction l as [|a l IH]; intros i; simpl;
    [reflexivity|]. rewrite IH. reflexivity.
Qed.

Lemma mapi_ext : forall {A B : Type} (f g : A -> nat -> B) l i,
  (forall a j, f a j = g a j) -> mapi f i l = mapi g i l.
Proof.
  intros A B f g l. induction l as [|a l IH]; intros i H; simpl;
    [reflexivity|]. rewrite H, IH by exact H. reflexivity.
Qed.

Lemma mapi_nth_error : forall {A B : Type} (f : A -> nat -> B) l i n,
  nth_error (mapi f i l) n = option_map (fun a => f a (i + n)%nat) (nth_error l n).
Proof.
  intros A B f l. induction l as [|a l IH]; intros i n.
  - destruct n; reflexivity.
  - destruct n; simpl.
    + rewrite Nat.add_0_r. reflexivity.
    + rewrite IH. rewrite Nat.add_succ_comm. reflexivity.
Qed.

Lemma isort_ext_In : forall {A : Type} (f g : A -> A -> bool) l,
  (forall a b, In a l -> In b l -> f a b = g a b) ->
  isort f l = isort g l.
Proof.
  intros A f g l. induction l as [|a l IH]; intros H; simpl; [reflexivity|].
  rewrite <- IH by (intros; apply H; simpl; auto).
  assert (Hi : forall m, (forall b, In b m -> In b l) ->
                 insert f a m = insert g a m).
  { induction m as [|b m IHm]; intros Hm; simpl; [reflexivity|].
    rewrite (H a b) by (simpl; auto using Hm, in_eq).
    rewrite IHm by (intros; apply Hm; simpl; auto). reflexivity. }
  apply Hi. intros b Hb. apply (proj1 (ArrFacts.isort_In _ _ _)) in Hb.
  exact Hb.
Qed.

End ArrFacts.

(** ** Objects *)

Module ObjFacts.
Import Val Obj ListFacts.

Section Props.
Context {A : Type}.

Lemma getOwn_set_same : forall (o : t A) k v, getOwn (set o k v) k = Some v.
Proof.
  induction o as [|[k' v'] o IH]; intros k v; simpl.
  - rewrite String.eqb_refl. reflexivity.
  - destruct (String.eqb k' k) eqn:E; simpl; rewrite ?E; auto.
Qed.

Lemma getOwn_set_other : forall (o : t A) k v k', k <> k' ->
  getOwn (set o k v) k' = getOwn o k'.
Proof.
  induction o as [|[k0 v0] o IH]; intros k v k' Hk; simpl.
  - apply String.eqb_neq in Hk. rewrite Hk. reflexivity.
  - destruct (String.eqb k0 k) eqn:E; simpl.
    + apply String.eqb_eq in E. subst k0.
      apply String.eqb_neq in Hk. rewrite Hk. reflexivity.
    + destruct (String.eqb k0 k'); auto.
Qed.

Lemma getOwn_None : forall (o : t A) k,
  getOwn o k = None <-> ~ In k (map fst o).
Proof.
  induction o as [|[k' v'] o IH]; intros k; simpl.
  - tauto.
  - destruct (String.eqb_spec k' k) as [->|Hne].
    + split; [discriminate|]. intros H. exfalso. apply H. auto.
    + rewrite IH. tauto.
Qed.

Lemma getOwn_In : forall (o : t A) k v, getOwn o k = Some v -> In (k, v) o.
Proof.
  induction o as [|[k' v'] o IH]; intros k v; simpl.
  - discriminate.
  - destruct (String.eqb_spec k' k) as [->|Hne].
    + intros H. inversion H. auto.
    + auto.
Qed.

Lemma In_getOwn : forall (o : t A) k v,
  NoDup (map fst o) -> In (k, v) o -> getOwn o k = Some v.
Proof.
  induction o as [|[k' v'] o IH]; intros k v Hnd Hin; simpl in *.
  - contradiction.
  - inversion Hnd as [|? ? Hni Hnd']; subst.
    destruct Hin as [Heq|Hin].
    + inversion Heq; subst. rewrite String.eqb_refl. reflexivity.
    + destruct (String.eqb_spec k' k) as [->|Hne].
      * exfalso. apply Hni. apply in_map_iff. exists (k, v). auto.
      * auto.
Qed.

(** Writing a property the object has keeps the keys; writing a new one
    adds it last. *)
Lemma keys_set : forall (o : t A) k v,
  map fst (set o k v) =
  if existsb (String.eqb k) (map fst o) then map fst o else map fst o ++ [k].
Proof.
  induction o as [|[k' v'] o IH]; intros k v; simpl.
  - reflexivity.
  - rewrite (String.eqb_sym k k').
    destruct (String.eqb k' k) eqn:E; simpl.
    + reflexivity.
    + rewrite IH. destruct (existsb (String.eqb k) (map fst o)); reflexivity.
Qed.

Lemma getOwn_existsb : forall (o : t A) k,
  existsb (String.eqb k) (map fst o) =
  match getOwn o k with Some _ => true | None => false end.
Proof.
  induction o as [|[k' v'] o IH]; intros k; simpl.
  - reflexivity.
  - rewrite (String.eqb_sym k k'). destruct (String.eqb k' k); simpl; auto.
Qed.

Lemma insertIndex_perm : forall i (e : string * A) l,
  Permutation (insertIndex i e l) ((i, e) :: l).
Proof.
  intros i e l. induction l as [|[j w] l IH]; simpl.
  - apply Permutation_refl.
  - destruct (i <? j).
    + apply Permutation_refl.
    + apply Permutation_trans with ((j, w) :: (i, e) :: l).
      * apply perm_skip, IH.
      * apply perm_swap.
Qed.

Lemma entries_perm : forall (o : t A), Permutation (entries o) o.
Proof.
  unfold entries. induction o as [|[k v] o IH]; simpl.
  - apply perm_nil.
  - destruct (split o) as [ix named]. destruct (arrayIndex k) as [i|].
    + apply Permutation_trans with (map snd ((i, (k, v)) :: ix) ++ named).
      * apply Permutation_app_tail, Permutation_map, insertIndex_perm.
      * simpl. apply perm_skip, IH.
    + apply Permutation_trans with ((k, v) :: map snd ix ++ named).
      * apply Permutation_sym, Permutation_middle.
      * apply perm_skip, IH.
Qed.

Lemma values_In : forall (o : t A) v,
  In v (values o) <-> exists k, In (k, v) o.
Proof.
  intros o v. unfold values. rewrite in_map_iff. split.
  - intros [[k w] [Hw Hin]]. simpl in Hw. subst w. exists k.
    apply (Permutation_in _ (entries_perm o)), Hin.
  - intros [k Hin]. exists (k, v). split; [reflexivity|].
    apply (Permutation_in _ (Permutation_sym (entries_perm o))), Hin.
Qed.


End Props.

(** The order of the entries depends on the keys alone. *)
Section Order.
Context {A B : Type}.
Variable f : string -> A -> B.

Lemma insertIndex_mapv : forall i k v (l : list (Z * (string * A))),
  insertIndex i (k, f k v)
    (map (fun e => (fst e, (fst (snd e), f (fst (snd e)) (snd (snd e))))) l)
  = map (fun e => (fst e, (fst (snd e), f (fst (snd e)) (snd (snd e)))))
      (insertIndex i (k, v) l).
Proof.
  intros i k v l. induction l as [|[j [k' w]] l IH]; simpl.
  - reflexivity.
  - destruct (i <? j); simpl; [reflexivity|]. rewrite IH. reflexivity.
Qed.

Lemma split_mapv : forall (o : t A),
  split (mapv f o) =
  (map (fun e => (fst e, (fst (snd e), f (fst (snd e)) (snd (snd e)))))
     (fst (split o)),
   mapv f (snd (split o))).
Proof.
  induction o as [|[k v] o IH]; simpl.
  - reflexivity.
  - fold (mapv f o). rewrite IH. destruct (split o) as [ix named]. simpl.
    destruct (arrayIndex k) as [i|]; simpl.
    + rewrite insertIndex_mapv. reflexivity.
    + reflexivity.
Qed.

Lemma entries_mapv : forall (o : t A), entries (mapv f o) = mapv f (entries o).
Proof.
  intros o. unfold entries. rewrite split_mapv.
  destruct (split o) as [ix named]. simpl.
  unfold mapv. rewrite map_app, !map_map. reflexivity.
Qed.

End Order.

Lemma entries_of_keys : forall {A : Type} (g : string -> A) (ks : list string),
  entries (map (fun k => (k, g k)) ks) = map (fun k => (k, g k)) (keyOrder ks).
Proof.
  intros A g ks. unfold keyOrder, keys.
  pose proof (entries_mapv (fun k (_ : Datatypes.unit) => g k)
                (map (fun k => (k, tt)) ks)) as H.
  unfold mapv in H. rewrite map_map in H. simpl in H. rewrite H.
  rewrite map_map. reflexivity.
Qed.

Lemma keyOrder_named : forall ks,
  (forall k, In k ks -> Obj.arrayIndex k = None) -> Obj.keyOrder ks = ks.
Proof.
  intros ks H. unfold Obj.keyOrder, Obj.keys, Obj.entries.
  assert (Hs : Obj.split (map (fun k => (k, tt)) ks)
               = ([], map (fun k => (k, tt)) ks)).
  { induction ks as [|k ks IH]; simpl; [reflexivity|].
    rewrite IH by (intros k' Hk'; apply H; simpl; auto).
    rewrite (H k) by (simpl; auto). reflexivity. }
  rewrite Hs. simpl. rewrite map_map. simpl. apply map_id.
Qed.

Lemma keyOrder_perm : forall ks, Permutation (Obj.keyOrder ks) ks.
Proof.
  intros ks. unfold Obj.keyOrder, Obj.keys.
  apply Permutation_trans with (map fst (map (fun k => (k, tt)) ks)).
  - apply Permutation_map, entries_perm.
  - rewrite map_map. simpl. rewrite map_id. apply Permutation_refl.
Qed.

End ObjFacts.

(** ** Items *)

Module ItemFacts.
Import Val Item ObjFacts.

Lemma read_set_same : forall (o : Item.t) k v, read (Obj.set o k v) k = v.
Proof. intros o k v. unfold read. rewrite getOwn_set_same. reflexivity. Qed.

Lemma read_set_other : forall (o : Item.t) k v k', k <> k' ->
  read (Obj.set o k v) k' = read o k'.
Proof.
  intros o k v k' H. unfold read. rewrite getOwn_set_other by exact H.
  reflexivity.
Qed.

End ItemFacts.

(** ** Grouping *)

Module GroupFacts.
Import Val Obj ListFacts ObjFacts Group.

Section Reduce.
Context {G : Type}.
Variable label : row -> string.
Variable numeric : row -> bool.
Variable init : string -> G.
Variable upd : row -> G -> G.

Local Abbreviation step := (Group.step label numeric init upd).
Local Abbreviation groupKeys := (Group.groupKeys label).
Local Abbreviation total := (Group.total label numeric upd).
Local Abbreviation touch := (Group.touch numeric upd).

Lemma step_getOwn : forall acc row k,
  getOwn (step acc row) k =
  if String.eqb (label row) k then
    match getOwn acc k with
    | Some g => Some (touch row g)
    | None => if inherited k then None else Some (touch row (init k))
    end
  else getOwn acc k.
Proof.
  intros acc row k. unfold Group.step, has, Group.touch.
  destruct (String.eqb_spec (label row) k) as [<-|Hne].
  - destruct (getOwn acc (label row)) as [g|] eqn:Hg.
    + destruct (numeric row).
      * rewrite Hg. apply getOwn_set_same.
      * exact Hg.
    + destruct (inherited (label row)).
      * destruct (numeric row); rewrite ?Hg; reflexivity.
      * destruct (numeric row).
        -- rewrite getOwn_set_same. apply getOwn_set_same.
        -- apply getOwn_set_same.
  - assert (H1 : getOwn
                   (if match getOwn acc (label row) with
                       | Some _ => true
                       | None => inherited (label row)
                       end
                    then acc else set acc (label row) (init (label row))) k
                 = getOwn acc k).
    { destruct (getOwn acc (label row)); [reflexivity|].
      destruct (inherited (label row)); [reflexivity|].
      apply getOwn_set_other, Hne. }
    destruct (numeric row); [|exact H1].
    match goal with
    | |- getOwn (match getOwn ?a ?l with _ => _ end) _ = _ =>
        destruct (getOwn a l); [rewrite getOwn_set_other by exact Hne|];
        exact H1
    end.
Qed.

Lemma step_keys : forall acc row,
  map fst (step acc row) =
  if existsb (String.eqb (label row)) (map fst acc) || inherited (label row)
  then map fst acc
  else map fst acc ++ [label row].
Proof.
  intros acc row. unfold Group.step, has.
  rewrite getOwn_existsb.
  destruct (getOwn acc (label row)) as [g|] eqn:Hg; simpl.
  - destruct (numeric row); [|reflexivity].
    rewrite Hg, keys_set, getOwn_existsb, Hg. reflexivity.
  - destruct (inherited (label row)).
    + destruct (numeric row); rewrite ?Hg; reflexivity.
    + assert (Hk : map fst (set acc (label row) (init (label row)))
                   = map fst acc ++ [label row]).
      { rewrite keys_set, getOwn_existsb, Hg. reflexivity. }
      destruct (numeric row); [|exact Hk].
      rewrite getOwn_set_same, keys_set, getOwn_existsb, getOwn_set_same.
      exact Hk.
Qed.

Lemma fold_keys : forall data acc,
  map fst (fold_left step data acc) =
  map fst acc
  ++ filter (fun l => negb (existsb (String.eqb l) (map fst acc)))
       (groupKeys data).
Proof.
  unfold Group.groupKeys.
  induction data as [|row data IH]; intros acc; simpl.
  - rewrite app_nil_r. reflexivity.
  - rewrite IH, step_keys.
    destruct (inherited (label row)) eqn:Hi; simpl.
    + rewrite orb_true_r. reflexivity.
    + rewrite orb_false_r.
      destruct (existsb (String.eqb (label row)) (map fst acc)) eqn:He; simpl.
      * f_equal.
        rewrite filter_filter. apply filter_ext_In'. intros a _.
        destruct (String.eqb_spec (label row) a) as [<-|Hne]; simpl.
        -- rewrite He. reflexivity.
        -- reflexivity.
      * rewrite <- app_assoc. simpl. do 2 f_equal.
        rewrite filter_filter. apply filter_ext_In'. intros a _.
        rewrite existsb_app1, negb_orb, andb_comm. reflexivity.
Qed.

Lemma fold_getOwn : forall data acc k,
  getOwn (fold_left step data acc) k =
  match getOwn acc k with
  | Some g => Some (total k data g)
  | None =>
      if existsb (fun row => String.eqb (label row) k) data
         && negb (inherited k)
      then Some (total k data (init k))
      else None
  end.
Proof.
  unfold Group.total.
  induction data as [|row data IH]; intros acc k; simpl.
  - destruct (getOwn acc k); reflexivity.
  - rewrite IH, step_getOwn. unfold Group.touch.
    destruct (String.eqb (label row) k); simpl.
    + destruct (getOwn acc k) as [g|]; [reflexivity|].
      destruct (inherited k); simpl; [|reflexivity].
      rewrite andb_false_r. reflexivity.
    + destruct (getOwn acc k); reflexivity.
Qed.

Lemma by_keys : forall (g : string -> G) (o : Obj.t G),
  (forall k v, In (k, v) o -> v = g k) ->
  o = map (fun k => (k, g k)) (map fst o).
Proof.
  intros g o. induction o as [|[k v] o IH]; intros H; simpl.
  - reflexivity.
  - rewrite (H k v) by (simpl; auto). f_equal.
    apply IH. intros k' v' Hin. apply H. simpl. auto.
Qed.

(** The object the reduction builds: one group for each key, holding
    what the rows of that key, in row order, make of a new group. *)
Theorem fold_groups : forall data,
  fold_left step data [] =
  map (fun l => (l, total l data (init l))) (groupKeys data).
Proof.
  intros data.
  assert (Hk : map fst (fold_left step data []) = groupKeys data).
  { rewrite fold_keys. simpl. apply filter_true. }
  rewrite <- Hk. apply by_keys. intros k v Hin.
  assert (Hnd : NoDup (map fst (fold_left step data []))).
  { rewrite Hk. apply uniqStr_NoDup. }
  pose proof (In_getOwn _ _ _ Hnd Hin) as Hg.
  rewrite fold_getOwn in Hg. simpl in Hg.
  destruct (existsb (fun row => String.eqb (label row) k) data
            && negb (inherited k)); congruence.
Qed.

(** [Object.entries] of that object. *)
Theorem entries_groups : forall data,
  entries (fold_left step data []) =
  map (fun l => (l, total l data (init l))) (keyOrder (groupKeys data)).
Proof.
  intros data. rewrite fold_groups. apply entries_of_keys.
Qed.

End Reduce.

(** When no label resolves to a property of [Object.prototype], the
    group keys are the labels of the rows, each once, as first seen. *)
Lemma groupKeys_plain : forall (label : row -> string) data,
  (forall row, In row data -> Obj.inherited (label row) = false) ->
  Group.groupKeys label data = uniqStr (map label data).
Proof.
  intros label data H. unfold Group.groupKeys. f_equal.
  induction data as [|row data IH]; simpl; [reflexivity|].
  rewrite (H row) by (simpl; auto). simpl. f_equal.
  apply IH. intros r Hr. apply H. simpl. auto.
Qed.

End GroupFacts.

(** ** The value classifier *)

Module UtilsFacts.
Import Num Val Utils.
Local Open Scope string_scope.

Lemma isNumeric_unfold : forall v,
  v <> VNull -> v <> VUndefined -> v <> VStr "" ->
  isNumeric v =
  negb (isNaN (Conv.StringToNumber (trimmed v)))
  && negb (isNaN (Conv.parseFloat (trimmed v))).
Proof.
  intros v H1 H2 H3.
  destruct v as [| | b | n | s]; try contradiction; try reflexivity.
  destruct s; [contradiction|reflexivity].
Qed.

(** C1, as the specification words it (either conversion suffices), fails:
    on "12abc" the prefix conversion [parseFloat] yields 12, a valid
    number, and yet [isNumeric] answers false, because [Number] yields
    NaN. *)
Lemma isNumeric_either_refuted :
  Conv.parseFloat (trimmed (VStr "12abc")) = Num.ofZ 12
  /\ isNaN (Conv.parseFloat (trimmed (VStr "12abc"))) = false
  /\ isNaN (Conv.StringToNumber (trimmed (VStr "12abc"))) = true
  /\ isNumeric (VStr "12abc") = false
  /\ ~ (isNumeric (VStr "12abc") = true <->
        (isNaN (Conv.StringToNumber (trimmed (VStr "12abc"))) = false
         \/ isNaN (Conv.parseFloat (trimmed (VStr "12abc"))) = false)).
Proof.
  assert (Hp : isNaN (Conv.parseFloat (trimmed (VStr "12abc"))) = false)
    by (vm_compute; reflexivity).
  assert (Hf : isNumeric (VStr "12abc") = false)
    by (vm_compute; reflexivity).
  split; [vm_compute; reflexivity|].
  split; [exact Hp|].
  split; [vm_compute; reflexivity|].
  split; [exact Hf|].
  intros [_ H]. rewrite Hf in H. discriminate (H (or_intror Hp)).
Qed.

(** C1, amended: [isNumeric] is false on null, undefined and the empty
    string; on every other value it is true exactly when both
    conversions of the trimmed string, [Number] and [parseFloat], yield a
    number other than NaN.  It is true on "42", "3.14" and "-7", and false
    on the prefix-only "12abc". *)
Theorem isNumeric_both_conversions :
  isNumeric VNull = false
  /\ isNumeric VUndefined = false
  /\ isNumeric (VStr "") = false
  /\ (forall v, v <> VNull -> v <> VUndefined -> v <> VStr "" ->
        (isNumeric v = true <->
         isNaN (Conv.StringToNumber (trimmed v)) = false
         /\ isNaN (Conv.parseFloat (trimmed v)) = false))
  /\ isNumeric (VStr "42") = true
  /\ isNumeric (VStr "3.14") = true
  /\ isNumeric (VStr "-7") = true
  /\ isNumeric (VStr "12abc") = false.
Proof.
  split; [reflexivity|]. split; [reflexivity|]. split; [reflexivity|].
  split.
  - intros v H1 H2 H3. rewrite (isNumeric_unfold v H1 H2 H3).
    rewrite andb_true_iff, !negb_true_iff. tauto.
  - split; [vm_compute; reflexivity|].
    split; [vm_compute; reflexivity|].
    split; vm_compute; reflexivity.
Qed.

End UtilsFacts.

(** ** Column roles on an empty dataset *)

Module RolesFacts.
Import Num Val Utils Arr Roles ListFacts Examples.
Local Open Scope string_scope.

(** 0 / 0 is NaN, and NaN >= 0.8 is false. *)
Lemma zero_rows_fraction :
  Num.div (ofNat 0) (ofNat 0) = NaN
  /\ Num.geb (Num.div (ofNat 0) (ofNat 0)) lit_0_8 = false.
Proof. split; vm_compute; reflexivity. Qed.

Lemma numericColumns_nil : forall columns, numericColumns [] columns = [].
Proof.
  intros columns. unfold numericColumns. apply filter_none.
  intros column. exact (proj2 zero_rows_fraction).
Qed.

(** C7, as stated, fails: on the empty dataset the bar chart tags every
    column Categorical, and a column named after a date or a region is
    still tagged Sequential or GeographicKey. *)
Lemma empty_dataset_roles_refuted :
  Bar.categoricalColumns [] ["date"; "region"] = ["date"; "region"]
  /\ Line.sequentialColumns [] ["date"; "region"] = ["date"]
  /\ Line.stateColumns [] ["date"; "region"] = ["region"]
  /\ Pie.stateColumns [] ["date"; "region"] = ["region"].
Proof.
  split; [vm_compute; reflexivity|].
  split; [vm_compute; reflexivity|].
  split; vm_compute; reflexivity.
Qed.

(** C7, amended: on an empty dataset the Numeric fraction is 0/0 = NaN
    and the comparison with 0.8 is false, so no column is Numeric in any
    component, and the pie chart tags no column Categorical.  The bar
    chart tags every column Categorical (none is Numeric); a column is
    Sequential, or GeographicKey, exactly when its name contains one of
    the keywords. *)
Theorem empty_dataset_roles : forall columns,
  Num.geb (Num.div (ofNat 0) (ofNat 0)) lit_0_8 = false
  /\ Bar.numericColumns [] columns = []
  /\ Line.numericColumns [] columns = []
  /\ Pie.numericColumns [] columns = []
  /\ Pie.categoricalColumns [] columns = []
  /\ Bar.categoricalColumns [] columns = columns
  /\ Line.sequentialColumns [] columns = filter Line.dateLike columns
  /\ Line.stateColumns [] columns = filter regionLike columns
  /\ Pie.stateColumns [] columns = filter regionLike columns.
Proof.
  intros columns.
  split; [apply zero_rows_fraction|].
  split; [apply numericColumns_nil|].
  split; [apply numericColumns_nil|].
  split; [apply numericColumns_nil|].
  split.
  { unfold Pie.categoricalColumns. apply filter_none. intros column.
    vm_compute. reflexivity. }
  split.
  { unfold Bar.categoricalColumns, Bar.numericColumns.
    rewrite numericColumns_nil. apply filter_all. intros column.
    reflexivity. }
  split.
  { unfold Line.sequentialColumns. apply filter_ext. intros column.
    destruct (Line.dateLike column); reflexivity. }
  assert (Hs : stateColumns [] columns = filter regionLike columns).
  { unfold stateColumns. apply filter_ext. intros column.
    destruct (regionLike column); reflexivity. }
  split; exact Hs.
Qed.

End RolesFacts.

(** ** Fewer than two columns *)

Module ViewFacts.
Import Num Val Utils Arr Roles ListFacts Examples.
Local Open Scope string_scope.









End ViewFacts.

(** ** The bar chart *)

Module BarFacts.
Import Num Val Utils Arr Roles Item ListFacts ObjFacts ItemFacts GroupFacts.
Local Open Scope string_scope.

Section Chart.
Variable data : list row.
Variable st : Bar.state.

Local Abbreviation x := (propKey (Bar.xAxis st)).
Local Abbreviation y := (propKey (Bar.yAxis st)).
Local Abbreviation numeric := (fun row : row => isNumeric (get row y)).
Local Abbreviation total :=
  (Group.total (labelOf x) numeric (Bar.bump st)).

Lemma bar_grouped :
  Bar.groupedData data st =
  map (fun l => (l, total l data (Bar.newGroup st l))) (Bar.groupKeys data st).
Proof.
  unfold Bar.groupedData, Bar.groupKeys.
  apply (GroupFacts.fold_groups (labelOf x) numeric (Bar.newGroup st)
           (Bar.bump st) data).
Qed.

Lemma bar_values :
  Obj.values (Bar.groupedData data st) =
  map (fun l => total l data (Bar.newGroup st l))
    (Obj.keyOrder (Bar.groupKeys data st)).
Proof.
  unfold Obj.values. rewrite bar_grouped, entries_of_keys, map_map.
  reflexivity.
Qed.

(** The columns are distinct and neither is named like a property the
    component adds itself. *)
Hypothesis x_y : x <> y.
Hypothesis x_count : x <> "count".
Hypothesis y_count : y <> "count".

Lemma newGroup_fields : forall l,
  read (Bar.newGroup st l) x = VStr l
  /\ read (Bar.newGroup st l) y = VNum (Fin 0).
Proof.
  intros l. unfold Bar.newGroup. split.
  - rewrite !read_set_other by auto. apply read_set_same.
  - rewrite read_set_other by auto. apply read_set_same.
Qed.

Lemma bump_fields : forall row g l s,
  read g x = VStr l -> read g y = VNum s ->
  read (Bar.bump st row g) x = VStr l
  /\ read (Bar.bump st row g) y = VNum (Num.add s (ToNumber (get row y))).
Proof.
  intros row g l s Hx Hy. unfold Bar.bump, addTo. split.
  - rewrite !read_set_other by auto. exact Hx.
  - rewrite read_set_other by auto. rewrite read_set_same, Hy. reflexivity.
Qed.

Lemma total_fields : forall l rows g s,
  read g x = VStr l -> read g y = VNum s ->
  read (total l rows g) x = VStr l
  /\ read (total l rows g) y =
     VNum (fold_left
             (fun s row =>
                if String.eqb (labelOf x row) l && isNumeric (get row y)
                then Num.add s (ToNumber (get row y)) else s)
             rows s).
Proof.
  intros l rows. unfold Group.total.
  induction rows as [|row rows IH]; intros g s Hx Hy; simpl.
  - auto.
  - destruct (String.eqb (labelOf x row) l && isNumeric (get row y)).
    + destruct (bump_fields row g l s Hx Hy) as [Hx' Hy'].
      apply IH; assumption.
    + apply IH; assumption.
Qed.

Lemma group_fields : forall l,
  read (total l data (Bar.newGroup st l)) x = VStr l
  /\ read (total l data (Bar.newGroup st l)) y
     = VNum (Bar.groupSum data st l).
Proof.
  intros l. destruct (newGroup_fields l) as [Hx Hy].
  apply total_fields; assumption.
Qed.

Hypothesis x_fill : x <> "fill".
Hypothesis y_fill : y <> "fill".

(** The label and the value of each bar. *)
Lemma bar_series : forall random,
  map (fun it => (read it x, read it y)) (Bar.chartData data st random) =
  firstn 20
    (map (fun l => (VStr l, VNum (Bar.groupSum data st l)))
       (Obj.keyOrder (Bar.groupKeys data st))).
Proof.
  intros random. unfold Bar.chartData, slice0.
  rewrite <- firstn_map, ArrFacts.mapi_map. f_equal.
  rewrite bar_values.
  rewrite (ArrFacts.mapi_ext _ (fun it _ => (read it x, read it y))).
  - rewrite ArrFacts.mapi_const, map_map. apply map_ext. intros l.
    destruct (group_fields l) as [Hx Hy]. rewrite Hx, Hy. reflexivity.
  - intros it i. f_equal.
    + rewrite read_set_other by auto. rewrite read_set_other by auto.
      apply read_set_same.
    + rewrite read_set_other by auto. apply read_set_same.
Qed.

End Chart.
End BarFacts.

(** ** Aggregation for the bar chart *)

Module BarClaims.
Import Num Val Utils Arr Roles Item ListFacts ObjFacts ItemFacts GroupFacts BarFacts Examples.
Local Open Scope string_scope.

(** C3, as stated, fails on the order: the keys are first seen in the
    order 2, 1, and the groups are emitted in the order 1, 2, because
    [Object.values] lists array-index keys first, in ascending order. *)
Lemma first_seen_order_refuted :
  Bar.groupKeys numbered barOnCategory = ["2"; "1"]
  /\ map (fun it => read it "category")
       (Bar.chartData numbered barOnCategory (fun _ => Fin 0))
     = [VStr "1"; VStr "2"].
Proof. split; vm_compute; reflexivity. Qed.

(** C3, amended: when the key and value columns differ, neither is
    named count or fill, and no label is the name of a property of
    [Object.prototype], the bars are the groups of the rows by
    [String(row[key] || "Unknown")]; each bar carries the sum of
    [Number(row[value])] over the rows of its label that pass
    [isNumeric], added in row order from 0; the groups come in
    own-property order, array-index labels first in ascending order and
    the other labels in first-seen order, which is first-seen order
    whenever no label is an array index; the first 20 are kept.  The
    scenario yields A:15 then B:20. *)
Theorem bar_aggregation : forall data st random,
  propKey (Bar.xAxis st) <> propKey (Bar.yAxis st) ->
  propKey (Bar.xAxis st) <> "count" ->
  propKey (Bar.yAxis st) <> "count" ->
  propKey (Bar.xAxis st) <> "fill" ->
  propKey (Bar.yAxis st) <> "fill" ->
  (forall row, In row data ->
     Obj.inherited (labelOf (propKey (Bar.xAxis st)) row) = false) ->
  (forall row,
     labelOf (propKey (Bar.xAxis st)) row =
     if ToBoolean (get row (propKey (Bar.xAxis st)))
     then ToString (get row (propKey (Bar.xAxis st)))
     else "Unknown")
  /\ map (fun it => (read it (propKey (Bar.xAxis st)),
                     read it (propKey (Bar.yAxis st))))
       (Bar.chartData data st random)
     = firstn 20
         (map (fun l => (VStr l, VNum (Bar.groupSum data st l)))
            (Obj.keyOrder
               (uniqStr (map (labelOf (propKey (Bar.xAxis st))) data))))
  /\ ((forall k,
         In k (uniqStr (map (labelOf (propKey (Bar.xAxis st))) data)) ->
         Obj.arrayIndex k = None) ->
      map (fun it => (read it (propKey (Bar.xAxis st)),
                      read it (propKey (Bar.yAxis st))))
        (Bar.chartData data st random)
      = firstn 20
          (map (fun l => (VStr l, VNum (Bar.groupSum data st l)))
             (uniqStr (map (labelOf (propKey (Bar.xAxis st))) data))))
  /\ map (fun it => (read it "category", read it "amount"))
       (Bar.chartData sample barOnCategory random)
     = [(VStr "A", VNum (Num.ofZ 15)); (VStr "B", VNum (Num.ofZ 20))].
Proof.
  intros data st random Hxy Hxc Hyc Hxf Hyf Hown.
  pose proof (bar_series data st Hxy Hxc Hyc Hxf Hyf random) as Hs.
  unfold Bar.groupKeys in Hs. rewrite (groupKeys_plain _ _ Hown) in Hs.
  split.
  { intros row. unfold labelOf, or_else.
    destruct (ToBoolean (get row (propKey (Bar.xAxis st)))); reflexivity. }
  split; [exact Hs|].
  split.
  { intros Hnamed. rewrite Hs, (keyOrder_named _ Hnamed). reflexivity. }
  rewrite (bar_series sample barOnCategory) by discriminate.
  vm_compute. reflexivity.
Qed.

(** The scenario itself. *)
Lemma bar_aggregation_witness :
  map (fun it => (read it "category", read it "amount"))
    (Bar.chartData sample barOnCategory (fun _ => Fin 0))
  = firstn 20
      (map (fun l => (VStr l, VNum (Bar.groupSum sample barOnCategory l)))
         (uniqStr (map (labelOf "category") sample))).
Proof.
  apply (bar_aggregation sample barOnCategory (fun _ => Fin 0));
    try discriminate.
  intros row [<-|[<-|[<-|[]]]]; reflexivity.
Defined.




End BarClaims.

(** ** The pie chart *)

Module PieFacts.
Import Num Val Utils Arr Roles ListFacts ObjFacts NumFacts Examples.
Local Open Scope string_scope.

(** On slices of positive value the comparator of the pie chart is the
    comparison of the values. *)
Lemma pie_after : forall a b : Pie.item,
  Num.gtb (Pie.value a) (Fin 0) = true ->
  Num.gtb (Pie.value b) (Fin 0) = true ->
  Num.ltb (Fin 0) (Num.sub (Pie.value b) (Pie.value a))
  = Num.ltb (Pie.value a) (Pie.value b).
Proof.
  intros a b Ha Hb. unfold Num.gtb in *.
  apply ltb_not_NaN in Ha. apply ltb_not_NaN in Hb.
  apply sub_pos; tauto.
Qed.

Section Chart.
Variable data : list row.
Variable st : Pie.state.

Local Abbreviation positive :=
  (fun it : Pie.item => Num.gtb (Pie.value it) (Fin 0)).
Local Abbreviation after :=
  (fun a b : Pie.item =>
     Num.ltb (Fin 0) (Num.sub (Pie.value b) (Pie.value a))).

Lemma pie_positive : forall it,
  In it (Pie.chartData data st) ->
  Num.gtb (Pie.value it) (Fin 0) = true
  /\ In it (Obj.values (Pie.groupedData data st)).
Proof.
  intros it Hin. unfold Pie.chartData, slice0, sort in Hin.
  apply In_firstn in Hin.
  apply (proj1 (ArrFacts.isort_In _ _ _)) in Hin.
  apply (proj1 (filter_In _ _ _)) in Hin. tauto.
Qed.

Lemma pie_sorted :
  StronglySorted (fun a b => Num.leb (Pie.value b) (Pie.value a) = true)
    (Pie.chartData data st).
Proof.
  unfold Pie.chartData, slice0, sort.
  apply StronglySorted_firstn.
  set (l := filter positive (Obj.values (Pie.groupedData data st))).
  assert (HP : Forall (fun it => positive it = true) l).
  { apply Forall_forall. intros it Hit. unfold l in Hit.
    apply (proj1 (filter_In _ _ _)) in Hit. tauto. }
  apply StronglySorted_weaken
    with (P := fun it => positive it = true) (R := ord after).
  - apply Forall_forall. intros it Hit.
    apply (proj1 (ArrFacts.isort_In _ _ _)) in Hit.
    rewrite Forall_forall in HP. auto.
  - intros a b Ha Hb Hab. unfold ord in Hab.
    rewrite (pie_after a b Ha Hb) in Hab.
    unfold Num.gtb in Ha, Hb.
    apply ltb_not_NaN in Ha. apply ltb_not_NaN in Hb.
    rewrite leb_ltb by tauto. rewrite Hab. reflexivity.
  - apply ArrFacts.isort_sorted with (P := fun it => positive it = true).
    + intros a b Ha Hb Hab. rewrite (pie_after a b Ha Hb) in Hab.
      rewrite (pie_after b a Hb Ha). apply ltb_asym, Hab.
    + intros a b c Ha Hb Hc Hab Hbc.
      rewrite (pie_after a b Ha Hb) in Hab.
      rewrite (pie_after b c Hb Hc) in Hbc.
      rewrite (pie_after a c Ha Hc).
      unfold Num.gtb in Ha, Hb, Hc.
      apply ltb_not_NaN in Ha. apply ltb_not_NaN in Hb.
      apply ltb_not_NaN in Hc.
      assert (H1 : Num.leb (Pie.value b) (Pie.value a) = true)
        by (rewrite leb_ltb by tauto; rewrite Hab; reflexivity).
      assert (H2 : Num.leb (Pie.value c) (Pie.value b) = true)
        by (rewrite leb_ltb by tauto; rewrite Hbc; reflexivity).
      pose proof (leb_trans _ _ _ H2 H1) as H3.
      rewrite leb_ltb in H3 by tauto.
      apply negb_true_iff in H3. exact H3.
    + exact HP.
Qed.

Local Abbreviation label := (labelOf (Pie.actualLabelColumn st)).
Local Abbreviation numeric :=
  (fun row : row => isNumeric (get row (propKey (Pie.valueColumn st)))).
Local Abbreviation upd :=
  (fun (row : row) (g : Pie.item) =>
     {| Pie.name := Pie.name g;
        Pie.value := Num.add (Pie.value g)
                       (ToNumber (get row (propKey (Pie.valueColumn st)))) |}).
Local Abbreviation init :=
  (fun l : string => {| Pie.name := l; Pie.value := Fin 0 |}).

Lemma pie_grouped :
  Pie.groupedData data st =
  map (fun l => (l, Group.total label numeric upd l
                      (Pie.filteredData data st) (init l)))
    (Pie.groupKeys data st).
Proof.
  unfold Pie.groupedData, Pie.groupKeys.
  apply (GroupFacts.fold_groups label numeric init upd
           (Pie.filteredData data st)).
Qed.

Lemma pie_total : forall l rows g,
  Pie.name (Group.total label numeric upd l rows g) = Pie.name g
  /\ Pie.value (Group.total label numeric upd l rows g) =
     fold_left
       (fun s row =>
          if String.eqb (label row) l && numeric row
          then Num.add s (ToNumber (get row (propKey (Pie.valueColumn st))))
          else s)
       rows (Pie.value g).
Proof.
  intros l rows. unfold Group.total.
  induction rows as [|row rows IH]; intros g; simpl.
  - auto.
  - destruct (String.eqb (label row) l && numeric row).
    + destruct (IH (upd row g)) as [H1 H2]. auto.
    + apply IH.
Qed.

(** Each group holds its label and the sum of its rows. *)
Lemma pie_groups : forall it,
  In it (Obj.values (Pie.groupedData data st)) ->
  In (Pie.name it) (Pie.groupKeys data st)
  /\ Pie.value it = Pie.groupSum data st (Pie.name it).
Proof.
  intros it Hin. apply (proj1 (values_In _ _)) in Hin.
  destruct Hin as [k Hin]. rewrite pie_grouped in Hin.
  apply (proj1 (in_map_iff _ _ _)) in Hin.
  destruct Hin as [l [Heq Hl]]. inversion Heq as [[Hk Hit]]. subst k.
  destruct (pie_total l (Pie.filteredData data st) (init l)) as [Hn Hv].
  rewrite Hn, Hv. split; [exact Hl|reflexivity].
Qed.

End Chart.

(** C2, as stated, fails on "strictly": two groups with the same sum
    both appear, and the second is not below the first. *)
Lemma strictly_descending_refuted :
  Pie.chartData tied pieOnCategory
  = [ {| Pie.name := "A"; Pie.value := Num.ofZ 5 |};
      {| Pie.name := "B"; Pie.value := Num.ofZ 5 |} ]
  /\ Num.ltb (Num.ofZ 5) (Num.ofZ 5) = false.
Proof. split; vm_compute; reflexivity. Qed.

(** C2, amended: for every dataset and selection the pie chart emits at
    most 12 slices; every slice is a group of the rows with its summed
    value; no slice has a value that is zero, negative or NaN; and the
    slices are in descending order of value, groups of equal value being
    allowed: each slice is greater than or equal to every later one. *)
Theorem pie_slices : forall data st,
  (List.length (Pie.chartData data st) <= 12)%nat
  /\ (forall it, In it (Pie.chartData data st) ->
        Num.gtb (Pie.value it) (Fin 0) = true
        /\ Num.leb (Pie.value it) (Fin 0) = false
        /\ In (Pie.name it) (Pie.groupKeys data st)
        /\ Pie.value it = Pie.groupSum data st (Pie.name it))
  /\ StronglySorted (fun a b => Num.leb (Pie.value b) (Pie.value a) = true)
       (Pie.chartData data st).
Proof.
  intros data st.
  split; [apply firstn_le|].
  split; [|apply pie_sorted].
  intros it Hin. destruct (pie_positive data st it Hin) as [Hp Hg].
  destruct (pie_groups data st it Hg) as [Hk Hv].
  split; [exact Hp|]. split; [apply gtb_zero_not_leb, Hp|]. auto.
Qed.

End PieFacts.

(** ** What a number prints as *)

Module ConvFacts.
Import Num Val Conv.
Local Open Scope string_scope.
Local Open Scope Z_scope.

Lemma ofZ_startsDigit : forall n, startsDigit (Str.ofZ n).
Proof.
  intros n. unfold Str.ofZ, NilZero.string_of_uint.
  destruct (N.to_uint (Z.to_N n)); simpl; reflexivity.
Qed.

Lemma startsDigit_numeral : forall s, startsDigit s -> startsNumeral s.
Proof.
  intros [|c s]; simpl; [tauto|]. intros H. unfold numeralHead.
  rewrite H. reflexivity.
Qed.

Lemma formatDigits_head : forall digits n,
  startsDigit digits -> startsDigit (Conv.formatDigits digits n).
Proof.
  intros [|c digits] n H; [destruct H|]. unfold Conv.formatDigits.
  destruct ((Z.of_nat (String.length (String c digits)) <=? n) && (n <=? 21)).
  { exact H. }
  destruct ((0 <? n) && (n <=? 21)) eqn:E.
  { apply andb_true_iff in E. destruct E as [E _]. apply Z.ltb_lt in E.
    destruct (Z.to_nat n) as [|m] eqn:Em; [lia|]. exact H. }
  destruct ((-6 <? n) && (n <=? 0)).
  { reflexivity. }
  destruct digits; exact H.
Qed.

Lemma positiveToString_head : forall k,
  startsDigit (Conv.positiveToString k).
Proof.
  intros k. unfold Conv.positiveToString.
  destruct (Conv.shortest 17 k (Conv.decExponent k) 1) as [s p].
  destruct (s =? 10 ^ p).
  - apply formatDigits_head. reflexivity.
  - apply formatDigits_head, ofZ_startsDigit.
Qed.

Lemma toString_head : forall n, startsNumeral (Conv.Number_toString n).
Proof.
  intros [| | | |k]; try reflexivity.
  unfold Conv.Number_toString.
  destruct (k =? 0); [reflexivity|].
  destruct (k <? 0); [reflexivity|].
  apply startsDigit_numeral, positiveToString_head.
Qed.

(** Only the string itself prints as a string that does not start like
    a numeral, "undefined", "null", "true" or "false". *)
Lemma ToString_literal : forall v c s,
  ToString v = String c s ->
  numeralHead c = false ->
  String c s <> "undefined" -> String c s <> "null" ->
  String c s <> "true" -> String c s <> "false" ->
  v = VStr (String c s).
Proof.
  intros v c s Hv Hc H1 H2 H3 H4.
  destruct v as [| |b|n|t]; simpl in Hv.
  - congruence.
  - congruence.
  - destruct b; congruence.
  - pose proof (toString_head n) as Hn. rewrite Hv in Hn. simpl in Hn.
    congruence.
  - congruence.
Qed.


End ConvFacts.

(** ** The line chart *)

Module LineFacts.
Import Num Val Utils Arr Roles Item ListFacts ObjFacts ItemFacts NumFacts.
Local Open Scope string_scope.

(** Sorting by the difference of a key that is never NaN sorts in
    ascending order of the key. *)
Lemma sort_ascending : forall {A : Type} (key : A -> number) l,
  (forall a, In a l -> isNaN (key a) = false) ->
  StronglySorted (fun a b => Num.leb (key a) (key b) = true)
    (sort (fun a b => Num.sub (key a) (key b)) l).
Proof.
  intros A key l Hl. unfold sort.
  set (after := fun a b => Num.ltb (Fin 0) (Num.sub (key a) (key b))).
  assert (Hafter : forall a b, isNaN (key a) = false -> isNaN (key b) = false ->
                     after a b = Num.ltb (key b) (key a)).
  { intros a b Ha Hb. unfold after. apply sub_pos; assumption. }
  apply StronglySorted_weaken
    with (P := fun a => isNaN (key a) = false) (R := ord after).
  - apply Forall_forall. intros a Ha.
    apply (proj1 (ArrFacts.isort_In _ _ _)) in Ha. auto.
  - intros a b Ha Hb Hab. unfold ord in Hab. rewrite Hafter in Hab by auto.
    rewrite leb_ltb by auto. rewrite Hab. reflexivity.
  - apply ArrFacts.isort_sorted with (P := fun a => isNaN (key a) = false).
    + intros a b Ha Hb Hab. rewrite Hafter in * by auto.
      apply ltb_asym, Hab.
    + intros a b c Ha Hb Hc Hab Hbc. rewrite Hafter in * by auto.
      assert (H1 : Num.leb (key a) (key b) = true)
        by (rewrite leb_ltb by auto; rewrite Hab; reflexivity).
      assert (H2 : Num.leb (key b) (key c) = true)
        by (rewrite leb_ltb by auto; rewrite Hbc; reflexivity).
      pose proof (leb_trans _ _ _ H1 H2) as H3.
      rewrite leb_ltb in H3 by auto. apply negb_true_iff in H3. exact H3.
    + apply Forall_forall. exact Hl.
Qed.

Section Chart.
Variable Date_parse : string -> number.
Variable data : list row.
Variable st : Line.state.

Local Abbreviation x := (propKey (Line.xAxis st)).
Local Abbreviation y := (propKey (Line.yAxis st)).
Local Abbreviation g := (Line.stateColumn st).

Lemma sortedData_perm : Permutation (Line.sortedData Date_parse data st) data.
Proof.
  unfold Line.sortedData, sort.
  destruct (Line.isDate Date_parse data st); [apply ArrFacts.isort_perm|].
  destruct (Line.isNum data st); [apply ArrFacts.isort_perm|].
  apply Permutation_refl.
Qed.

Lemma stateFilter_In : forall rows row,
  In row (Line.stateFilter st rows) -> In row rows.
Proof.
  intros rows row. unfold Line.stateFilter.
  destruct (Line.nonEmpty g && negb (Line.showAllStates st)
            && Line.nonEmpty (Line.selectedState st)); [|auto].
  intros H. apply (proj1 (filter_In _ _ _)) in H. tauto.
Qed.

(** Every point comes from a row of the dataset that has an x value. *)
Lemma chartData_In : forall it,
  In it (Line.chartData Date_parse data st) ->
  exists row, In row data /\ Line.hasX st row = true
              /\ it = Line.point st row.
Proof.
  intros it Hin. unfold Line.chartData, slice0 in Hin.
  apply In_firstn in Hin.
  apply (proj1 (in_map_iff _ _ _)) in Hin.
  destruct Hin as [row [Hit Hin]].
  apply (proj1 (filter_In _ _ _)) in Hin. destruct Hin as [Hin Hx].
  apply stateFilter_In in Hin.
  apply (Permutation_in _ sortedData_perm) in Hin.
  exists row. auto.
Qed.

Lemma point_group : forall row,
  Line.nonEmpty g = true -> read (Line.point st row) g = get row g.
Proof.
  intros row Hg. unfold Line.point. rewrite Hg. apply read_set_same.
Qed.

Lemma point_y : forall row,
  Line.nonEmpty g = false \/ g <> y ->
  read (Line.point st row) y
  = VNum (if isNumeric (get row y) then ToNumber (get row y) else Fin 0).
Proof.
  intros row H. unfold Line.point.
  destruct (Line.nonEmpty g) eqn:Hg.
  - destruct H as [H|H]; [discriminate|].
    rewrite read_set_other by exact H. apply read_set_same.
  - apply read_set_same.
Qed.

Lemma point_x : forall row, x <> y -> read (Line.point st row) x = get row x.
Proof.
  intros row Hxy. unfold Line.point.
  assert (H : read (Obj.set (Obj.set [] x (get row x)) y
                      (VNum (if isNumeric (get row y)
                             then ToNumber (get row y) else Fin 0))) x
              = get row x).
  { rewrite read_set_other by auto. apply read_set_same. }
  destruct (Line.nonEmpty g); [|exact H].
  destruct (String.eqb_spec g x) as [E|E].
  - rewrite E. apply read_set_same.
  - rewrite read_set_other by exact E. exact H.
Qed.

Lemma options_In : forall s,
  Line.nonEmpty g = true ->
  (In s (Line.stateOptions data st) <->
   exists row, In row data /\ labelOf g row = s).
Proof.
  intros s Hg. unfold Line.stateOptions, sortStrings. rewrite Hg. simpl.
  rewrite ArrFacts.isort_In, uniqStr_In, in_map_iff.
  split; intros [row [H1 H2]]; exists row; auto.
Qed.

End Chart.

(** The series depends on [Date.parse] through the x values of the rows
    alone. *)
Lemma chartData_ext : forall D D' data st,
  (forall row, In row data ->
     D (ToString (get row (propKey (Line.xAxis st))))
     = D' (ToString (get row (propKey (Line.xAxis st))))) ->
  Line.chartData D data st = Line.chartData D' data st.
Proof.
  intros D D' data st H. unfold Line.chartData.
  assert (Hs : Line.sortedData D data st = Line.sortedData D' data st).
  { unfold Line.sortedData.
    assert (Hd : Line.isDate D data st = Line.isDate D' data st).
    { unfold Line.isDate. apply existsb_ext_In. intros row Hrow.
      unfold Line.looksLikeDate. rewrite (H row Hrow). reflexivity. }
    rewrite Hd. destruct (Line.isDate D' data st); [|reflexivity].
    unfold sort. apply ArrFacts.isort_ext_In. intros a b Ha Hb.
    unfold Line.byDate.
    assert (Ht : forall row, In row data ->
              Line.getTime D (get row (propKey (Line.xAxis st)))
              = Line.getTime D' (get row (propKey (Line.xAxis st)))).
    { intros row Hrow. unfold Line.getTime. specialize (H row Hrow).
      destruct (get row (propKey (Line.xAxis st))); try reflexivity.
      simpl in H. rewrite H. reflexivity. }
    rewrite (Ht a Ha), (Ht b Hb). reflexivity. }
  rewrite Hs. reflexivity.
Qed.

End LineFacts.

(** ** Series and sub-series of the line chart *)

Module LineClaims.
Import Num Val Utils Arr Roles Item ListFacts ObjFacts ItemFacts NumFacts LineFacts Examples.
Local Open Scope string_scope.




(** C4, as stated, fails twice.  On [measurements] the component starts
    with the value column as its grouping column too, the raw grouping
    value overwrites the coerced y value, and the point of the last row
    carries the string "n/a", not 0.  On [mixedDates] one cell parses as
    a date, so the date comparator is used; it answers NaN against the
    cell that does not parse, no row moves, and 2023-01-02 stays before
    2023-01-01. *)
Lemma series_building_refuted :
  Line.initialState measurements ["k"; "v"]
  = {| Line.xAxis := Some "k"; Line.yAxis := Some "v";
       Line.stateColumn := "v"; Line.selectedState := "";
       Line.showAllStates := true |}
  /\ map (fun it => read it "v")
       (Line.chartData Line.isoDateParse measurements
          (Line.initialState measurements ["k"; "v"]))
     = [VStr "1"; VStr "2"; VStr "3"; VStr "4"; VStr "n/a"]
  /\ Line.isDate Line.isoDateParse mixedDates onDate = true
  /\ map (fun it => read it "date")
       (Line.chartData Line.isoDateParse mixedDates onDate)
     = [VStr "2023-01-02"; VStr "n/a"; VStr "2023-01-01"].
Proof.
  split; [vm_compute; reflexivity|].
  split; [vm_compute; reflexivity|].
  split; vm_compute; reflexivity.
Qed.

(** C4, amended: the rows are sorted by [new Date(x).getTime()] when some
    truthy x value parses as a date, else by [Number(x)] when some x value
    passes [isNumeric], else left in their order; the sorted rows are a
    permutation of the dataset, in ascending order of the date when
    every x value has one, and in ascending order of the number when
    every x value is one.  The series is then made of the rows whose x
    value is neither undefined nor null (after the group filter, when one
    is active), each turned into a point, and cut to the first 100.  A
    point carries the raw x value when the two axes differ, and as y the
    number [Number(y)], or 0 when y is not numeric, unless the grouping
    column is the y column.  With a [Date.parse] that reads ISO dates the
    rows 2023-01-02, 2023-01-01 come out as 2023-01-01, 2023-01-02. *)
Theorem series_building : forall Date_parse data st,
  Permutation (Line.sortedData Date_parse data st) data
  /\ (Line.isDate Date_parse data st = true <->
      exists row, In row data
        /\ ToBoolean (get row (propKey (Line.xAxis st))) = true
        /\ isNaN (Date_parse (ToString (get row (propKey (Line.xAxis st)))))
           = false)
  /\ (Line.isNum data st = true <->
      exists row, In row data
        /\ isNumeric (get row (propKey (Line.xAxis st))) = true)
  /\ (Line.isDate Date_parse data st = true ->
      (forall row, In row data ->
         isNaN (Line.getTime Date_parse (get row (propKey (Line.xAxis st))))
         = false) ->
      StronglySorted
        (fun a b =>
           Num.leb
             (Line.getTime Date_parse (get a (propKey (Line.xAxis st))))
             (Line.getTime Date_parse (get b (propKey (Line.xAxis st))))
           = true)
        (Line.sortedData Date_parse data st))
  /\ (Line.isDate Date_parse data st = false ->
      Line.isNum data st = true ->
      (forall row, In row data ->
         isNaN (ToNumber (get row (propKey (Line.xAxis st)))) = false) ->
      StronglySorted
        (fun a b =>
           Num.leb (ToNumber (get a (propKey (Line.xAxis st))))
             (ToNumber (get b (propKey (Line.xAxis st)))) = true)
        (Line.sortedData Date_parse data st))
  /\ (Line.isDate Date_parse data st = false ->
      Line.isNum data st = false ->
      Line.sortedData Date_parse data st = data)
  /\ Line.chartData Date_parse data st
     = firstn 100
         (map (Line.point st)
            (filter (Line.hasX st)
               (Line.stateFilter st (Line.sortedData Date_parse data st))))
  /\ (List.length (Line.chartData Date_parse data st) <= 100)%nat
  /\ (forall row,
        Line.hasX st row = true <->
        get row (propKey (Line.xAxis st)) <> VUndefined
        /\ get row (propKey (Line.xAxis st)) <> VNull)
  /\ (forall row,
        propKey (Line.xAxis st) <> propKey (Line.yAxis st) ->
        read (Line.point st row) (propKey (Line.xAxis st))
        = get row (propKey (Line.xAxis st)))
  /\ (forall row,
        Line.nonEmpty (Line.stateColumn st) = false
        \/ Line.stateColumn st <> propKey (Line.yAxis st) ->
        read (Line.point st row) (propKey (Line.yAxis st))
        = VNum (if isNumeric (get row (propKey (Line.yAxis st)))
                then ToNumber (get row (propKey (Line.yAxis st)))
                else Fin 0))
  /\ (Date_parse "2023-01-01" = Num.ofZ 1672531200000 ->
      Date_parse "2023-01-02" = Num.ofZ 1672617600000 ->
      map (fun it => read it "date")
        (Line.chartData Date_parse twoDates onDate)
      = [VStr "2023-01-01"; VStr "2023-01-02"]).
Proof.
  intros Date_parse data st.
  split; [apply sortedData_perm|].
  split.
  { unfold Line.isDate. rewrite existsb_exists. unfold Line.looksLikeDate.
    split; intros [row [Hin H]]; exists row.
    - apply andb_true_iff in H. rewrite negb_true_iff in H. tauto.
    - rewrite andb_true_iff, negb_true_iff. tauto. }
  split.
  { unfold Line.isNum. rewrite existsb_exists. reflexivity. }
  split.
  { intros Hd Hall. unfold Line.sortedData. rewrite Hd.
    apply (sort_ascending
             (fun a => Line.getTime Date_parse
                         (get a (propKey (Line.xAxis st))))).
    exact Hall. }
  split.
  { intros Hd Hn Hall. unfold Line.sortedData. rewrite Hd, Hn.
    apply (sort_ascending
             (fun a => ToNumber (get a (propKey (Line.xAxis st))))).
    exact Hall. }
  split.
  { intros Hd Hn. unfold Line.sortedData. rewrite Hd, Hn. reflexivity. }
  split; [reflexivity|].
  split; [apply firstn_le|].
  split.
  { intros row. unfold Line.hasX.
    destruct (get row (propKey (Line.xAxis st))); split;
      try discriminate; try (intros [H1 H2]; congruence);
      try (intros _; split; discriminate). }
  split; [intros row; apply point_x|].
  split; [intros row; apply point_y|].
  intros H1 H2.
  rewrite (chartData_ext Date_parse Line.isoDateParse twoDates onDate).
  - vm_compute. reflexivity.
  - intros row [<-|[<-|[]]].
    + change (Date_parse "2023-01-02" = Line.isoDateParse "2023-01-02").
      rewrite H2. vm_compute. reflexivity.
    + change (Date_parse "2023-01-01" = Line.isoDateParse "2023-01-01").
      rewrite H1. vm_compute. reflexivity.
Qed.

(** The scenario with the ISO parser. *)
Lemma series_building_witness :
  Line.isoDateParse "2023-01-01" = Num.ofZ 1672531200000
  /\ Line.isoDateParse "2023-01-02" = Num.ofZ 1672617600000
  /\ map (fun it => read it "date")
       (Line.chartData Line.isoDateParse twoDates onDate)
     = [VStr "2023-01-01"; VStr "2023-01-02"].
Proof.
  assert (H1 : Line.isoDateParse "2023-01-01" = Num.ofZ 1672531200000)
    by (vm_compute; reflexivity).
  assert (H2 : Line.isoDateParse "2023-01-02" = Num.ofZ 1672617600000)
    by (vm_compute; reflexivity).
  split; [exact H1|]. split; [exact H2|].
  exact (proj2 (proj2 (proj2 (proj2 (proj2 (proj2 (proj2 (proj2 (proj2
           (proj2 (proj2
             (series_building Line.isoDateParse twoDates onDate)))))))))))
           H1 H2).
Defined.

End LineClaims.

(** ** The label of a group *)

Module LabelClaims.
Import Num Val Utils Arr Roles Item ListFacts ObjFacts ItemFacts BarFacts Examples.
Local Open Scope string_scope.

(** C9: the bar and the pie reducers both key a row by
    [String(row[key] || "Unknown")]; a falsy key value (undefined, null,
    false, the numbers 0, -0 and NaN, the empty string) gives the label
    "Unknown", a truthy one its own string; the string "0" is truthy and
    keeps its own group.  On [falsyKeys] the bar chart emits the groups
    "0" and "Unknown", the latter holding four of the five rows, and so
    does the pie chart. *)
Theorem unknown_for_falsy_keys : forall data bst pst random,
  map fst (Bar.groupedData data bst)
  = uniqStr (filter (fun l => negb (Obj.inherited l))
               (map (labelOf (propKey (Bar.xAxis bst))) data))
  /\ map fst (Pie.groupedData data pst)
     = uniqStr (filter (fun l => negb (Obj.inherited l))
                  (map (labelOf (Pie.actualLabelColumn pst))
                     (Pie.filteredData data pst)))
  /\ (forall column row,
        ToBoolean (get row column) = false ->
        labelOf column row = "Unknown")
  /\ (forall column row,
        ToBoolean (get row column) = true ->
        labelOf column row = ToString (get row column))
  /\ (ToBoolean VUndefined = false /\ ToBoolean VNull = false
      /\ ToBoolean (VBool false) = false /\ ToBoolean (VNum (Fin 0)) = false
      /\ ToBoolean (VNum NegZero) = false /\ ToBoolean (VNum NaN) = false
      /\ ToBoolean (VStr "") = false)
  /\ ToBoolean (VStr "0") = true
  /\ (forall column row,
        get row column = VStr "0" -> labelOf column row = "0")
  /\ map (fun it => (read it "category", read it "amount"))
       (Bar.chartData falsyKeys barOnCategory random)
     = [(VStr "0", VNum (Num.ofZ 1)); (VStr "Unknown", VNum (Num.ofZ 4))]
  /\ Pie.chartData falsyKeys pieOnCategory
     = [ {| Pie.name := "Unknown"; Pie.value := Num.ofZ 4 |};
         {| Pie.name := "0"; Pie.value := Num.ofZ 1 |} ].
Proof.
  intros data bst pst random.
  split.
  { rewrite bar_grouped, map_map. apply map_id. }
  split.
  { rewrite PieFacts.pie_grouped, map_map. apply map_id. }
  split.
  { intros column row H. unfold labelOf, or_else. rewrite H. reflexivity. }
  split.
  { intros column row H. unfold labelOf, or_else. rewrite H. reflexivity. }
  split; [repeat split|].
  split; [reflexivity|].
  split.
  { intros column row H. unfold labelOf, or_else. rewrite H. reflexivity. }
  split.
  { rewrite (bar_series falsyKeys barOnCategory) by discriminate.
    vm_compute. reflexivity. }
  vm_compute. reflexivity.
Qed.

End LabelClaims.

(** ** What the derived structures depend on *)

Module PurityClaims.
Import Num Val Utils Arr Roles Item ListFacts ObjFacts ItemFacts BarFacts Examples.
Local Open Scope string_scope.



End PurityClaims.

(* ================================================================== *)
(** ** Strings: trimming, substrings and the order of code units *)

Module StrFacts.
Import Str.
Local Open Scope string_scope.

Lemma str_app_nil_r : forall s, s ++ "" = s.
Proof. induction s as [|c s IH]; simpl; [reflexivity|now rewrite IH]. Qed.

Lemma str_app_assoc : forall s t u, (s ++ t) ++ u = s ++ t ++ u.
Proof.
  induction s as [|c s IH]; intros t u; simpl; [reflexivity|now rewrite IH].
Qed.

Lemma str_rev_append_app : forall s acc, rev_append s acc = rev s ++ acc.
Proof.
  unfold rev. induction s as [|c s IH]; intros acc; simpl.
  - reflexivity.
  - rewrite (IH (String c acc)), (IH (String c "")).
    rewrite str_app_assoc. reflexivity.
Qed.

Lemma str_rev_cons : forall c s, rev (String c s) = rev s ++ String c "".
Proof. intros c s. unfold rev at 1. simpl. apply str_rev_append_app. Qed.

Lemma str_rev_app : forall s t, rev (s ++ t) = rev t ++ rev s.
Proof.
  induction s as [|c s IH]; intros t; simpl.
  - symmetry. apply str_app_nil_r.
  - rewrite !str_rev_cons, IH. apply str_app_assoc.
Qed.

Lemma str_rev_involutive : forall s, rev (rev s) = s.
Proof.
  induction s as [|c s IH]; [reflexivity|].
  rewrite str_rev_cons, str_rev_app, IH. reflexivity.
Qed.

Lemma trimStart_length : forall s,
  (String.length (trimStart s) <= String.length s)%nat.
Proof.
  induction s as [|c s IH]; simpl; [lia|].
  destruct (isWhiteSpace c); simpl; lia.
Qed.

(** [trimStart s = s] says that there is nothing to trim at the start. *)
Lemma trimStart_head : forall c s,
  trimStart (String c s) = String c s -> isWhiteSpace c = false.
Proof.
  intros c s H. simpl in H.
  destruct (isWhiteSpace c); [|reflexivity].
  pose proof (trimStart_length s) as Hl. rewrite H in Hl. simpl in Hl. lia.
Qed.

Lemma trimStart_idem : forall s, trimStart (trimStart s) = trimStart s.
Proof.
  induction s as [|c s IH]; simpl; [reflexivity|].
  destruct (isWhiteSpace c) eqn:Hc; [exact IH|].
  simpl. now rewrite Hc.
Qed.

Lemma trimStart_snoc : forall s c, isWhiteSpace c = false ->
  trimStart (s ++ String c "") = trimStart s ++ String c "".
Proof.
  induction s as [|d s IH]; intros c Hc; simpl.
  - now rewrite Hc.
  - destruct (isWhiteSpace d); [apply IH, Hc|reflexivity].
Qed.

Lemma trimEnd_cons : forall c s, isWhiteSpace c = false ->
  trimEnd (String c s) = String c (trimEnd s).
Proof.
  intros c s Hc. unfold trimEnd.
  rewrite str_rev_cons, trimStart_snoc by exact Hc.
  rewrite str_rev_app. reflexivity.
Qed.

Lemma trimStart_trimEnd : forall s,
  trimStart s = s -> trimStart (trimEnd s) = trimEnd s.
Proof.
  intros [|c s] H; [reflexivity|].
  apply trimStart_head in H. rewrite trimEnd_cons by exact H.
  simpl. now rewrite H.
Qed.

Lemma trimEnd_idem : forall s, trimEnd (trimEnd s) = trimEnd s.
Proof.
  intros s. unfold trimEnd. rewrite str_rev_involutive, trimStart_idem.
  reflexivity.
Qed.

Lemma trimStart_trim : forall s, trimStart (trim s) = trim s.
Proof.
  intros s. unfold trim. apply trimStart_trimEnd, trimStart_idem.
Qed.

(** Trimming twice is trimming once. *)
Lemma trim_idem : forall s, trim (trim s) = trim s.
Proof.
  intros s. unfold trim at 1. rewrite trimStart_trim.
  unfold trim. apply trimEnd_idem.
Qed.

(** *** Substrings *)






(** *** The order of code units *)

Lemma ascii_compare_lt_trans : forall a b c,
  Ascii.compare a b = Lt -> Ascii.compare b c = Lt -> Ascii.compare a c = Lt.
Proof.
  intros a b c. unfold Ascii.compare. rewrite !N.compare_lt_iff. lia.
Qed.

Lemma str_compare_refl : forall s, String.compare s s = Eq.
Proof.
  induction s as [|c s IH]; simpl; [reflexivity|].
  unfold Ascii.compare. rewrite N.compare_refl. exact IH.
Qed.

Lemma compare_lt_trans : forall s t u,
  String.compare s t = Lt -> String.compare t u = Lt -> String.compare s u = Lt.
Proof.
  induction s as [|a s IH]; intros [|b t] [|c u]; simpl;
    try discriminate; try reflexivity.
  destruct (Ascii.compare a b) eqn:Hab; try discriminate;
    destruct (Ascii.compare b c) eqn:Hbc; try discriminate.
  - apply Ascii.compare_eq_iff in Hab, Hbc. subst.
    unfold Ascii.compare. rewrite N.compare_refl. apply IH.
  - apply Ascii.compare_eq_iff in Hab. subst. rewrite Hbc. reflexivity.
  - apply Ascii.compare_eq_iff in Hbc. subst. rewrite Hab. reflexivity.
  - rewrite (ascii_compare_lt_trans a b c Hab Hbc). reflexivity.
Qed.

Lemma str_ltb_asym : forall s t, ltb s t = true -> ltb t s = false.
Proof.
  intros s t. unfold ltb. rewrite (String.compare_antisym t s).
  destruct (String.compare s t); simpl; congruence.
Qed.

(** [ltb t s = false] reads: [s] does not come after [t]. *)
Lemma not_after_trans : forall a b c,
  ltb b a = false -> ltb c b = false -> ltb c a = false.
Proof.
  intros a b c. unfold ltb.
  rewrite (String.compare_antisym b a), (String.compare_antisym c b),
    (String.compare_antisym c a).
  destruct (String.compare a b) eqn:Hab; simpl; try discriminate;
    destruct (String.compare b c) eqn:Hbc; simpl; try discriminate;
    intros _ _.
  - apply String.compare_eq_iff in Hab, Hbc. subst.
    now rewrite str_compare_refl.
  - apply String.compare_eq_iff in Hab. subst. now rewrite Hbc.
  - apply String.compare_eq_iff in Hbc. subst. now rewrite Hab.
  - now rewrite (compare_lt_trans a b c Hab Hbc).
Qed.

Lemma not_after_neq : forall a b,
  ltb b a = false -> a <> b -> ltb a b = true.
Proof.
  intros a b. unfold ltb. rewrite (String.compare_antisym b a).
  destruct (String.compare a b) eqn:Hab; simpl; try discriminate.
  - apply String.compare_eq_iff in Hab. congruence.
  - reflexivity.
Qed.

Lemma str_ltb_irrefl : forall s, ltb s s = false.
Proof. intros s. unfold ltb. now rewrite str_compare_refl. Qed.

End StrFacts.

(* ================================================================== *)
(** ** Rounding to binary64 *)

Module RoundFacts.
Import Num.

Lemma shift_bound : forall q, 0 <= q ->
  let s := Z.max 0 (Z.log2 q - 52) in
  0 <= s /\ q < 2 ^ (s + 53).
Proof.
  intros q Hq s. split; [unfold s; lia|].
  destruct (Z.eq_dec q 0) as [->|Hn].
  - apply Z.pow_pos_nonneg; unfold s; lia.
  - destruct (Z.log2_spec q) as [_ Hhi]; [lia|].
    eapply Z.lt_le_trans; [exact Hhi|].
    apply Z.pow_le_mono_r; unfold s; lia.
Qed.

(** The rounded quotient is within half a unit in the last place of the
    quotient. *)
Lemma round_nat_error : forall n m, 0 <= n -> 0 < m ->
  2 * Z.abs (round_nat n m * m - n) <= m * 2 ^ Z.max 0 (Z.log2 (n / m) - 52)
  /\ 0 <= round_nat n m.
Proof.
  intros n m Hn Hm. unfold round_nat.
  set (s := Z.max 0 (Z.log2 (n / m) - 52)).
  assert (Hs : 0 <= s) by (unfold s; lia).
  assert (Hp : 0 < 2 ^ s) by (apply Z.pow_pos_nonneg; lia).
  rewrite !Z.shiftl_mul_pow2 by exact Hs.
  set (d := m * 2 ^ s).
  assert (Hd : 0 < d) by (unfold d; nia).
  pose proof (Z.div_mod n d ltac:(lia)) as Hdm.
  pose proof (Z.mod_pos_bound n d Hd) as Hr.
  assert (Hq : 0 <= n / d) by (apply Z.div_pos; lia).
  set (q := n / d) in *. set (r := n mod d) in *.
  assert (Hqd : forall k, k * 2 ^ s * m = k * d) by (intros; unfold d; ring).
  destruct (2 * r <? d) eqn:H1; [apply Z.ltb_lt in H1|apply Z.ltb_ge in H1].
  { rewrite Hqd. split; [lia|nia]. }
  destruct (d <? 2 * r) eqn:H2; [apply Z.ltb_lt in H2|apply Z.ltb_ge in H2].
  { rewrite Hqd. split; [lia|nia]. }
  destruct (Z.even q); rewrite Hqd; (split; [lia|nia]).
Qed.

(** The rounded quotient depends on the quotient alone. *)
Lemma round_nat_scale : forall n m k, 0 <= n -> 0 < m -> 0 < k ->
  round_nat (n * k) (m * k) = round_nat n m.
Proof.
  intros n m k Hn Hm Hk. unfold round_nat.
  rewrite Z.div_mul_cancel_r by lia.
  set (s := Z.max 0 (Z.log2 (n / m) - 52)).
  assert (Hs : 0 <= s) by (unfold s; lia).
  assert (Hp : 0 < 2 ^ s) by (apply Z.pow_pos_nonneg; lia).
  rewrite !Z.shiftl_mul_pow2 by exact Hs.
  replace (m * k * 2 ^ s) with (m * 2 ^ s * k) by ring.
  rewrite Z.div_mul_cancel_r by nia.
  rewrite Z.mul_mod_distr_r by nia.
  set (d := m * 2 ^ s). set (r := n mod d).
  replace (2 * (r * k) <? d * k) with (2 * r <? d).
  2:{ destruct (Z.ltb_spec (2 * r) d), (Z.ltb_spec (2 * (r * k)) (d * k));
        try reflexivity; nia. }
  replace (d * k <? 2 * (r * k)) with (d <? 2 * r).
  2:{ destruct (Z.ltb_spec d (2 * r)), (Z.ltb_spec (d * k) (2 * (r * k)));
        try reflexivity; nia. }
  reflexivity.
Qed.

(** A number of at most 53 significant bits is its own rounding. *)
Lemma round_pow2_exact : forall a e t, 0 < a < 2 ^ 53 -> 0 <= e -> 0 <= t ->
  round_pow2 (a * 2 ^ (e + t)) t = a * 2 ^ e.
Proof.
  intros a e t Ha He Ht. unfold round_pow2.
  assert (Hq0 : Z.shiftr (a * 2 ^ (e + t)) t = a * 2 ^ e).
  { rewrite Z.shiftr_div_pow2 by lia. rewrite Z.pow_add_r by lia.
    rewrite Z.mul_assoc. apply Z.div_mul.
    apply Z.pow_nonzero; lia. }
  rewrite Hq0.
  assert (Hl : Z.log2 (a * 2 ^ e) = Z.log2 a + e)
    by (rewrite Z.log2_mul_pow2 by lia; lia).
  rewrite Hl.
  assert (Hla : Z.log2 a <= 52).
  { assert (Z.log2 a < 53) by (apply Z.log2_lt_pow2; lia). lia. }
  set (s := Z.max 0 (Z.log2 a + e - 52)).
  assert (Hs : 0 <= s <= e) by (unfold s; lia).
  assert (Hsplit : a * 2 ^ (e + t) = a * 2 ^ (e - s) * 2 ^ (t + s)).
  { rewrite <- Z.mul_assoc, <- Z.pow_add_r by lia. f_equal. f_equal. lia. }
  assert (Hq : Z.shiftr (a * 2 ^ (e + t)) (t + s) = a * 2 ^ (e - s)).
  { rewrite Z.shiftr_div_pow2 by lia. rewrite Hsplit.
    apply Z.div_mul. apply Z.pow_nonzero; lia. }
  rewrite Hq. rewrite !Z.shiftl_mul_pow2 by lia.
  rewrite <- Hsplit. rewrite Z.sub_diag.
  assert (Hp : 0 < 2 ^ (t + s)) by (apply Z.pow_pos_nonneg; lia).
  replace (2 * 0 <? 1 * 2 ^ (t + s)) with true
    by (symmetry; apply Z.ltb_lt; lia).
  rewrite <- Z.mul_assoc, <- Z.pow_add_r by lia. f_equal. f_equal. lia.
Qed.

Lemma round_pow2_zero_any : forall t, 0 <= t -> round_pow2 0 t = 0.
Proof.
  intros t Ht. unfold round_pow2. rewrite !Z.shiftr_0_l. simpl Z.log2.
  replace (Z.max 0 (0 - 52)) with 0 by lia.
  rewrite Z.add_0_r, Z.shiftl_0_l.
  rewrite !Z.shiftl_mul_pow2 by lia.
  assert (Hp : 0 < 2 ^ t) by (apply Z.pow_pos_nonneg; lia).
  replace (2 * (0 - 0) <? 1 * 2 ^ t) with true
    by (symmetry; apply Z.ltb_lt; lia).
  reflexivity.
Qed.

(** The rounding of [n / 2^t] is within half a unit in the last place. *)
Lemma round_pow2_error : forall n t, 0 <= n -> 0 <= t ->
  2 * Z.abs (round_pow2 n t * 2 ^ t - n)
    <= 2 ^ (t + Z.max 0 (Z.log2 (Z.shiftr n t) - 52))
  /\ 0 <= round_pow2 n t.
Proof.
  intros n t Hn Ht. unfold round_pow2.
  set (s := Z.max 0 (Z.log2 (Z.shiftr n t) - 52)).
  assert (Hs : 0 <= s) by (unfold s; lia).
  rewrite Z.shiftr_div_pow2 by lia.
  rewrite !Z.shiftl_mul_pow2 by lia.
  set (d := 2 ^ (t + s)).
  assert (Hd : 0 < d) by (apply Z.pow_pos_nonneg; lia).
  assert (Hd' : 2 ^ s * 2 ^ t = d)
    by (unfold d; rewrite <- Z.pow_add_r by lia; f_equal; lia).
  pose proof (Z.div_mod n d ltac:(lia)) as Hdm.
  pose proof (Z.mod_pos_bound n d Hd) as Hr.
  assert (Hq : 0 <= n / d) by (apply Z.div_pos; lia).
  set (q := n / d) in *.
  assert (Hp : 0 < 2 ^ s) by (apply Z.pow_pos_nonneg; lia).
  assert (Hqd : forall k, k * 2 ^ s * 2 ^ t = k * d)
    by (intros; rewrite <- Hd'; ring).
  rewrite Z.mul_1_l.
  destruct (2 * (n - q * d) <? d) eqn:H1;
    [apply Z.ltb_lt in H1|apply Z.ltb_ge in H1].
  { rewrite Hqd. split; [lia|nia]. }
  destruct (d <? 2 * (n - q * d)) eqn:H2;
    [apply Z.ltb_lt in H2|apply Z.ltb_ge in H2].
  { rewrite Hqd. split; [lia|nia]. }
  destruct (Z.even q); rewrite Hqd; (split; [lia|nia]).
Qed.

Lemma mkFin_Fin : forall m, 0 <= m < overflow -> mkFin false m = Fin m.
Proof.
  intros m Hm. unfold mkFin.
  replace (overflow <=? m) with false by (symmetry; apply Z.leb_gt; lia).
  destruct (Z.eqb_spec m 0) as [->|_]; reflexivity.
Qed.

Lemma scale_mul : forall n, scale n = n * 2 ^ 1074.
Proof. intros n. unfold scale. apply Z.shiftl_mul_pow2. lia. Qed.

Lemma overflow_pow : overflow = 2 ^ 2098.
Proof. unfold overflow. rewrite Z.shiftl_mul_pow2 by lia. lia. Qed.

(** Integers below 2^53 are held exactly. *)
Lemma ofZ_small : forall z, 0 <= z < 2 ^ 53 -> ofZ z = Fin (scale z).
Proof.
  intros z Hz. unfold ofZ.
  replace (z <? 0) with false by (symmetry; apply Z.ltb_ge; lia).
  rewrite Z.abs_eq by lia.
  destruct (Z.eq_dec z 0) as [->|Hn]; [reflexivity|].
  rewrite scale_mul.
  replace (z * 2 ^ 1074) with (z * 2 ^ (1074 + 0)) at 1 by (f_equal).
  rewrite round_pow2_exact by lia.
  apply mkFin_Fin. rewrite overflow_pow.
  split; [nia|].
  replace (2 ^ 2098) with (2 ^ 53 * 2 ^ 1074 * 2 ^ 971)
    by (rewrite <- !Z.pow_add_r by lia; reflexivity).
  assert (0 < 2 ^ 1074) by (apply Z.pow_pos_nonneg; lia).
  assert (1 <= 2 ^ 971) by (apply (Z.pow_le_mono_r 2 0 971); lia).
  nia.
Qed.

Lemma div_Fin : forall a b, 0 <= a -> 0 < b ->
  div (Fin a) (Fin b) = of_ratio false (scale a) b.
Proof.
  intros a b Ha Hb. destruct b as [|q|q]; try lia.
  destruct a as [|p|p]; try lia; reflexivity.
Qed.

Lemma pow_1074 : 2 ^ 1074 = 2 ^ 53 * 2 ^ 1021.
Proof. rewrite <- Z.pow_add_r by lia. reflexivity. Qed.

(** The quotient of two array lengths, in quanta, and its distance to
    the exact quotient. *)
Lemma div_lengths : forall c n, 0 <= c <= n -> 0 < n < 2 ^ 53 ->
  exists R, div (ofZ c) (ofZ n) = Fin R
    /\ 0 <= R
    /\ Z.abs (R * n - c * 2 ^ 1074) <= n * 2 ^ 1021.
Proof.
  intros c n Hc Hn.
  rewrite !ofZ_small by lia.
  assert (HU : 0 < 2 ^ 1074) by (apply Z.pow_pos_nonneg; lia).
  rewrite div_Fin by (rewrite scale_mul; nia).
  unfold of_ratio. rewrite !scale_mul.
  rewrite round_nat_scale by nia.
  destruct (round_nat_error (c * 2 ^ 1074) n) as [He Hr]; [nia|lia|].
  set (R := round_nat (c * 2 ^ 1074) n) in *.
  assert (Hq : c * 2 ^ 1074 / n <= 2 ^ 1074).
  { apply Z.div_le_upper_bound; nia. }
  assert (Hl : Z.log2 (c * 2 ^ 1074 / n) <= 1074).
  { rewrite <- (Z.log2_pow2 1074) by lia. apply Z.log2_le_mono. exact Hq. }
  assert (Hs : 2 ^ Z.max 0 (Z.log2 (c * 2 ^ 1074 / n) - 52) <= 2 ^ 1022).
  { apply Z.pow_le_mono_r; lia. }
  assert (H22 : 2 ^ 1022 = 2 * 2 ^ 1021)
    by (rewrite <- (Z.pow_succ_r 2 1021) by lia; reflexivity).
  assert (HP : 0 < 2 ^ 1021) by (apply Z.pow_pos_nonneg; lia).
  assert (Hb : Z.abs (R * n - c * 2 ^ 1074) <= n * 2 ^ 1021) by nia.
  exists R. split; [|split; [exact Hr|exact Hb]].
  apply mkFin_Fin. split; [exact Hr|].
  rewrite overflow_pow.
  assert (R < 2 ^ 1075).
  { replace (2 ^ 1075) with (2 * 2 ^ 1074)
      by (rewrite <- (Z.pow_succ_r 2 1074) by lia; reflexivity).
    rewrite pow_1074 in *. nia. }
  assert (2 ^ 1075 <= 2 ^ 2098) by (apply Z.pow_le_mono_r; lia).
  lia.
Qed.

Lemma lit_0_8_quanta : exists K,
  Roles.lit_0_8 = Fin K
  /\ 4 * 2 ^ 1074 <= 5 * K < 4 * 2 ^ 1074 + 5 * 2 ^ 1021
  /\ round_nat (4 * 2 ^ 1074) 5 = K.
Proof.
  exists (quanta Roles.lit_0_8).
  split; [vm_compute; reflexivity|].
  split; [split|].
  - apply Z.leb_le. vm_compute. reflexivity.
  - apply Z.ltb_lt. vm_compute. reflexivity.
  - vm_compute. reflexivity.
Qed.

(** Two rationals with denominators below 2^32 that differ are further
    apart than the rounding error of their quotients. *)
Lemma threshold_above : forall K R n c P,
  0 < P -> 0 < n < 4294967296 ->
  Z.abs (R * n - c * (9007199254740992 * P)) <= n * P ->
  5 * K < 4 * (9007199254740992 * P) + 5 * P ->
  4 * n < 5 * c -> K <= R.
Proof.
  intros K R n c P HP Hn Herr HK Hlt.
  destruct (Z.le_gt_cases K R) as [Hok|Hbad]; [exact Hok|exfalso].
  assert (H1 : 0 <= (K - 1 - R) * n) by nia.
  assert (H2 : 0 <= (5 * c - 4 * n - 1) * P) by nia.
  assert (H3 : n * P < 4294967296 * P) by nia.
  nia.
Qed.

Lemma threshold_below : forall K R n c P,
  0 < P -> 0 < n < 4294967296 ->
  Z.abs (R * n - c * (9007199254740992 * P)) <= n * P ->
  4 * (9007199254740992 * P) <= 5 * K ->
  5 * c < 4 * n -> R < K.
Proof.
  intros K R n c P HP Hn Herr HK Hlt.
  destruct (Z.le_gt_cases K R) as [Hbad|Hok]; [exfalso|exact Hok].
  assert (H1 : 0 <= (R - K) * n) by nia.
  assert (H2 : 0 <= (4 * n - 5 * c - 1) * P) by nia.
  assert (H3 : n * P < 4294967296 * P) by nia.
  nia.
Qed.

Lemma pow_1074' : 2 ^ 1074 = 9007199254740992 * 2 ^ 1021.
Proof. rewrite pow_1074. reflexivity. Qed.

(** The test [numericCount / data.length >= 0.8] is exact: it holds when
    at least four fifths of the rows are numeric, and only then. *)
Lemma fraction_geb : forall c n, 0 <= c <= n -> 0 < n < 4294967296 ->
  geb (div (ofZ c) (ofZ n)) Roles.lit_0_8 = (4 * n <=? 5 * c).
Proof.
  intros c n Hc Hn.
  destruct lit_0_8_quanta as [K [HK [[Hlo Hhi] Hex]]].
  assert (H53 : 2 ^ 53 = 9007199254740992) by reflexivity.
  assert (HP : 0 < 2 ^ 1021) by (apply Z.pow_pos_nonneg; lia).
  destruct (Z.eq_dec (5 * c) (4 * n)) as [Heq|Hne].
  - (* the quotient is 4/5 itself *)
    assert (Hj : exists j, c = 4 * j /\ n = 5 * j /\ 0 < j)
      by (exists (n - c); lia).
    destruct Hj as [j [-> [-> Hj]]].
    rewrite !ofZ_small by lia.
    assert (HU : 0 < 2 ^ 1074) by (apply Z.pow_pos_nonneg; lia).
    rewrite div_Fin by (rewrite scale_mul; nia).
    unfold of_ratio. rewrite !scale_mul.
    rewrite round_nat_scale by nia.
    replace (4 * j * 2 ^ 1074) with (4 * 2 ^ 1074 * j) by ring.
    rewrite round_nat_scale by lia.
    rewrite Hex, HK.
    rewrite mkFin_Fin.
    + unfold geb, leb, quanta.
      replace (4 * (5 * j) <=? 5 * (4 * j)) with true
        by (symmetry; apply Z.leb_le; lia).
      apply Z.leb_refl.
    + rewrite overflow_pow. rewrite pow_1074' in Hlo, Hhi. split; [lia|].
      replace (2 ^ 2098) with (2 ^ 1077 * 2 ^ 1021)
        by (rewrite <- Z.pow_add_r by lia; reflexivity).
      assert (9007199254740992 * 8 <= 2 ^ 1077).
      { change (9007199254740992 * 8) with (2 ^ 56).
        apply Z.pow_le_mono_r; lia. }
      nia.
  - destruct (div_lengths c n Hc ltac:(lia)) as [R [-> [HR Herr]]].
    rewrite HK. unfold geb, leb, quanta.
    rewrite pow_1074' in Herr, Hlo, Hhi.
    destruct (Z.leb_spec (4 * n) (5 * c)) as [Hge|Hlt].
    + apply Z.leb_le.
      apply (threshold_above _ R n c (2 ^ 1021)); try assumption; lia.
    + apply Z.leb_gt.
      apply (threshold_below _ R n c (2 ^ 1021)); try assumption; lia.
Qed.

Lemma mul_Fin : forall a b, 0 <= a -> 0 <= b ->
  mul (Fin a) (Fin b) = mkFin false (round_pow2 (a * b) 1074).
Proof.
  intros a b Ha Hb.
  destruct a as [|p|p]; try lia; destruct b as [|q|q]; try lia; reflexivity.
Qed.

Lemma lit_0_5_quanta : Roles.lit_0_5 = Fin (2 ^ 1073).
Proof. vm_compute. reflexivity. Qed.

(** The test [uniqueValues.length <= data.length * 0.5] is exact. *)
Lemma half_leb : forall u n, 0 <= u < 2 ^ 53 -> 0 <= n < 2 ^ 53 ->
  leb (ofZ u) (mul (ofZ n) Roles.lit_0_5) = (2 * u <=? n).
Proof.
  intros u n Hu Hn.
  rewrite !ofZ_small by lia. rewrite lit_0_5_quanta, !scale_mul.
  assert (HU : 0 < 2 ^ 1073) by (apply Z.pow_pos_nonneg; lia).
  assert (HU' : 2 ^ 1074 = 2 * 2 ^ 1073)
    by (rewrite <- (Z.pow_succ_r 2 1073) by lia; reflexivity).
  rewrite mul_Fin by nia.
  assert (Hr : round_pow2 (n * 2 ^ 1074 * 2 ^ 1073) 1074 = n * 2 ^ 1073).
  { destruct (Z.eq_dec n 0) as [->|Hn0].
    - rewrite !Z.mul_0_l. apply round_pow2_zero_any; lia.
    - rewrite <- Z.mul_assoc, (Z.mul_comm (2 ^ 1074)), <- Z.pow_add_r by lia.
      apply round_pow2_exact; lia. }
  rewrite Hr. rewrite mkFin_Fin.
  - unfold leb, quanta. rewrite HU'.
    destruct (Z.leb_spec (u * (2 * 2 ^ 1073)) (n * 2 ^ 1073)),
      (Z.leb_spec (2 * u) n); try reflexivity; nia.
  - rewrite overflow_pow. split; [nia|].
    replace (2 ^ 2098) with (2 ^ 53 * 2 ^ 1073 * 2 ^ 972)
      by (rewrite <- !Z.pow_add_r by lia; reflexivity).
    assert (1 <= 2 ^ 972) by (apply (Z.pow_le_mono_r 2 0 972); lia).
    nia.
Qed.

(** A number that lies less than half a unit in the last place above a
    number of 53 significant bits rounds down to it. *)
Lemma round_pow2_nearest : forall a e dl t,
  2 ^ 52 <= a < 2 ^ 53 -> 0 <= e -> 0 <= t -> 0 <= dl -> 2 * dl < 2 ^ e ->
  round_pow2 ((a * 2 ^ e + dl) * 2 ^ t) t = a * 2 ^ e.
Proof.
  intros a e dl t Ha He Ht Hdl Hhalf. unfold round_pow2.
  assert (Pe : 0 < 2 ^ e) by (apply Z.pow_pos_nonneg; lia).
  assert (Pt : 0 < 2 ^ t) by (apply Z.pow_pos_nonneg; lia).
  assert (Hq0 : Z.shiftr ((a * 2 ^ e + dl) * 2 ^ t) t = a * 2 ^ e + dl).
  { rewrite Z.shiftr_div_pow2 by lia. apply Z.div_mul. lia. }
  rewrite Hq0.
  assert (Hl : Z.log2 (a * 2 ^ e + dl) = 52 + e).
  { apply Z.log2_unique; [lia|].
    rewrite Z.pow_succ_r, Z.pow_add_r by lia.
    change (2 ^ 53) with (2 * 2 ^ 52) in Ha. nia. }
  rewrite Hl. replace (Z.max 0 (52 + e - 52)) with e by lia.
  assert (Hq : Z.shiftr ((a * 2 ^ e + dl) * 2 ^ t) (t + e) = a).
  { rewrite Z.shiftr_div_pow2 by lia.
    rewrite Z.pow_add_r by lia.
    rewrite (Z.mul_comm (2 ^ t) (2 ^ e)).
    rewrite Z.div_mul_cancel_r by lia.
    rewrite Z.div_add_l by lia. rewrite Z.div_small by lia. lia. }
  rewrite Hq. rewrite !Z.shiftl_mul_pow2 by lia.
  rewrite Z.pow_add_r by lia.
  replace (2 * ((a * 2 ^ e + dl) * 2 ^ t - a * (2 ^ t * 2 ^ e))
           <? 1 * (2 ^ t * 2 ^ e)) with true.
  - reflexivity.
  - symmetry. apply Z.ltb_lt. nia.
Qed.

Lemma lit_0_2_quanta : exists K,
  Roles.lit_0_2 = Fin K /\ 5 * K = 2 ^ 1074 + 2 ^ 1020.
Proof.
  exists (quanta Roles.lit_0_2).
  split; [vm_compute; reflexivity|].
  apply Z.eqb_eq. vm_compute. reflexivity.
Qed.

Lemma fifth_arith_above : forall R X u n P,
  0 < P -> 0 <= n < 4294967296 ->
  2 * Z.abs (R - X) <= 2147483648 * P ->
  5 * X = n * (18014398509481984 * P + P) ->
  5 * u < n -> u * (18014398509481984 * P) < R.
Proof.
  intros R X u n P HP Hn Herr HX Hlt.
  assert (H1 : 0 <= (n - 5 * u - 1) * P) by nia.
  assert (H2 : 0 <= n * P) by nia.
  nia.
Qed.

Lemma fifth_arith_below : forall R X u n P,
  0 < P -> 0 <= n < 4294967296 ->
  2 * Z.abs (R - X) <= 2147483648 * P ->
  5 * X = n * (18014398509481984 * P + P) ->
  n < 5 * u -> R <= u * (18014398509481984 * P).
Proof.
  intros R X u n P HP Hn Herr HX Hlt.
  assert (H1 : 0 <= (5 * u - n - 1) * P) by nia.
  assert (H2 : n * P < 4294967296 * P) by nia.
  nia.
Qed.

(** [u + u * 2^-54] rounds to [u]. *)
Lemma round_pow2_fifth : forall u, 0 < u < 4294967296 ->
  round_pow2 ((u * 2 ^ 1074 + u * 2 ^ 1020) * 2 ^ 1074) 1074 = u * 2 ^ 1074.
Proof.
  intros u Hu.
  destruct (Z.log2_spec u ltac:(lia)) as [Llo Lhi].
  assert (HL : 0 <= Z.log2 u) by apply Z.log2_nonneg.
  assert (HL' : Z.log2 u < 32).
  { apply Z.log2_lt_pow2; [lia|]. change (2 ^ 32) with 4294967296. lia. }
  set (L := Z.log2 u) in *.
  rewrite Z.pow_succ_r in Lhi by lia.
  assert (E1 : u * 2 ^ 1074 = u * 2 ^ (52 - L) * 2 ^ (1022 + L)).
  { rewrite <- Z.mul_assoc, <- Z.pow_add_r by lia. f_equal. f_equal. lia. }
  assert (E2 : 2 ^ 52 = 2 ^ L * 2 ^ (52 - L))
    by (rewrite <- Z.pow_add_r by lia; f_equal; lia).
  assert (E3 : 2 ^ 53 = 2 * 2 ^ L * 2 ^ (52 - L)).
  { rewrite <- Z.mul_assoc, <- E2. reflexivity. }
  assert (E4 : 2 ^ (1022 + L) = 4 * 2 ^ 1020 * 2 ^ L).
  { rewrite Z.pow_add_r by lia. f_equal. }
  assert (Pa : 0 < 2 ^ (52 - L)) by (apply Z.pow_pos_nonneg; lia).
  assert (Pb : 0 < 2 ^ 1020) by (apply Z.pow_pos_nonneg; lia).
  rewrite E1 at 1.
  rewrite round_pow2_nearest; [lia| |lia|lia|lia|].
  - rewrite E2, E3. split.
    + apply Z.mul_le_mono_nonneg_r; lia.
    + apply Z.mul_lt_mono_pos_r; lia.
  - rewrite E4.
    replace (2 * (u * 2 ^ 1020)) with (2 * 2 ^ 1020 * u) by ring.
    replace (4 * 2 ^ 1020 * 2 ^ L) with (2 * 2 ^ 1020 * (2 * 2 ^ L)) by ring.
    apply Z.mul_lt_mono_pos_l; lia.
Qed.

(** The product [data.length * 0.2], in quanta: although 0.2 is not a
    binary64 number and the product is rounded, comparing a count with
    it is comparing five times the count with the length. *)
Lemma fifth_quanta : forall n, 0 <= n < 4294967296 ->
  exists R, mul (ofZ n) Roles.lit_0_2 = Fin R
    /\ forall u, 0 <= u < 4294967296 ->
         (u * 2 ^ 1074 <? R) = (5 * u <? n).
Proof.
  intros n Hn.
  rewrite !ofZ_small by (change (2 ^ 53) with 9007199254740992; lia).
  destruct lit_0_2_quanta as [K [HK H5]].
  rewrite HK, !scale_mul.
  assert (HP : 0 < 2 ^ 1020) by (apply Z.pow_pos_nonneg; lia).
  assert (HU : 2 ^ 1074 = 18014398509481984 * 2 ^ 1020).
  { change 18014398509481984 with (2 ^ 54).
    rewrite <- Z.pow_add_r by lia. reflexivity. }
  assert (HK0 : 0 < K) by lia.
  rewrite mul_Fin by nia.
  destruct (Z.eq_dec n 0) as [->|Hn0].
  { rewrite !Z.mul_0_l. rewrite round_pow2_zero_any by lia.
    exists 0. split.
    - apply mkFin_Fin. pose proof NumFacts.overflow_pos. lia.
    - intros u Hu.
      destruct (Z.ltb_spec (u * 2 ^ 1074) 0), (Z.ltb_spec (5 * u) 0);
        try reflexivity; nia. }
  replace (n * 2 ^ 1074 * K) with (n * K * 2 ^ 1074) by ring.
  destruct (round_pow2_error (n * K * 2 ^ 1074) 1074) as [Herr HR];
    [nia|lia|].
  set (R := round_pow2 (n * K * 2 ^ 1074) 1074) in *.
  assert (Hsh : Z.shiftr (n * K * 2 ^ 1074) 1074 = n * K).
  { rewrite Z.shiftr_div_pow2 by lia. apply Z.div_mul. lia. }
  rewrite Hsh in Herr.
  assert (HX : n * K < 2 ^ 1104).
  { replace (2 ^ 1104) with (4294967296 * (2 ^ 52 * 2 ^ 1020)).
    - change (2 ^ 52) with 4503599627370496. nia.
    - change 4294967296 with (2 ^ 32).
      rewrite <- !Z.pow_add_r by lia. reflexivity. }
  assert (Hl : Z.log2 (n * K) < 1104) by (apply Z.log2_lt_pow2; nia).
  assert (Hs : 2 ^ Z.max 0 (Z.log2 (n * K) - 52) <= 2 ^ 1051)
    by (apply Z.pow_le_mono_r; lia).
  rewrite Z.pow_add_r in Herr by lia.
  assert (H51 : 2 ^ 1051 = 2147483648 * 2 ^ 1020).
  { change 2147483648 with (2 ^ 31).
    rewrite <- Z.pow_add_r by lia. reflexivity. }
  assert (Herr' : 2 * Z.abs (R - n * K) <= 2147483648 * 2 ^ 1020).
  { rewrite <- H51.
    assert (0 < 2 ^ 1074) by lia.
    set (W := 2 ^ Z.max 0 (Z.log2 (n * K) - 52)) in *.
    assert (2 * Z.abs (R - n * K) * 2 ^ 1074 <= 2 ^ 1074 * W) by nia.
    nia. }
  assert (HX5 : 5 * (n * K) = n * (18014398509481984 * 2 ^ 1020 + 2 ^ 1020))
    by (rewrite <- HU; nia).
  exists R. split.
  { apply mkFin_Fin. rewrite overflow_pow. split; [exact HR|].
    assert (2 ^ 1104 + 2 ^ 1104 <= 2 ^ 2098).
    { replace (2 ^ 1104 + 2 ^ 1104) with (2 ^ 1105).
      - apply Z.pow_le_mono_r; lia.
      - change 1105 with (Z.succ 1104).
        rewrite (Z.pow_succ_r 2 1104) by lia. lia. }
    assert (2 ^ 1051 <= 2 ^ 1104) by (apply Z.pow_le_mono_r; lia).
    lia. }
  intros u Hu. rewrite HU.
  destruct (Z.lt_trichotomy (5 * u) n) as [Hlt|[Heq|Hgt]].
  - replace (5 * u <? n) with true by (symmetry; apply Z.ltb_lt; lia).
    apply Z.ltb_lt.
    apply (fifth_arith_above R (n * K) u n (2 ^ 1020)); try assumption; lia.
  - replace (5 * u <? n) with false by (symmetry; apply Z.ltb_ge; lia).
    apply Z.ltb_ge.
    assert (Hu0 : 0 < u) by lia.
    assert (HRu : R = u * 2 ^ 1074).
    { unfold R. replace (n * K * 2 ^ 1074)
        with ((u * 2 ^ 1074 + u * 2 ^ 1020) * 2 ^ 1074).
      - apply round_pow2_fifth. lia.
      - f_equal. subst n. lia. }
    rewrite HRu, HU. lia.
  - replace (5 * u <? n) with false by (symmetry; apply Z.ltb_ge; lia).
    apply Z.ltb_ge.
    apply (fifth_arith_below R (n * K) u n (2 ^ 1020)); try assumption; lia.
Qed.

Lemma fifth_ltb : forall u n, 0 <= u < 4294967296 -> 0 <= n < 4294967296 ->
  ltb (ofZ u) (mul (ofZ n) Roles.lit_0_2) = (5 * u <? n).
Proof.
  intros u n Hu Hn. destruct (fifth_quanta n Hn) as [R [-> HR]].
  rewrite ofZ_small by (change (2 ^ 53) with 9007199254740992; lia).
  rewrite scale_mul. unfold ltb, quanta. apply HR, Hu.
Qed.

Lemma min_Fin : forall a b, min (Fin a) (Fin b) = Fin (Z.min a b).
Proof.
  intros a b. unfold min, ltb, quanta, signbit.
  destruct (Z.ltb_spec a b); [f_equal; lia|].
  destruct (Z.ltb_spec b a); [f_equal; lia|].
  destruct (a <? 0); f_equal; lia.
Qed.

(** The test [uniqueValues < Math.min(data.length * 0.2, 10)]. *)
Lemma fifth_min_ltb : forall u n,
  0 <= u < 4294967296 -> 0 <= n < 4294967296 ->
  ltb (ofZ u) (min (mul (ofZ n) Roles.lit_0_2) (ofZ 10))
  = (5 * u <? n) && (u <? 10).
Proof.
  intros u n Hu Hn. destruct (fifth_quanta n Hn) as [R [-> HR]].
  rewrite !ofZ_small by (change (2 ^ 53) with 9007199254740992; lia).
  rewrite min_Fin, !scale_mul. unfold ltb, quanta.
  rewrite <- (HR u Hu).
  assert (HU : 0 < 2 ^ 1074) by (apply Z.pow_pos_nonneg; lia).
  destruct (Z.ltb_spec (u * 2 ^ 1074) (Z.min R (10 * 2 ^ 1074))),
    (Z.ltb_spec (u * 2 ^ 1074) R), (Z.ltb_spec u 10);
    try reflexivity; nia.
Qed.

Lemma round_nat_one : forall n, round_nat n 1 = round_pow2 n 0.
Proof.
  intros n. unfold round_nat, round_pow2.
  rewrite Z.div_1_r, Z.shiftr_0_r.
  set (s := Z.max 0 (Z.log2 n - 52)).
  assert (Hs : 0 <= s) by (unfold s; lia).
  assert (Hp : 0 < 2 ^ s) by (apply Z.pow_pos_nonneg; lia).
  rewrite Z.add_0_l.
  rewrite Z.shiftr_div_pow2, !Z.shiftl_mul_pow2 by lia.
  rewrite Z.mul_1_l.
  rewrite (Z.mod_eq n (2 ^ s)) by lia.
  rewrite (Z.mul_comm (2 ^ s) (n / 2 ^ s)). reflexivity.
Qed.

(** [Math.ceil(length / 10)] is the ceiling of the exact quotient. *)
Lemma ceil_tenth : forall n, 0 <= n < 4294967296 ->
  Table.toZ (Table.ceil (div (ofZ n) (ofZ 10))) = (n + 9) / 10.
Proof.
  intros n Hn.
  rewrite !ofZ_small by (change (2 ^ 53) with 9007199254740992; lia).
  assert (HU : 0 < 2 ^ 1074) by (apply Z.pow_pos_nonneg; lia).
  rewrite div_Fin by (rewrite scale_mul; nia).
  unfold of_ratio. rewrite !scale_mul.
  rewrite round_nat_scale by nia.
  assert (Hov : 2 ^ 1107 <= 2 ^ 2098) by (apply Z.pow_le_mono_r; lia).
  assert (H1107 : 2 ^ 1107 = 8589934592 * 2 ^ 1074).
  { change 8589934592 with (2 ^ 33).
    rewrite <- Z.pow_add_r by lia. reflexivity. }
  pose proof (Z.div_mod n 10 ltac:(lia)) as Hdm.
  pose proof (Z.mod_pos_bound n 10 ltac:(lia)) as Hrm.
  set (q := n / 10) in *. set (r := n mod 10) in *.
  assert (Hq : 0 <= q) by (apply Z.div_pos; lia).
  destruct (Z.eq_dec r 0) as [Hr0|Hr0].
  - (* ten divides the length *)
    replace ((n + 9) / 10) with q
      by (apply (Z.div_unique (n + 9) 10 q 9); lia).
    replace (n * 2 ^ 1074) with (q * 2 ^ 1074 * 10) by nia.
    change 10 with (1 * 10) at 2.
    rewrite round_nat_scale by nia.
    rewrite round_nat_one.
    assert (Hr : round_pow2 (q * 2 ^ 1074) 0 = q * 2 ^ 1074).
    { destruct (Z.eq_dec q 0) as [->|Hq0]; [reflexivity|].
      replace (q * 2 ^ 1074) with (q * 2 ^ (1074 + 0)) at 1 by (f_equal).
      apply round_pow2_exact; lia. }
    rewrite Hr. rewrite mkFin_Fin by (rewrite overflow_pow; nia).
    unfold Table.ceil.
    assert (Hsh : Z.shiftr (- (q * 2 ^ 1074)) 1074 = - q).
    { rewrite Z.shiftr_div_pow2 by lia.
      rewrite <- Z.mul_opp_l. apply Z.div_mul. lia. }
    rewrite Hsh.
    replace (q * 2 ^ 1074 <? 0) with false by (symmetry; apply Z.ltb_ge; nia).
    rewrite andb_false_r.
    unfold Table.toZ, quanta. rewrite Z.opp_involutive, scale_mul.
    rewrite Z.shiftr_div_pow2 by lia. apply Z.div_mul. lia.
  - replace ((n + 9) / 10) with (q + 1)
      by (apply (Z.div_unique (n + 9) 10 (q + 1) (r - 1)); lia).
    destruct (round_nat_error (n * 2 ^ 1074) 10) as [Herr HR]; [nia|lia|].
    set (R := round_nat (n * 2 ^ 1074) 10) in *.
    assert (HX : n * 2 ^ 1074 / 10 < 2 ^ 1106).
    { apply Z.div_lt_upper_bound; [lia|].
      replace (2 ^ 1106) with (4294967296 * 2 ^ 1074).
      - nia.
      - change 4294967296 with (2 ^ 32).
        rewrite <- Z.pow_add_r by lia. reflexivity. }
    assert (Hl : Z.log2 (n * 2 ^ 1074 / 10) < 1106).
    { destruct (Z.eq_dec (n * 2 ^ 1074 / 10) 0) as [->|Hnz];
        [simpl; lia|].
      apply Z.log2_lt_pow2; [|exact HX].
      assert (0 <= n * 2 ^ 1074 / 10) by (apply Z.div_pos; nia). lia. }
    assert (Hs : 2 ^ Z.max 0 (Z.log2 (n * 2 ^ 1074 / 10) - 52) <= 2 ^ 1053)
      by (apply Z.pow_le_mono_r; lia).
    assert (H74 : 2 ^ 1074 = 2097152 * 2 ^ 1053).
    { change 2097152 with (2 ^ 21).
      rewrite <- Z.pow_add_r by lia. reflexivity. }
    assert (HP : 0 < 2 ^ 1053) by (apply Z.pow_pos_nonneg; lia).
    assert (Hlo : q * 2 ^ 1074 < R) by (rewrite H74 in *; nia).
    assert (Hhi : R < (q + 1) * 2 ^ 1074) by (rewrite H74 in *; nia).
    rewrite mkFin_Fin by (rewrite overflow_pow; nia).
    unfold Table.ceil.
    assert (Hsh : Z.shiftr (- R) 1074 = - (q + 1)).
    { rewrite Z.shiftr_div_pow2 by lia. symmetry.
      apply (Z.div_unique (- R) (2 ^ 1074) (- (q + 1))
               ((q + 1) * 2 ^ 1074 - R)); lia. }
    rewrite Hsh, Z.opp_involutive.
    replace (q + 1 =? 0) with false by (symmetry; apply Z.eqb_neq; lia).
    rewrite andb_false_l.
    unfold Table.toZ, quanta. rewrite scale_mul.
    rewrite Z.shiftr_div_pow2 by lia. apply Z.div_mul. lia.
Qed.

(** The largest binary64 number below one is 1 - 2^-53. *)
Lemma representable_below_one : forall k,
  0 <= k < 2 ^ 1074 -> round_pow2 k 0 = k -> k <= 2 ^ 1074 - 2 ^ 1021.
Proof.
  intros k Hk Hr.
  assert (H73 : 2 ^ 1074 = 2 * 2 ^ 1073)
    by (rewrite <- (Z.pow_succ_r 2 1073) by lia; reflexivity).
  assert (H21 : 2 ^ 1073 = 4503599627370496 * 2 ^ 1021).
  { change 4503599627370496 with (2 ^ 52).
    rewrite <- Z.pow_add_r by lia. reflexivity. }
  assert (HP : 0 < 2 ^ 1021) by (apply Z.pow_pos_nonneg; lia).
  destruct (Z.lt_ge_cases k (2 ^ 1073)) as [Hlo|Hhi]; [lia|].
  assert (Hl : Z.log2 k = 1073).
  { apply Z.log2_unique; [lia|]. change (Z.succ 1073) with 1074. lia. }
  unfold round_pow2 in Hr. rewrite Z.shiftr_0_r, Hl in Hr.
  change (Z.max 0 (1073 - 52)) with 1021 in Hr.
  rewrite Z.shiftl_mul_pow2 in Hr by lia.
  match type of Hr with ?q * _ = _ => set (q' := q) in Hr end.
  rewrite H73, H21 in *.
  set (P := 2 ^ 1021) in *.
  assert (q' < 9007199254740992) by nia.
  nia.
Qed.

Lemma floor_Fin : forall k, floor (Fin k) = Fin (scale (Z.shiftr k 1074)).
Proof. reflexivity. Qed.

(** Five times a binary64 number of [0, 1) is below five after rounding,
    so that [Math.floor(Math.random() * 5) + 1] is one of 1, ..., 5. *)
Lemma random_slot : forall r,
  Binary64.representable r = true ->
  leb (Fin 0) r = true -> ltb r (ofZ 1) = true ->
  exists j, 1 <= j <= 5 /\ add (floor (mul r (ofZ 5))) (ofZ 1) = Fin (scale j).
Proof.
  intros r Hrep Hge Hlt.
  rewrite (ofZ_small 1) in * by lia. rewrite (ofZ_small 5) by lia.
  destruct r as [| | | |k];
    [discriminate Hge|discriminate Hlt|discriminate Hge| |].
  { exists 1. split; [lia|]. vm_compute. reflexivity. }
  rewrite scale_mul in *.
  unfold leb, quanta in Hge. unfold ltb, quanta in Hlt.
  apply Z.leb_le in Hge. apply Z.ltb_lt in Hlt.
  unfold Binary64.representable in Hrep.
  apply andb_prop in Hrep. destruct Hrep as [Hrep _].
  apply Z.eqb_eq in Hrep. rewrite Z.abs_eq in Hrep by lia.
  pose proof (representable_below_one k ltac:(lia) Hrep) as Hk.
  assert (HU : 0 < 2 ^ 1074) by (apply Z.pow_pos_nonneg; lia).
  rewrite mul_Fin by lia.
  replace (k * (5 * 2 ^ 1074)) with (5 * k * 2 ^ 1074) by ring.
  destruct (round_pow2_error (5 * k * 2 ^ 1074) 1074) as [Herr HR];
    [nia|lia|].
  set (R := round_pow2 (5 * k * 2 ^ 1074) 1074) in *.
  assert (Hsh : Z.shiftr (5 * k * 2 ^ 1074) 1074 = 5 * k).
  { rewrite Z.shiftr_div_pow2 by lia. apply Z.div_mul. lia. }
  rewrite Hsh in Herr.
  assert (H77 : 2 ^ 1077 = 8 * 2 ^ 1074).
  { change 8 with (2 ^ 3). rewrite <- Z.pow_add_r by lia. reflexivity. }
  assert (Hl : Z.log2 (5 * k) < 1077).
  { destruct (Z.eq_dec k 0) as [->|Hk0]; [simpl; lia|].
    apply Z.log2_lt_pow2; lia. }
  assert (Hs : 2 ^ Z.max 0 (Z.log2 (5 * k) - 52) <= 2 ^ 1024)
    by (apply Z.pow_le_mono_r; lia).
  rewrite Z.pow_add_r in Herr by lia.
  assert (H24 : 2 ^ 1024 = 8 * 2 ^ 1021).
  { change 8 with (2 ^ 3). rewrite <- Z.pow_add_r by lia. reflexivity. }
  assert (HP : 0 < 2 ^ 1021) by (apply Z.pow_pos_nonneg; lia).
  assert (Hbound : R < 5 * 2 ^ 1074).
  { set (W := 2 ^ Z.max 0 (Z.log2 (5 * k) - 52)) in *.
    assert (2 * Z.abs (R - 5 * k) * 2 ^ 1074 <= 2 ^ 1074 * W) by nia.
    assert (2 * Z.abs (R - 5 * k) <= W) by nia.
    lia. }
  rewrite mkFin_Fin.
  2:{ rewrite overflow_pow.
      assert (2 ^ 1077 <= 2 ^ 2098) by (apply Z.pow_le_mono_r; lia). lia. }
  rewrite floor_Fin. rewrite Z.shiftr_div_pow2 by lia.
  assert (Hj : 0 <= R / 2 ^ 1074 < 5).
  { split; [apply Z.div_pos; lia|apply Z.div_lt_upper_bound; lia]. }
  set (j := R / 2 ^ 1074) in *.
  exists (j + 1). split; [lia|].
  rewrite !scale_mul. unfold add.
  replace (j * 2 ^ 1074 + 1 * 2 ^ 1074 <? 0) with false
    by (symmetry; apply Z.ltb_ge; nia).
  rewrite Z.abs_eq by nia.
  replace (j * 2 ^ 1074 + 1 * 2 ^ 1074) with ((j + 1) * 2 ^ (1074 + 0))
    by (rewrite Z.add_0_r; ring).
  rewrite round_pow2_exact by lia.
  apply mkFin_Fin.
  rewrite overflow_pow.
  assert (2 ^ 1077 <= 2 ^ 2098) by (apply Z.pow_le_mono_r; lia). nia.
Qed.

End RoundFacts.

(* ================================================================== *)
(** ** The two conversions of isNumeric *)

Module NumericFacts.
Import Num Val Utils StrFacts.
Local Open Scope string_scope.
Local Open Scope Z_scope.

Lemma mkFin_not_NaN : forall s m, isNaN (mkFin s m) = false.
Proof.
  intros s m. unfold mkFin.
  destruct (overflow <=? m); [destruct s; reflexivity|].
  destruct (m =? 0); destruct s; reflexivity.
Qed.

Lemma of_decimal_not_NaN : forall s d e, isNaN (of_decimal s d e) = false.
Proof.
  intros s d e. unfold of_decimal, of_ratio.
  destruct (0 <=? e); apply mkFin_not_NaN.
Qed.

Lemma scanUnsigned_not_NaN : forall s str v rest,
  Conv.scanUnsigned s str = Some (v, rest) -> isNaN v = false.
Proof.
  intros s str v rest. unfold Conv.scanUnsigned.
  destruct (String.prefix "Infinity" str).
  { intros H. injection H as <- _. destruct s; reflexivity. }
  destruct (Conv.scanDigits str 0 0) as [[i ni] s1].
  assert (Hplain :
    (if ni =? 0 then None
     else let '(e, rest) := Conv.scanExponent s1 in
          Some (of_decimal s i e, rest)) = Some (v, rest) ->
    isNaN v = false).
  { destruct (ni =? 0); [discriminate|].
    destruct (Conv.scanExponent s1) as [e r].
    intros H. injection H as <- _. apply of_decimal_not_NaN. }
  destruct s1 as [|c s2]; [exact Hplain|].
  destruct (ascii_dec c ".") as [->|Hne].
  - destruct (Conv.scanDigits s2 i 0) as [[m nf] s3].
    destruct ((ni =? 0) && (nf =? 0)); [discriminate|].
    destruct (Conv.scanExponent s3) as [e r].
    intros H. injection H as <- _. apply of_decimal_not_NaN.
  - destruct c as [[] [] [] [] [] [] [] []];
      try exact Hplain; contradiction Hne; reflexivity.
Qed.

Lemma scanDecimal_not_NaN : forall str v rest,
  Conv.scanDecimal str = Some (v, rest) -> isNaN v = false.
Proof.
  intros str v rest. unfold Conv.scanDecimal.
  destruct str as [|c s]; [apply scanUnsigned_not_NaN|].
  destruct (ascii_dec c "+") as [->|Hp]; [apply scanUnsigned_not_NaN|].
  destruct (ascii_dec c "-") as [->|Hm]; [apply scanUnsigned_not_NaN|].
  destruct c as [[] [] [] [] [] [] [] []];
    try apply scanUnsigned_not_NaN;
    exfalso; (apply Hp; reflexivity) || (apply Hm; reflexivity).
Qed.

(** [parseFloat] reads the leading 0 of a numeral in radix 16, 8 or 2. *)
Lemma nonDecimal_parseFloat : forall t v,
  Conv.nonDecimal t = Some v -> isNaN (Conv.parseFloat t) = false.
Proof.
  intros t v H.
  destruct t as [|a t]; [discriminate|].
  assert (Ha : a = "0"%char).
  { destruct a as [[] [] [] [] [] [] [] []]; try discriminate H.
    reflexivity. }
  subst a. destruct t as [|c s]; [discriminate|].
  destruct c as [[] [] [] [] [] [] [] []];
    try discriminate H; reflexivity.
Qed.

(** On a trimmed string that is not empty, a number for [Number] is a
    number for [parseFloat]. *)
Lemma number_parseFloat : forall x,
  Str.trim x <> "" ->
  isNaN (Conv.StringToNumber (Str.trim x)) = false ->
  isNaN (Conv.parseFloat (Str.trim x)) = false.
Proof.
  intros x Hne Hn. unfold Conv.StringToNumber in Hn.
  rewrite trim_idem in Hn. unfold Conv.parseFloat.
  rewrite trimStart_trim.
  destruct (Str.trim x) as [|c t] eqn:Ht; [contradiction|].
  destruct (Conv.nonDecimal (String c t)) as [v|] eqn:Hnd.
  - apply nonDecimal_parseFloat in Hnd. unfold Conv.parseFloat in Hnd.
    rewrite <- Ht, trimStart_trim, Ht in Hnd. exact Hnd.
  - destruct (Conv.scanDecimal (String c t)) as [[v rest]|];
      [|discriminate].
    destruct rest; [exact Hn|discriminate].
Qed.

Lemma StringToNumber_trim : forall s,
  Conv.StringToNumber (Str.trim s) = Conv.StringToNumber s.
Proof. intros s. unfold Conv.StringToNumber. now rewrite trim_idem. Qed.

End NumericFacts.

(* ================================================================== *)
(** ** lib/utils.ts: what isNumeric accepts *)

Module NumericExtra.
Import Num Val Utils StrFacts NumericFacts UtilsFacts.
Local Open Scope string_scope.

(** X1.  What the [parseFloat] test of [isNumeric] adds to the [Number]
    test is the refusal of blank strings, and nothing else: [isNumeric v]
    holds exactly when [v] is neither null nor undefined, the trimmed
    string [String(v).trim()] is not empty and [Number] of it is not
    NaN.  (So "  " is not numeric although [Number("  ")] is 0, and a
    numeral such as "0x1F" is numeric.) *)
Theorem isNumeric_nonblank : forall v,
  isNumeric v = true <->
  v <> VNull /\ v <> VUndefined /\ trimmed v <> ""
  /\ isNaN (Conv.StringToNumber (trimmed v)) = false.
Proof.
  intros v. split.
  - intros H.
    assert (H1 : v <> VNull) by (intros ->; discriminate H).
    assert (H2 : v <> VUndefined) by (intros ->; discriminate H).
    assert (H3 : v <> VStr "") by (intros ->; discriminate H).
    rewrite (isNumeric_unfold v H1 H2 H3) in H.
    apply andb_prop in H. destruct H as [Hn Hp].
    apply negb_true_iff in Hn, Hp.
    repeat split; try assumption.
    intros He. rewrite He in Hp. vm_compute in Hp. discriminate Hp.
  - intros [H1 [H2 [Hne Hn]]].
    assert (H3 : v <> VStr "").
    { intros ->. apply Hne. vm_compute. reflexivity. }
    rewrite (isNumeric_unfold v H1 H2 H3).
    unfold trimmed in *.
    rewrite Hn, (number_parseFloat _ Hne Hn). reflexivity.
Qed.

(** X2.  Whenever [isNumeric v] holds, [Number(v)], the number that the
    reducers of the charts add and that the line chart plots, is not
    NaN; for a string cell it is the number [isNumeric] looked at,
    [Number(String(v).trim())]. *)
Theorem isNumeric_number : forall v,
  isNumeric v = true ->
  isNaN (ToNumber v) = false
  /\ (forall s, v = VStr s -> ToNumber v = Conv.StringToNumber (trimmed v)).
Proof.
  intros v H. split.
  - destruct v as [| |b|n|s].
    + discriminate H.
    + discriminate H.
    + destruct b; vm_compute in H; discriminate H.
    + destruct n; try reflexivity. vm_compute in H. discriminate H.
    + assert (H3 : VStr s <> VStr "") by (intros E; rewrite E in H; discriminate H).
      assert (H1 : VStr s <> VNull) by discriminate.
      assert (H2 : VStr s <> VUndefined) by discriminate.
      rewrite (isNumeric_unfold _ H1 H2 H3) in H.
      apply andb_prop in H. destruct H as [Hn _].
      apply negb_true_iff in Hn. unfold trimmed in Hn.
      cbn [ToString ToNumber] in *.
      rewrite StringToNumber_trim in Hn. exact Hn.
  - intros s ->. unfold trimmed. cbn [ToString ToNumber].
    symmetry. apply StringToNumber_trim.
Qed.

Lemma isNumeric_number_witness :
  isNumeric (VStr " 42 ") = true /\ isNaN (ToNumber (VStr " 42 ")) = false.
Proof.
  split; [vm_compute; reflexivity|].
  apply (isNumeric_number (VStr " 42 ")). vm_compute. reflexivity.
Defined.

End NumericExtra.

(* ================================================================== *)
(** ** The thresholds of the column roles *)

Module RoleExtra.
Import Num Val Utils Arr Roles ListFacts RoundFacts Examples.
Local Open Scope string_scope.
Local Open Scope Z_scope.

Lemma uniq_length : forall l, (List.length (uniq l) <= List.length l)%nat.
Proof.
  induction l as [|a l IH]; simpl; [lia|].
  pose proof (filter_length_le (fun b => negb (sameValueZero a b)) (uniq l)).
  lia.
Qed.

Lemma uniq_nonempty : forall a l, (1 <= List.length (uniq (a :: l)))%nat.
Proof. intros a l. simpl. lia. Qed.

Lemma numeric_test : forall data column,
  Z.of_nat (List.length data) <= Binary64.maxLength ->
  Num.geb
    (Num.div
       (ofNat (List.length
                 (filter (fun row => isNumeric (get row column)) data)))
       (ofNat (List.length data))) lit_0_8
  = negb (Nat.eqb (List.length data) 0)
    && (4 * Z.of_nat (List.length data)
        <=? 5 * Z.of_nat (List.length
                 (filter (fun row => isNumeric (get row column)) data))).
Proof.
  intros data column Hlen. unfold Binary64.maxLength in Hlen.
  destruct data as [|r data]; [exact (proj2 RolesFacts.zero_rows_fraction)|].
  pose proof (filter_length_le (fun row => isNumeric (get row column))
                (r :: data)) as Hc.
  set (c := List.length (filter _ (r :: data))) in *.
  set (n := List.length (r :: data)) in *.
  assert (Hn : (0 < n)%nat) by (unfold n; simpl; lia).
  unfold ofNat. rewrite fraction_geb by lia.
  destruct n; [lia|reflexivity].
Qed.

(** X3.  The 80% rule of the three components is exact in binary64: for
    a dataset that fits in an array, a column is numeric exactly when the
    dataset is not empty and at least four fifths of its rows pass
    [isNumeric] in that column; neither the rounding of the quotient
    [numericCount / data.length] nor that of the literal 0.8 moves the
    threshold. *)
Theorem numeric_threshold : forall data columns column,
  Z.of_nat (List.length data) <= Binary64.maxLength ->
  let numericCount :=
    List.length (filter (fun row => isNumeric (get row column)) data) in
  let numeric :=
    In column columns /\ data <> []
    /\ 4 * Z.of_nat (List.length data) <= 5 * Z.of_nat numericCount in
  (In column (Bar.numericColumns data columns) <-> numeric)
  /\ (In column (Line.numericColumns data columns) <-> numeric)
  /\ (In column (Pie.numericColumns data columns) <-> numeric).
Proof.
  intros data columns column Hlen numericCount numeric.
  assert (H : In column (Roles.numericColumns data columns) <-> numeric).
  { unfold Roles.numericColumns, numeric, numericCount.
    rewrite filter_In, (numeric_test data column Hlen).
    rewrite andb_true_iff, negb_true_iff, Nat.eqb_neq, Z.leb_le.
    rewrite length_zero_iff_nil. tauto. }
  split; [exact H|]. split; exact H.
Qed.

Lemma numeric_threshold_witness :
  Z.of_nat (List.length sample) <= Binary64.maxLength
  /\ (In "amount" (Bar.numericColumns sample ["category"; "amount"]) <->
      In "amount" ["category"; "amount"] /\ sample <> []
      /\ 4 * Z.of_nat (List.length sample)
         <= 5 * Z.of_nat (List.length
                (filter (fun row => isNumeric (get row "amount")) sample))).
Proof.
  assert (H : Z.of_nat (List.length sample) <= Binary64.maxLength)
    by (vm_compute; discriminate).
  split; [exact H|].
  exact (proj1 (numeric_threshold sample ["category"; "amount"] "amount" H)).
Defined.

Lemma existsb_eqb_In : forall (c : string) l,
  existsb (String.eqb c) l = true <-> In c l.
Proof.
  intros c l. rewrite existsb_exists. split.
  - intros [x [Hx He]]. apply String.eqb_eq in He. now subst.
  - intros H. exists c. split; [exact H|apply String.eqb_refl].
Qed.

Lemma counts_bounded : forall data column,
  Z.of_nat (List.length data) <= Binary64.maxLength ->
  0 <= Z.of_nat (List.length (columnSet data column)) < 4294967296
  /\ 0 <= Z.of_nat (List.length data) < 4294967296.
Proof.
  intros data column Hlen. unfold Binary64.maxLength in Hlen.
  pose proof (uniq_length (map (fun row => get row column) data)) as Hu.
  rewrite length_map in Hu. unfold columnSet. lia.
Qed.

(** X4.  The line chart offers a column for the x axis when its name
    suggests a date, or else when it has more than three distinct values
    and at most half as many as there are rows: the product
    [data.length * 0.5] is exact. *)
Theorem sequential_threshold : forall data columns column,
  Z.of_nat (List.length data) <= Binary64.maxLength ->
  (In column (Line.sequentialColumns data columns) <->
   In column columns
   /\ (Line.dateLike column = true
       \/ (3 < Z.of_nat (List.length (columnSet data column))
           /\ 2 * Z.of_nat (List.length (columnSet data column))
              <= Z.of_nat (List.length data)))).
Proof.
  intros data columns column Hlen.
  destruct (counts_bounded data column Hlen) as [Hu Hn].
  unfold Line.sequentialColumns. rewrite filter_In.
  destruct (Line.dateLike column); [tauto|].
  unfold ofNat. rewrite half_leb
    by (change (2 ^ 53) with 9007199254740992; lia).
  destruct (Nat.ltb_spec 3 (List.length (columnSet data column)));
    destruct (Z.leb_spec (2 * Z.of_nat (List.length (columnSet data column)))
                (Z.of_nat (List.length data)));
    cbn [andb]; split; intros [Hc H']; split; try exact Hc;
    try discriminate; try (right; lia); try reflexivity;
    destruct H' as [H'|H']; try discriminate; lia.
Qed.

Lemma sequential_threshold_witness :
  Z.of_nat (List.length sample) <= Binary64.maxLength
  /\ ~ In "amount" (Line.sequentialColumns sample ["category"; "amount"]).
Proof.
  assert (H : Z.of_nat (List.length sample) <= Binary64.maxLength)
    by (vm_compute; discriminate).
  split; [exact H|].
  intros Hin.
  apply (proj1 (sequential_threshold sample ["category"; "amount"] "amount" H))
    in Hin.
  destruct Hin as [_ [Hd|[Hu _]]].
  - vm_compute in Hd. discriminate Hd.
  - vm_compute in Hu. discriminate Hu.
Defined.

(** X5.  The bar chart offers a column as a category when it is not
    numeric, or when five times the number of its distinct values is
    below the number of rows: the test [uniqueValues < data.length * 0.2]
    is exact, although 0.2 is not a binary64 number and the product is
    rounded. *)
Theorem bar_categorical_threshold : forall data columns column,
  Z.of_nat (List.length data) <= Binary64.maxLength ->
  (In column (Bar.categoricalColumns data columns) <->
   In column columns
   /\ (~ In column (Bar.numericColumns data columns)
       \/ 5 * Z.of_nat (List.length (columnSet data column))
          < Z.of_nat (List.length data))).
Proof.
  intros data columns column Hlen.
  destruct (counts_bounded data column Hlen) as [Hu Hn].
  unfold Bar.categoricalColumns. rewrite filter_In.
  unfold ofNat. rewrite fifth_ltb by lia.
  rewrite orb_true_iff, negb_true_iff, Z.ltb_lt.
  rewrite <- not_true_iff_false, existsb_eqb_In. tauto.
Qed.

Lemma bar_categorical_threshold_witness :
  Z.of_nat (List.length sample) <= Binary64.maxLength
  /\ In "category" (Bar.categoricalColumns sample ["category"; "amount"]).
Proof.
  assert (H : Z.of_nat (List.length sample) <= Binary64.maxLength)
    by (vm_compute; discriminate).
  split; [exact H|].
  apply (proj2 (bar_categorical_threshold sample ["category"; "amount"]
                  "category" H)).
  split; [left; reflexivity|]. left.
  intros Hin. vm_compute in Hin. destruct Hin as [E|[]]. discriminate E.
Defined.

Lemma pie_categorical_test : forall data column,
  Z.of_nat (List.length data) <= Binary64.maxLength ->
  Num.ltb (ofNat (List.length (columnSet data column)))
    (Num.min (Num.mul (ofNat (List.length data)) lit_0_2) (Num.ofZ 10))
  = (5 * Z.of_nat (List.length (columnSet data column))
       <? Z.of_nat (List.length data))
    && (Z.of_nat (List.length (columnSet data column)) <? 10).
Proof.
  intros data column Hlen.
  destruct (counts_bounded data column Hlen) as [Hu Hn].
  unfold ofNat. apply fifth_min_ltb; lia.
Qed.

(** X6.  The pie chart offers a column as a label column exactly when
    five times the number of its distinct values is below the number of
    rows and there are fewer than ten of them: the test
    [uniqueValues < Math.min(data.length * 0.2, 10)] is exact. *)
Theorem pie_categorical_threshold : forall data columns column,
  Z.of_nat (List.length data) <= Binary64.maxLength ->
  (In column (Pie.categoricalColumns data columns) <->
   In column columns
   /\ 5 * Z.of_nat (List.length (columnSet data column))
      < Z.of_nat (List.length data)
   /\ Z.of_nat (List.length (columnSet data column)) < 10).
Proof.
  intros data columns column Hlen.
  unfold Pie.categoricalColumns. rewrite filter_In.
  rewrite (pie_categorical_test data column Hlen).
  rewrite andb_true_iff, !Z.ltb_lt. tauto.
Qed.

Lemma pie_categorical_threshold_witness :
  Z.of_nat (List.length sample) <= Binary64.maxLength
  /\ ~ In "category" (Pie.categoricalColumns sample ["category"; "amount"]).
Proof.
  assert (H : Z.of_nat (List.length sample) <= Binary64.maxLength)
    by (vm_compute; discriminate).
  split; [exact H|].
  intros Hin.
  apply (proj1 (pie_categorical_threshold sample ["category"; "amount"]
                  "category" H)) in Hin.
  destruct Hin as [_ [Hu _]]. vm_compute in Hu. discriminate Hu.
Defined.

(** X7.  On a dataset of at most five rows the pie chart finds no label
    column of its own, since a column has at least one value as soon as
    there is a row: the label selection starts on the first column. *)
Theorem pie_small_dataset : forall data columns,
  (List.length data <= 5)%nat ->
  Pie.categoricalColumns data columns = []
  /\ Pie.labelColumn (Pie.initialState data columns) = nth_error columns 0.
Proof.
  intros data columns Hlen.
  assert (Hc : Pie.categoricalColumns data columns = []).
  { unfold Pie.categoricalColumns. apply filter_none. intros column.
    rewrite pie_categorical_test by (unfold Binary64.maxLength; lia).
    apply andb_false_iff. left. apply Z.ltb_ge.
    destruct data as [|r data]; [simpl; lia|].
    pose proof (uniq_nonempty (get r column)
                  (map (fun row => get row column) data)) as Hu.
    unfold columnSet. cbn [map]. lia. }
  split; [exact Hc|].
  unfold Pie.initialState. cbn [Pie.labelColumn]. rewrite Hc.
  cbn [nth_error first_or]. reflexivity.
Qed.

Lemma pie_small_dataset_witness :
  (List.length sample <= 5)%nat
  /\ Pie.labelColumn (Pie.initialState sample ["category"; "amount"])
     = Some "category".
Proof.
  split; [simpl; lia|].
  apply (pie_small_dataset sample ["category"; "amount"]). simpl. lia.
Defined.

End RoleExtra.

(* ================================================================== *)
(** ** Lists of groups *)

Module SeriesFacts.
Import Val Arr Obj ListFacts ObjFacts.
Local Open Scope string_scope.

Lemma In_mapi : forall {A B : Type} (f : A -> nat -> B) l i b,
  In b (mapi f i l) -> exists a k, In a l /\ b = f a k.
Proof.
  intros A B f l. induction l as [|a l IH]; intros i b H; simpl in H.
  - contradiction.
  - destruct H as [<-|H].
    + exists a, i. simpl. auto.
    + destruct (IH _ _ H) as [a' [k [Ha Hb]]]. exists a', k. simpl. auto.
Qed.

Lemma filter_none_In : forall {A : Type} (p : A -> bool) l,
  (forall a, In a l -> p a = false) -> filter p l = [].
Proof.
  intros A p l. induction l as [|a l IH]; intros H; simpl; [reflexivity|].
  rewrite (H a) by (simpl; auto). apply IH. intros b Hb. apply H. simpl. auto.
Qed.

Lemma filter_nil_In : forall {A : Type} (p : A -> bool) l,
  filter p l = [] -> forall a, In a l -> p a = false.
Proof.
  intros A p l. induction l as [|a l IH]; intros H b Hb; simpl in *.
  - contradiction.
  - destruct (p a) eqn:Ha; [discriminate H|].
    destruct Hb as [<-|Hb]; [exact Ha|apply IH; assumption].
Qed.




End SeriesFacts.

(* ================================================================== *)
(** ** bar-chart-view: fills, outcomes and missing keys *)

Module BarExtra.
Import Num Val Utils Arr Roles Item ListFacts ObjFacts ItemFacts GroupFacts.
Import BarFacts RoundFacts SeriesFacts Examples.
Local Open Scope string_scope.

Lemma fill_slot : forall r,
  Binary64.representable r = true ->
  Num.leb (Fin 0) r = true -> Num.ltb r (Num.ofZ 1) = true ->
  exists j, In j ["1"; "2"; "3"; "4"; "5"]
    /\ Bar.fill r = "hsl(var(--chart-" ++ j ++ "))".
Proof.
  intros r H1 H2 H3.
  destruct (random_slot r H1 H2 H3) as [j [Hj E]].
  unfold Bar.fill. rewrite E.
  assert (Hc : (j = 1 \/ j = 2 \/ j = 3 \/ j = 4 \/ j = 5)%Z) by lia.
  destruct Hc as [->|[->|[->|[->| ->]]]].
  - exists "1". split; [simpl; tauto|vm_compute; reflexivity].
  - exists "2". split; [simpl; tauto|vm_compute; reflexivity].
  - exists "3". split; [simpl; tauto|vm_compute; reflexivity].
  - exists "4". split; [simpl; tauto|vm_compute; reflexivity].
  - exists "5". split; [simpl; tauto|vm_compute; reflexivity].
Qed.

(** X8.  [Math.random] returns a binary64 number of [0, 1); whatever it
    returns, the fill of every bar is one of the five palette variables
    [--chart-1], ..., [--chart-5]: the product by 5 never rounds up to
    5. *)
Theorem bar_fill_palette : forall data st random,
  (forall i, Binary64.representable (random i) = true
             /\ Num.leb (Fin 0) (random i) = true
             /\ Num.ltb (random i) (Num.ofZ 1) = true) ->
  forall it, In it (Bar.chartData data st random) ->
  exists j, In j ["1"; "2"; "3"; "4"; "5"]
    /\ read it "fill" = VStr ("hsl(var(--chart-" ++ j ++ "))").
Proof.
  intros data st random Hr it Hin.
  unfold Bar.chartData, slice0 in Hin. apply In_firstn in Hin.
  apply In_mapi in Hin. destruct Hin as [g [i [_ ->]]].
  destruct (Hr i) as [H1 [H2 H3]].
  destruct (fill_slot (random i) H1 H2 H3) as [j [Hj E]].
  exists j. split; [exact Hj|].
  rewrite read_set_same, E. reflexivity.
Qed.

Lemma bar_fill_palette_witness :
  (forall i : nat, Binary64.representable half = true
                   /\ Num.leb (Fin 0) half = true
                   /\ Num.ltb half (Num.ofZ 1) = true)
  /\ forall it, In it (Bar.chartData sample barOnCategory (fun _ => half)) ->
       exists j, In j ["1"; "2"; "3"; "4"; "5"]
         /\ read it "fill" = VStr ("hsl(var(--chart-" ++ j ++ "))").
Proof.
  assert (H : forall i : nat, Binary64.representable half = true
                              /\ Num.leb (Fin 0) half = true
                              /\ Num.ltb half (Num.ofZ 1) = true).
  { intros _. split; [vm_compute; reflexivity|].
    split; vm_compute; reflexivity. }
  split; [exact H|].
  exact (bar_fill_palette sample barOnCategory (fun _ => half) H).
Defined.

Section Chart.
Variable data : list row.
Variable st : Bar.state.

Local Abbreviation x := (propKey (Bar.xAxis st)).
Local Abbreviation y := (propKey (Bar.yAxis st)).



End Chart.





End BarExtra.

(* ================================================================== *)
(** ** Colour configurations *)

Module ConfigFacts.
Import Val Arr Obj ListFacts ObjFacts.
Local Open Scope string_scope.

Lemma NoDup_map_filter : forall {A B : Type} (f : A -> B) p l,
  NoDup (map f l) -> NoDup (map f (filter p l)).
Proof.
  intros A B f p l. induction l as [|a l IH]; intros H; simpl; [constructor|].
  inversion H as [|? ? Hni Hnd]; subst.
  destruct (p a); [|apply IH, Hnd].
  simpl. constructor; [|apply IH, Hnd].
  intros Hin. apply Hni. apply (proj1 (in_map_iff _ _ _)) in Hin.
  destruct Hin as [b [Hb Hin]]. apply (proj1 (filter_In _ _ _)) in Hin.
  rewrite <- Hb. apply in_map. tauto.
Qed.

Lemma NoDup_firstn : forall {A : Type} n (l : list A),
  NoDup l -> NoDup (firstn n l).
Proof.
  intros A n. induction n as [|n IH]; intros l H; [constructor|].
  destruct l as [|a l]; [constructor|].
  inversion H as [|? ? Hni Hnd]; subst. simpl. constructor.
  - intros Hin. apply Hni. apply In_firstn in Hin. exact Hin.
  - apply IH, Hnd.
Qed.

Section Assign.
Context {A : Type}.

(** [config[k] = v] for each pair in turn. *)
Local Abbreviation assign :=
  (fun (config : Obj.t A) (e : string * A) => set config (fst e) (snd e)).

Lemma fold_set_other : forall (l : list (string * A)) acc k,
  ~ In k (map fst l) -> getOwn (fold_left assign l acc) k = getOwn acc k.
Proof.
  induction l as [|[k' v'] l IH]; intros acc k H; simpl; [reflexivity|].
  rewrite IH by (intros Hin; apply H; simpl; auto).
  apply getOwn_set_other. intros E. apply H. simpl. auto.
Qed.

Lemma fold_set_In : forall (l : list (string * A)) acc k v,
  NoDup (map fst l) -> In (k, v) l ->
  getOwn (fold_left assign l acc) k = Some v.
Proof.
  induction l as [|[k' v'] l IH]; intros acc k v Hnd Hin; simpl in *.
  - contradiction.
  - inversion Hnd as [|? ? Hni Hnd']; subst.
    destruct Hin as [E|Hin].
    + injection E as -> ->. rewrite fold_set_other by exact Hni.
      apply getOwn_set_same.
    + apply IH; assumption.
Qed.

End Assign.

Lemma firstn_nil_inv : forall {A : Type} n (l : list A),
  firstn (S n) l = [] -> l = [].
Proof. intros A n [|a l] H; [reflexivity|discriminate H]. Qed.

Lemma isort_nil_inv : forall {A : Type} (after : A -> A -> bool) l,
  isort after l = [] -> l = [].
Proof.
  intros A after l H. apply length_zero_iff_nil.
  rewrite <- (ArrFacts.isort_length after l), H. reflexivity.
Qed.

Lemma firstn_all_le : forall {A : Type} n (l : list A),
  (List.length l <= n)%nat -> firstn n l = l.
Proof. intros A n l H. apply firstn_all2. exact H. Qed.

End ConfigFacts.

(* ================================================================== *)
(** ** pie-chart-view: legend, outcomes and state selection *)

Module PieExtra.
Import Num Val Utils Arr Roles ListFacts ObjFacts GroupFacts PieFacts.
Import ConfigFacts SeriesFacts ConvFacts Examples.
Local Open Scope string_scope.

Section Chart.
Variable data : list row.
Variable st : Pie.state.

Local Abbreviation positive :=
  (fun it : Pie.item => Num.gtb (Pie.value it) (Fin 0)).

(** The groups, in the order [Object.values] lists them. *)
Lemma pie_values : exists g : string -> Pie.item,
  Obj.values (Pie.groupedData data st)
  = map g (Obj.keyOrder (Pie.groupKeys data st))
  /\ forall l, Pie.name (g l) = l
               /\ Pie.value (g l) = Pie.groupSum data st l.
Proof.
  eexists. split.
  - unfold Obj.values. rewrite pie_grouped, entries_of_keys, map_map.
    cbn [snd]. reflexivity.
  - intros l. cbv beta. apply pie_total.
Qed.

Lemma pie_names_NoDup :
  NoDup (map Pie.name (Obj.values (Pie.groupedData data st))).
Proof.
  destruct pie_values as [g [-> Hg]]. rewrite map_map.
  rewrite (map_ext _ (fun l => l)) by (intros l; apply Hg).
  rewrite map_id.
  apply (Permutation_NoDup (Permutation_sym (keyOrder_perm _))).
  apply uniqStr_NoDup.
Qed.

Lemma pie_chart_names_NoDup : NoDup (map Pie.name (Pie.chartData data st)).
Proof.
  unfold Pie.chartData, slice0, sort.
  rewrite <- firstn_map. apply NoDup_firstn.
  eapply Permutation_NoDup.
  - apply Permutation_map, Permutation_sym, ArrFacts.isort_perm.
  - apply NoDup_map_filter, pie_names_NoDup.
Qed.

Lemma pie_empty :
  Pie.chartData data st = [] <->
  forall l, In l (Pie.groupKeys data st) ->
    Num.gtb (Pie.groupSum data st l) (Fin 0) = false.
Proof.
  unfold Pie.chartData, slice0, sort.
  destruct pie_values as [g [-> Hg]]. split.
  - intros H l Hl. apply firstn_nil_inv, isort_nil_inv in H.
    pose proof (filter_nil_In _ _ H (g l)) as Hf.
    rewrite <- (proj2 (Hg l)). apply Hf. apply in_map.
    apply (Permutation_in _ (Permutation_sym (keyOrder_perm _))), Hl.
  - intros H. rewrite filter_none_In; [reflexivity|].
    intros it Hit. apply (proj1 (in_map_iff _ _ _)) in Hit.
    destruct Hit as [l [<- Hl]]. rewrite (proj2 (Hg l)). apply H.
    apply (Permutation_in _ (keyOrder_perm _)), Hl.
Qed.

End Chart.

(** X11.  No two slices of the pie have the same name, so that the
    colour configuration has one entry for each slice: the entry of the
    slice at index [i] holds its name and the palette colour
    [COLORS[i % 8]], the very colour its cell is filled with. *)
Theorem pie_legend : forall data st,
  NoDup (map Pie.name (Pie.chartData data st))
  /\ forall i it, nth_error (Pie.chartData data st) i = Some it ->
       Obj.getOwn (Pie.chartConfig data st) (Pie.name it)
       = Some (Pie.name it, Pie.color i)
       /\ nth_error (Pie.cells data st) i = Some (it, Pie.color i).
Proof.
  intros data st. split; [apply pie_chart_names_NoDup|].
  intros i it Hi. split.
  - unfold Pie.chartConfig. apply fold_set_In.
    + rewrite ArrFacts.mapi_map. cbn [fst]. rewrite ArrFacts.mapi_const.
      apply pie_chart_names_NoDup.
    + apply nth_error_In with (n := i).
      rewrite ArrFacts.mapi_nth_error, Hi. reflexivity.
  - unfold Pie.cells. rewrite ArrFacts.mapi_nth_error, Hi. reflexivity.
Qed.

(** X12.  With two columns or more, the pie chart shows the "No valid
    data" card exactly when no group has a sum above zero (an empty
    dataset, a value column with no numeric cell, sums that are
    negative, zero or NaN), and draws its slices otherwise. *)
Theorem pie_outcome : forall data columns st,
  (2 <= List.length columns)%nat ->
  (Pie.PieChartView data columns st = NoValidData noData <->
   forall l, In l (Pie.groupKeys data st) ->
     Num.gtb (Pie.groupSum data st l) (Fin 0) = false)
  /\ ((exists l, In l (Pie.groupKeys data st)
         /\ Num.gtb (Pie.groupSum data st l) (Fin 0) = true) ->
      Pie.PieChartView data columns st = Chart (Pie.cells data st)).
Proof.
  intros data columns st Hc. unfold Pie.PieChartView.
  replace (List.length columns <? 2)%nat with false
    by (symmetry; apply Nat.ltb_ge; exact Hc).
  rewrite <- pie_empty.
  destruct (Pie.chartData data st) as [|it its] eqn:Hd.
  - split; [split; reflexivity|].
    intros [l [Hl Hp]].
    rewrite (proj1 (pie_empty data st) Hd l Hl) in Hp. discriminate Hp.
  - split; [split; discriminate|]. intros _. reflexivity.
Qed.

Lemma pie_outcome_witness :
  (2 <= List.length ["category"; "amount"])%nat
  /\ Pie.PieChartView [] ["category"; "amount"] pieOnCategory
     = NoValidData noData.
Proof.
  assert (H : (2 <= List.length ["category"; "amount"])%nat) by (simpl; lia).
  split; [exact H|].
  apply (proj1 (pie_outcome [] ["category"; "amount"] pieOnCategory H)).
  intros l [].
Defined.

Lemma filter_length_perm : forall {A : Type} (p : A -> bool) l l',
  Permutation l l' ->
  List.length (filter p l) = List.length (filter p l').
Proof.
  intros A p l l' H. induction H as [|a l l' H IH|a b l|l l' l'' H1 IH1 H2 IH2];
    simpl.
  - reflexivity.
  - destruct (p a); simpl; congruence.
  - destruct (p a), (p b); reflexivity.
  - congruence.
Qed.

Lemma filter_map_length : forall {A B : Type} (g : A -> B) (p : B -> bool) l,
  List.length (filter p (map g l))
  = List.length (filter (fun a => p (g a)) l).
Proof.
  intros A B g p l. induction l as [|a l IH]; simpl; [reflexivity|].
  destruct (p (g a)); simpl; congruence.
Qed.

(** X13.  No group of positive sum is lost unless there are more than
    twelve of them: every label with a sum above zero is then the name
    of a slice, which holds that sum. *)
Theorem pie_complete : forall data st l,
  (List.length
     (filter (fun k => Num.gtb (Pie.groupSum data st k) (Fin 0))
        (Pie.groupKeys data st)) <= 12)%nat ->
  In l (Pie.groupKeys data st) ->
  Num.gtb (Pie.groupSum data st l) (Fin 0) = true ->
  exists it, In it (Pie.chartData data st)
    /\ Pie.name it = l /\ Pie.value it = Pie.groupSum data st l.
Proof.
  intros data st l Hlen Hl Hp.
  destruct (pie_values data st) as [g [Hv Hg]].
  unfold Pie.chartData, slice0, sort.
  rewrite firstn_all_le.
  - exists (g l). split; [|apply Hg].
    apply (proj2 (ArrFacts.isort_In _ _ _)).
    apply filter_In. split.
    + rewrite Hv. apply in_map.
      apply (Permutation_in _ (Permutation_sym (keyOrder_perm _))), Hl.
    + rewrite (proj2 (Hg l)). exact Hp.
  - rewrite ArrFacts.isort_length, Hv, filter_map_length.
    rewrite (filter_length_perm _ _ _ (keyOrder_perm _)).
    rewrite (filter_ext_In' _
               (fun k => Num.gtb (Pie.groupSum data st k) (Fin 0))).
    + exact Hlen.
    + intros k _. rewrite (proj2 (Hg k)). reflexivity.
Qed.

Lemma pie_complete_witness :
  exists it, In it (Pie.chartData sample pieOnCategory)
    /\ Pie.name it = "A"
    /\ Pie.value it = Pie.groupSum sample pieOnCategory "A".
Proof.
  apply (pie_complete sample pieOnCategory "A").
  - vm_compute. lia.
  - vm_compute. auto.
  - vm_compute. reflexivity.
Defined.

Lemma pie_options_In : forall data st s,
  Pie.nonEmpty (Pie.stateColumn st) = true ->
  (In s (Pie.stateOptions data st) <->
   exists row, In row data /\ labelOf (Pie.stateColumn st) row = s).
Proof.
  intros data st s Hg. unfold Pie.stateOptions, sortStrings.
  rewrite Hg. cbn [negb].
  rewrite ArrFacts.isort_In, uniqStr_In, in_map_iff.
  split; intros [row [H1 H2]]; exists row; auto.
Qed.

Lemma pie_slice_row : forall data st it,
  In it (Pie.chartData data st) ->
  exists row, In row (Pie.filteredData data st)
    /\ Pie.name it = labelOf (Pie.actualLabelColumn st) row.
Proof.
  intros data st it Hin.
  destruct (pie_positive data st it Hin) as [_ Hv].
  destruct (pie_groups data st it Hv) as [Hk _].
  unfold Pie.groupKeys, Group.groupKeys in Hk.
  apply (proj1 (uniqStr_In _ _)) in Hk.
  apply (proj1 (filter_In _ _ _)) in Hk. destruct Hk as [Hk _].
  apply (proj1 (in_map_iff _ _ _)) in Hk.
  destruct Hk as [row [E Hrow]]. exists row. auto.
Qed.

Lemma Unknown_literal : forall v, ToString v = "Unknown" -> v = VStr "Unknown".
Proof.
  intros v H. apply ToString_literal; try discriminate; try exact H.
  reflexivity.
Qed.

(** X14.  While a state is selected (and the slices are not grouped by
    state), every slice is made of rows whose state cell reads as the
    selected state.  The option "Unknown", which the selector offers as
    soon as a state cell is blank, selects only the rows that hold the
    string "Unknown": when there is none the chart is empty. *)
Theorem pie_filter_mode : forall data columns st,
  Pie.nonEmpty (Pie.stateColumn st) = true ->
  Pie.groupByState st = false ->
  Pie.nonEmpty (Pie.selectedState st) = true ->
  (forall it, In it (Pie.chartData data st) ->
     exists row, In row data
       /\ ToString (get row (Pie.stateColumn st)) = Pie.selectedState st
       /\ Pie.name it = labelOf (propKey (Pie.labelColumn st)) row)
  /\ (Pie.selectedState st = "Unknown" ->
      (forall row, In row data ->
         get row (Pie.stateColumn st) <> VStr "Unknown") ->
      Pie.chartData data st = []
      /\ ((2 <= List.length columns)%nat ->
          Pie.PieChartView data columns st = NoValidData noData)).
Proof.
  intros data columns st Hg Hb Hs.
  assert (Hf : Pie.filteredData data st
               = filter (fun row =>
                           String.eqb (ToString (get row (Pie.stateColumn st)))
                             (Pie.selectedState st)) data).
  { unfold Pie.filteredData. rewrite Hg, Hb, Hs. reflexivity. }
  assert (Ha : Pie.actualLabelColumn st = propKey (Pie.labelColumn st)).
  { unfold Pie.actualLabelColumn. rewrite Hb. reflexivity. }
  split.
  - intros it Hin. destruct (pie_slice_row data st it Hin) as [row [Hrow E]].
    rewrite Hf in Hrow. apply (proj1 (filter_In _ _ _)) in Hrow.
    destruct Hrow as [Hrow Hq]. apply String.eqb_eq in Hq.
    exists row. rewrite <- Ha. auto.
  - intros Hu Hlit.
    assert (Hnil : Pie.filteredData data st = []).
    { rewrite Hf. apply filter_none_In. intros row Hrow.
      apply String.eqb_neq. rewrite Hu. intros E.
      apply (Hlit row Hrow). apply Unknown_literal, E. }
    assert (Hd : Pie.chartData data st = []).
    { unfold Pie.chartData, Pie.groupedData. rewrite Hnil. reflexivity. }
    split; [exact Hd|].
    intros Hc. unfold Pie.PieChartView.
    replace (List.length columns <? 2)%nat with false
      by (symmetry; apply Nat.ltb_ge; exact Hc).
    rewrite Hd. reflexivity.
Qed.

Lemma pie_filter_mode_witness :
  Pie.chartData blanks
    {| Pie.labelColumn := Some "n"; Pie.valueColumn := Some "v";
       Pie.stateColumn := "region"; Pie.selectedState := "Unknown";
       Pie.groupByState := false |} = [].
Proof.
  apply (pie_filter_mode blanks ["n"; "v"; "region"]
           {| Pie.labelColumn := Some "n"; Pie.valueColumn := Some "v";
              Pie.stateColumn := "region"; Pie.selectedState := "Unknown";
              Pie.groupByState := false |});
    try reflexivity.
  intros row [<-|[<-|[]]]; cbn; discriminate.
Defined.

(** X15.  When the slices are grouped by state, the selected state is
    ignored, every row counts, and every slice is named after one of the
    options of the state selector. *)
Theorem pie_group_by_state : forall data st,
  Pie.groupByState st = true ->
  Pie.nonEmpty (Pie.stateColumn st) = true ->
  Pie.filteredData data st = data
  /\ forall it, In it (Pie.chartData data st) ->
       In (Pie.name it) (Pie.stateOptions data st).
Proof.
  intros data st Hb Hg.
  assert (Hf : Pie.filteredData data st = data).
  { unfold Pie.filteredData. rewrite Hb, andb_false_r. reflexivity. }
  split; [exact Hf|].
  intros it Hin. destruct (pie_slice_row data st it Hin) as [row [Hrow E]].
  rewrite Hf in Hrow.
  apply (proj2 (pie_options_In data st _ Hg)). exists row.
  split; [exact Hrow|]. rewrite E. unfold Pie.actualLabelColumn.
  rewrite Hb, Hg. reflexivity.
Qed.

Lemma pie_group_by_state_witness :
  Pie.filteredData blanks
    {| Pie.labelColumn := Some "n"; Pie.valueColumn := Some "v";
       Pie.stateColumn := "region"; Pie.selectedState := "CA";
       Pie.groupByState := true |} = blanks.
Proof.
  apply (pie_group_by_state blanks
           {| Pie.labelColumn := Some "n"; Pie.valueColumn := Some "v";
              Pie.stateColumn := "region"; Pie.selectedState := "CA";
              Pie.groupByState := true |}); reflexivity.
Defined.

End PieExtra.

(* ================================================================== *)
(** ** Sorted options *)

Module OptionFacts.
Import Val Arr ListFacts StrFacts.
Local Open Scope string_scope.

Lemma StronglySorted_NoDup :
  forall {A : Type} (R : A -> A -> Prop) l,
  StronglySorted R l -> NoDup l ->
  StronglySorted (fun a b => R a b /\ a <> b) l.
Proof.
  intros A R l Hs. induction Hs as [|a l Hs IH Hall]; intros Hnd.
  - constructor.
  - inversion Hnd as [|? ? Hni Hnd']; subst. constructor; [apply IH, Hnd'|].
    rewrite Forall_forall in *. intros b Hb. split; [apply Hall, Hb|].
    intros ->. contradiction.
Qed.

(** [l.sort()] on strings without duplicates: strictly ascending. *)
Lemma sortStrings_sorted : forall l,
  NoDup l -> StronglySorted (fun a b => Str.ltb a b = true) (sortStrings l).
Proof.
  intros l Hnd. unfold sortStrings.
  set (after := fun a b : string => Str.ltb b a).
  assert (Hs : StronglySorted (ord after) (isort after l)).
  { apply ArrFacts.isort_sorted with (P := fun _ => True).
    - intros a b _ _ H. unfold after in *. apply str_ltb_asym, H.
    - intros a b c _ _ _ H1 H2. unfold after in *.
      apply (not_after_trans a b c); assumption.
    - apply Forall_forall. auto. }
  assert (Hn : NoDup (isort after l)).
  { apply (Permutation_NoDup (Permutation_sym (ArrFacts.isort_perm after l))).
    exact Hnd. }
  pose proof (StronglySorted_NoDup _ _ Hs Hn) as H.
  eapply StronglySorted_weaken with (P := fun _ => True); [| |exact H].
  - apply Forall_forall. auto.
  - intros a b _ _ [Hab Hne]. unfold ord, after in Hab.
    apply not_after_neq; assumption.
Qed.

Lemma In_mapi_intro : forall {A B : Type} (f : A -> nat -> B) l i a,
  In a l -> exists k, In (f a k) (mapi f i l).
Proof.
  intros A B f l. induction l as [|b l IH]; intros i a H; simpl in *.
  - contradiction.
  - destruct H as [<-|H].
    + exists i. auto.
    + destruct (IH (S i) a H) as [k Hk]. exists k. auto.
Qed.

Lemma filter_perm_In : forall {A : Type} (p : A -> bool) l l' a,
  Permutation l l' -> In a (filter p l) -> In a (filter p l').
Proof.
  intros A p l l' a H Hin. apply filter_In.
  apply (proj1 (filter_In _ _ _)) in Hin. destruct Hin as [Hin Hp].
  split; [apply (Permutation_in _ H), Hin|exact Hp].
Qed.

End OptionFacts.

(* ================================================================== *)
(** ** line-chart-view: options, lines and outcomes *)

Module LineExtra.
Import Num Val Utils Arr Roles Item ListFacts ObjFacts ItemFacts LineFacts.
Import SeriesFacts ConfigFacts OptionFacts PieExtra Examples.
Local Open Scope string_scope.

(** X16.  The options of the state selector, in the line chart and in
    the pie chart alike, are the labels of the rows ("Unknown" for a
    blank cell), each once, in strictly ascending order of code units;
    there is none while no state column is selected. *)
Theorem state_options : forall data lst pst,
  (Line.nonEmpty (Line.stateColumn lst) = true ->
   StronglySorted (fun a b => Str.ltb a b = true) (Line.stateOptions data lst)
   /\ forall s, In s (Line.stateOptions data lst) <->
        exists row, In row data /\ labelOf (Line.stateColumn lst) row = s)
  /\ (Pie.nonEmpty (Pie.stateColumn pst) = true ->
      StronglySorted (fun a b => Str.ltb a b = true)
        (Pie.stateOptions data pst)
      /\ forall s, In s (Pie.stateOptions data pst) <->
           exists row, In row data /\ labelOf (Pie.stateColumn pst) row = s)
  /\ (Line.nonEmpty (Line.stateColumn lst) = false ->
      Line.stateOptions data lst = [])
  /\ (Pie.nonEmpty (Pie.stateColumn pst) = false ->
      Pie.stateOptions data pst = []).
Proof.
  intros data lst pst. split; [|split; [|split]].
  - intros Hg. split; [|intros s; apply options_In, Hg].
    unfold Line.stateOptions. rewrite Hg. cbn [negb].
    apply sortStrings_sorted, uniqStr_NoDup.
  - intros Hg. split; [|intros s; apply pie_options_In, Hg].
    unfold Pie.stateOptions. rewrite Hg. cbn [negb].
    apply sortStrings_sorted, uniqStr_NoDup.
  - intros Hg. unfold Line.stateOptions. rewrite Hg. reflexivity.
  - intros Hg. unfold Pie.stateOptions. rewrite Hg. reflexivity.
Qed.

Section Chart.
Variable Date_parse : string -> number.
Variable data : list row.
Variable st : Line.state.

Local Abbreviation g := (Line.stateColumn st).

Lemma subSeries_In : forall state it,
  In it (Line.subSeries Date_parse data st state) <->
  In it (Line.chartData Date_parse data st)
  /\ ToString (read it g) = state.
Proof.
  intros state it. unfold Line.subSeries.
  rewrite filter_In, String.eqb_eq. reflexivity.
Qed.

Lemma truthy_option : forall it,
  Line.nonEmpty g = true ->
  In it (Line.chartData Date_parse data st) ->
  ToBoolean (read it g) = true ->
  In (ToString (read it g)) (Line.stateOptions data st).
Proof.
  intros it Hg Hin Ht.
  destruct (chartData_In Date_parse data st it Hin) as [row [Hrow [_ ->]]].
  rewrite point_group in * by exact Hg.
  apply (proj2 (options_In data st _ Hg)). exists row.
  split; [exact Hrow|]. unfold labelOf, or_else. rewrite Ht. reflexivity.
Qed.

Lemma stateFilter_perm_In : forall rows rows' row,
  Permutation rows rows' ->
  In row (Line.stateFilter st rows) -> In row (Line.stateFilter st rows').
Proof.
  intros rows rows' row H. unfold Line.stateFilter.
  destruct (Line.nonEmpty g && negb (Line.showAllStates st)
            && Line.nonEmpty (Line.selectedState st)).
  - apply filter_perm_In, H.
  - apply Permutation_in, H.
Qed.

Lemma line_empty :
  Line.chartData Date_parse data st = [] <->
  forall row, In row (Line.stateFilter st data) -> Line.hasX st row = false.
Proof.
  unfold Line.chartData, slice0. split.
  - intros H row Hrow. apply firstn_nil_inv in H.
    apply map_eq_nil in H.
    apply (filter_nil_In _ _ H).
    apply (stateFilter_perm_In data); [|exact Hrow].
    apply Permutation_sym, sortedData_perm.
  - intros H. rewrite filter_none_In; [reflexivity|].
    intros row Hrow. apply H.
    apply (stateFilter_perm_In _ _ _ (sortedData_perm Date_parse data st)).
    exact Hrow.
Qed.

End Chart.

(** X17.  In the show-all mode every point whose state cell is truthy is
    drawn by exactly one line: the line named after the string of that
    cell, which is one of the options. *)
Theorem line_groups_partition : forall Date_parse data st it,
  Line.nonEmpty (Line.stateColumn st) = true ->
  Line.showAllStates st = true ->
  In it (Line.chartData Date_parse data st) ->
  ToBoolean (read it (Line.stateColumn st)) = true ->
  (exists ln, In ln (Line.lines Date_parse data st)
     /\ Line.lineName ln = Some (ToString (read it (Line.stateColumn st)))
     /\ In it (Line.points ln))
  /\ (forall ln, In ln (Line.lines Date_parse data st) ->
        In it (Line.points ln) ->
        Line.lineName ln = Some (ToString (read it (Line.stateColumn st)))).
Proof.
  intros Date_parse data st it Hg Ha Hin Ht.
  unfold Line.lines. rewrite Hg, Ha. cbn [andb]. split.
  - pose proof (truthy_option Date_parse data st it Hg Hin Ht) as Ho.
    destruct (In_mapi_intro
                (fun state index =>
                   {| Line.lineName := Some state;
                      Line.colorIndex := Some (index mod 5 + 1)%nat;
                      Line.points := Line.subSeries Date_parse data st state |})
                _ 0%nat _ Ho) as [k Hk].
    eexists. split; [exact Hk|]. split; [reflexivity|].
    cbn [Line.points]. apply subSeries_In. auto.
  - intros ln Hln Hp. apply In_mapi in Hln.
    destruct Hln as [state [k [_ ->]]]. cbn [Line.points Line.lineName] in *.
    apply (proj1 (subSeries_In _ _ _ _ _)) in Hp. destruct Hp as [_ <-].
    reflexivity.
Qed.

Lemma line_groups_partition_witness :
  exists ln, In ln (Line.lines Line.isoDateParse blanks (showAll "n" "v" "region"))
    /\ Line.lineName ln = Some "CA".
Proof.
  destruct (line_groups_partition Line.isoDateParse blanks
              (showAll "n" "v" "region")
              (Line.point (showAll "n" "v" "region")
                 [("n", VStr "2"); ("v", VStr "20"); ("region", VStr "CA")]))
    as [[ln [H1 [H2 _]]] _].
  - reflexivity.
  - reflexivity.
  - vm_compute. auto.
  - reflexivity.
  - exists ln. split; [exact H1|exact H2].
Defined.

(** X18.  With two columns or more, the line chart shows the "No valid
    data" card exactly when no row that passes the state filter has an
    x value (a cell that is neither undefined nor null), and draws its
    lines otherwise: a blank string is an x value. *)
Theorem line_outcome : forall Date_parse data columns st,
  (2 <= List.length columns)%nat ->
  (Line.LineChartView Date_parse data columns st = NoValidData noData <->
   forall row, In row (Line.stateFilter st data) -> Line.hasX st row = false)
  /\ ((exists row, In row (Line.stateFilter st data)
         /\ Line.hasX st row = true) ->
      Line.LineChartView Date_parse data columns st
      = Chart (Line.lines Date_parse data st)).
Proof.
  intros Date_parse data columns st Hc. unfold Line.LineChartView.
  replace (List.length columns <? 2)%nat with false
    by (symmetry; apply Nat.ltb_ge; exact Hc).
  rewrite <- (line_empty Date_parse).
  destruct (Line.chartData Date_parse data st) as [|it its] eqn:Hd.
  - split; [split; reflexivity|].
    intros [row [Hrow Hx]].
    rewrite (proj1 (line_empty Date_parse data st) Hd row Hrow) in Hx.
    discriminate Hx.
  - split; [split; discriminate|]. intros _. reflexivity.
Qed.

Lemma line_outcome_witness :
  (2 <= List.length ["n"; "v"])%nat
  /\ Line.LineChartView Line.isoDateParse [] ["n"; "v"] (showAll "n" "v" "")
     = NoValidData noData.
Proof.
  assert (H : (2 <= List.length ["n"; "v"])%nat) by (simpl; lia).
  split; [exact H|].
  apply (proj1 (line_outcome Line.isoDateParse [] ["n"; "v"]
                  (showAll "n" "v" "") H)).
  intros row [].
Defined.



(** X20.  While a single state is selected in the line chart, one line is
    drawn and all its points have a state cell that reads as the selected
    state.  The option "Unknown" selects only the rows that hold the
    string "Unknown": when there is none, no point is left. *)
Theorem line_single_state : forall Date_parse data columns st,
  Line.nonEmpty (Line.stateColumn st) = true ->
  Line.showAllStates st = false ->
  Line.nonEmpty (Line.selectedState st) = true ->
  (forall it, In it (Line.chartData Date_parse data st) ->
     ToString (read it (Line.stateColumn st)) = Line.selectedState st)
  /\ Line.lines Date_parse data st
     = [ {| Line.lineName := None; Line.colorIndex := None;
            Line.points := Line.chartData Date_parse data st |} ]
  /\ (Line.selectedState st = "Unknown" ->
      (forall row, In row data ->
         get row (Line.stateColumn st) <> VStr "Unknown") ->
      Line.chartData Date_parse data st = []
      /\ ((2 <= List.length columns)%nat ->
          Line.LineChartView Date_parse data columns st
          = NoValidData noData)).
Proof.
  intros Date_parse data columns st Hg Ha Hs.
  assert (Hf : forall rows row,
            In row (Line.stateFilter st rows) ->
            In row rows
            /\ ToString (get row (Line.stateColumn st))
               = Line.selectedState st).
  { intros rows row. unfold Line.stateFilter. rewrite Hg, Ha, Hs.
    cbn [negb andb]. rewrite filter_In, String.eqb_eq. tauto. }
  split; [|split].
  - intros it Hin. unfold Line.chartData, slice0 in Hin.
    apply In_firstn in Hin. apply (proj1 (in_map_iff _ _ _)) in Hin.
    destruct Hin as [row [<- Hrow]].
    apply (proj1 (filter_In _ _ _)) in Hrow. destruct Hrow as [Hrow _].
    apply Hf in Hrow. rewrite point_group by exact Hg. tauto.
  - unfold Line.lines. rewrite Hg, Ha. reflexivity.
  - intros Hu Hlit.
    assert (Hd : Line.chartData Date_parse data st = []).
    { apply line_empty. intros row Hrow. exfalso.
      apply Hf in Hrow. destruct Hrow as [Hrow E]. rewrite Hu in E.
      apply (Hlit row Hrow), Unknown_literal, E. }
    split; [exact Hd|].
    intros Hc. unfold Line.LineChartView.
    replace (List.length columns <? 2)%nat with false
      by (symmetry; apply Nat.ltb_ge; exact Hc).
    rewrite Hd. reflexivity.
Qed.

Lemma line_single_state_witness :
  Line.chartData Line.isoDateParse blanks
    {| Line.xAxis := Some "n"; Line.yAxis := Some "v";
       Line.stateColumn := "region"; Line.selectedState := "Unknown";
       Line.showAllStates := false |} = [].
Proof.
  apply (line_single_state Line.isoDateParse blanks ["n"; "v"; "region"]
           {| Line.xAxis := Some "n"; Line.yAxis := Some "v";
              Line.stateColumn := "region"; Line.selectedState := "Unknown";
              Line.showAllStates := false |});
    try reflexivity.
  intros row [<-|[<-|[]]]; cbn; discriminate.
Defined.

End LineExtra.

(* ================================================================== *)
(** ** data-table: pages and pager *)

Module TableFacts.
Import Num Val Arr ListFacts ObjFacts StrFacts RoundFacts SeriesFacts.
Import Table.
Local Open Scope string_scope.
Local Open Scope Z_scope.

(** The rows found and the number of pages depend on the search term
    alone. *)
Lemma found_term : forall st st' row,
  searchTerm st = searchTerm st' -> found st row = found st' row.
Proof. intros st st' row H. unfold found. rewrite H. reflexivity. Qed.

Lemma filteredData_term : forall data st st',
  searchTerm st = searchTerm st' -> filteredData data st = filteredData data st'.
Proof.
  intros data st st' H. unfold filteredData.
  apply filter_ext. intros row. apply found_term, H.
Qed.

Lemma totalPages_term : forall data st st',
  searchTerm st = searchTerm st' -> totalPages data st = totalPages data st'.
Proof.
  intros data st st' H. unfold totalPages.
  rewrite (filteredData_term data st st' H). reflexivity.
Qed.

Lemma filtered_length : forall data st,
  (List.length (filteredData data st) <= List.length data)%nat.
Proof. intros data st. apply filter_length_le. Qed.

(** The number of pages is the ceiling of a tenth of the number of rows
    found. *)
Lemma totalPages_exact : forall data st,
  Z.of_nat (List.length data) <= Binary64.maxLength ->
  totalPages data st
  = (Z.of_nat (List.length (filteredData data st)) + 9) / 10.
Proof.
  intros data st Hlen. unfold Binary64.maxLength in Hlen.
  pose proof (filtered_length data st) as Hf.
  unfold totalPages, itemsPerPage. apply ceil_tenth. lia.
Qed.

(** A page of ten rows, on natural numbers. *)
Lemma slice_page : forall {A : Type} (l : list A) (i : nat),
  slice (Z.of_nat i * 10) (Z.of_nat i * 10 + 10) l
  = firstn 10 (skipn (10 * i) l).
Proof.
  intros A l i. unfold slice.
  replace (Z.of_nat i * 10 <? 0) with false by (symmetry; apply Z.ltb_ge; lia).
  replace (Z.of_nat i * 10 + 10 <? 0) with false
    by (symmetry; apply Z.ltb_ge; lia).
  destruct (Nat.le_gt_cases (10 * i) (List.length l)) as [Hle|Hgt].
  - replace (Z.to_nat (Z.min (Z.of_nat i * 10) (Z.of_nat (List.length l))))
      with (10 * i)%nat by lia.
    rewrite !firstn_skipn_comm. f_equal.
    destruct (Nat.le_gt_cases (10 * i + 10) (List.length l)) as [Hle'|Hgt'].
    + f_equal. lia.
    + rewrite !firstn_all2 by lia. reflexivity.
  - replace (Z.to_nat
               (Z.min (Z.of_nat i * 10 + 10) (Z.of_nat (List.length l))
                - Z.min (Z.of_nat i * 10) (Z.of_nat (List.length l))))
      with 0%nat by lia.
    rewrite (skipn_all2 l (n := (10 * i)%nat)) by lia.
    reflexivity.
Qed.

Lemma chunks_concat : forall {A : Type} (l : list A) (k : nat),
  List.concat (map (fun i => firstn 10 (skipn (10 * i) l)) (seq 0 k))
  = firstn (10 * k) l.
Proof.
  intros A l k. induction k as [|k IH].
  - reflexivity.
  - rewrite seq_S, map_app, concat_app, IH. cbn [map List.concat].
    rewrite List.app_nil_r, firstn_skipn_comm. rewrite Nat.add_0_l.
    replace (10 * S k)%nat with (10 * k + 10)%nat by lia.
    rewrite <- (firstn_skipn (10 * k) (firstn (10 * k + 10) l)) at 2.
    f_equal. rewrite firstn_firstn. f_equal. lia.
Qed.

Lemma range_nat : forall n, 0 <= n ->
  range 1 n = map (fun i => Z.of_nat i + 1) (seq 0 (Z.to_nat n)).
Proof.
  intros n Hn. unfold range.
  replace (n - 1 + 1) with n by lia.
  apply map_ext. intros i. lia.
Qed.



Lemma tenth_bounds : forall n, 0 <= n ->
  10 * ((n + 9) / 10) - 9 <= n <= 10 * ((n + 9) / 10).
Proof.
  intros n Hn.
  pose proof (Z.div_mod (n + 9) 10 ltac:(lia)).
  pose proof (Z.mod_pos_bound (n + 9) 10 ltac:(lia)). lia.
Qed.

Lemma page_length : forall data st,
  1 <= currentPage st ->
  Z.of_nat (List.length (paginatedData data st))
  = Z.max 0 (Z.min 10
               (Z.of_nat (List.length (filteredData data st))
                - 10 * (currentPage st - 1))).
Proof.
  intros data st Hp. unfold paginatedData, startIndex, itemsPerPage.
  replace (currentPage st - 1) with (Z.of_nat (Z.to_nat (currentPage st - 1)))
    by lia.
  rewrite slice_page, length_firstn, length_skipn. lia.
Qed.

(** The entries of the pager when there are more than five pages: the
    first page, a window of three pages and the last page, with "..."
    where pages are left out. *)
Lemma pageNumbers_window : forall data st tp,
  tp = totalPages data st ->
  5 < tp -> 1 <= currentPage st ->
  pageNumbers data st
  = ([PageNum 1]
     ++ (if 2 <? Z.max 2 (Z.min (currentPage st - 1) (tp - 3))
         then [Ellipsis] else [])
     ++ [PageNum (Z.max 2 (Z.min (currentPage st - 1) (tp - 3)));
         PageNum (Z.max 2 (Z.min (currentPage st - 1) (tp - 3)) + 1);
         PageNum (Z.max 2 (Z.min (currentPage st - 1) (tp - 3)) + 2)]
     ++ (if Z.max 2 (Z.min (currentPage st - 1) (tp - 3)) + 2 <? tp - 1
         then [Ellipsis] else [])
     ++ [PageNum tp])%list.
Proof.
  intros data st tp Htp Hgt Hcp. unfold pageNumbers, maxPageButtons.
  rewrite <- Htp. clear Htp.
  set (cp := currentPage st) in *. clearbody cp.
  set (s := Z.max 2 (Z.min (cp - 1) (tp - 3))).
  replace (tp <=? 5) with false by (symmetry; apply Z.leb_gt; lia).
  replace (1 <? tp) with true by (symmetry; apply Z.ltb_lt; lia).
  assert (Hr : forall a, range a (a + 2) = [a; a + 1; a + 2]).
  { intros a. unfold range. replace (a + 2 - a + 1) with 3 by lia.
    change (Z.to_nat 3) with 3%nat. cbn [seq map].
    change (Z.of_nat 0) with 0. change (Z.of_nat 1) with 1.
    change (Z.of_nat 2) with 2. rewrite Z.add_0_r. reflexivity. }
  destruct (Z.leb_spec cp 2) as [H2|H2].
  - replace s with 2 by (unfold s; lia).
    replace (Z.max 2 (cp - 1)) with 2 by lia.
    replace (Z.min (tp - 1) (5 - 1)) with (2 + 2) by lia.
    rewrite Hr. reflexivity.
  - destruct (Z.leb_spec (tp - 2) cp) as [H3|H3].
    + replace s with (tp - 3) by (unfold s; lia).
      replace (Z.max 2 (tp - 5 + 2)) with (tp - 3) by lia.
      replace (Z.min (tp - 1) (cp + 1)) with (tp - 3 + 2) by lia.
      rewrite Hr. reflexivity.
    + replace s with (cp - 1) by (unfold s; lia).
      replace (Z.max 2 (cp - 1)) with (cp - 1) by lia.
      replace (Z.min (tp - 1) (cp + 1)) with (cp - 1 + 2) by lia.
      rewrite Hr. reflexivity.
Qed.

Lemma pageNumbers_all : forall data st tp,
  tp = totalPages data st -> tp <= 5 ->
  pageNumbers data st = map PageNum (range 1 tp).
Proof.
  intros data st tp Htp Hle. unfold pageNumbers, maxPageButtons.
  rewrite <- Htp.
  replace (tp <=? 5) with true by (symmetry; apply Z.leb_le; lia).
  reflexivity.
Qed.

Lemma In_range : forall a b p, In p (range a b) <-> a <= p <= b.
Proof.
  intros a b p. unfold range. rewrite in_map_iff. split.
  - intros [i [<- Hi]]. apply in_seq in Hi. lia.
  - intros H. exists (Z.to_nat (p - a)). split; [lia|].
    apply in_seq. lia.
Qed.

Lemma all_pages_bounds : forall tp p,
  In (PageNum p) (map PageNum (range 1 tp)) -> 1 <= p <= tp.
Proof.
  intros tp p Hin. apply (proj1 (in_map_iff _ _ _)) in Hin.
  destruct Hin as [q [E Hq]]. injection E as ->. apply In_range, Hq.
Qed.

Lemma window_bounds : forall tp s p,
  2 <= s <= tp - 3 ->
  In (PageNum p)
    ([PageNum 1]
     ++ (if 2 <? s then [Ellipsis] else [])
     ++ [PageNum s; PageNum (s + 1); PageNum (s + 2)]
     ++ (if s + 2 <? tp - 1 then [Ellipsis] else [])
     ++ [PageNum tp])%list ->
  1 <= p <= tp.
Proof.
  intros tp s p Hs Hin.
  apply in_app_or in Hin. destruct Hin as [[E|[]]|Hin];
    [injection E as <-; lia|].
  apply in_app_or in Hin. destruct Hin as [Hin|Hin].
  { destruct (2 <? s); [destruct Hin as [E|[]]; discriminate E|].
    destruct Hin. }
  apply in_app_or in Hin. destruct Hin as [Hin|Hin].
  { destruct Hin as [E|[E|[E|[]]]]; injection E as <-; lia. }
  apply in_app_or in Hin. destruct Hin as [Hin|[E|[]]].
  { destruct (s + 2 <? tp - 1); [destruct Hin as [E|[]]; discriminate E|].
    destruct Hin. }
  injection E as <-. lia.
Qed.

(** Every page number of the pager is a page. *)
Lemma pageNumbers_bounds : forall data st tp p,
  tp = totalPages data st ->
  1 <= currentPage st ->
  In (PageNum p) (pageNumbers data st) -> 1 <= p <= tp.
Proof.
  intros data st tp p Htp Hcp Hin.
  destruct (Z.le_gt_cases tp 5) as [Hle|Hgt].
  - rewrite (pageNumbers_all data st tp Htp Hle) in Hin.
    apply all_pages_bounds, Hin.
  - rewrite (pageNumbers_window data st tp Htp Hgt Hcp) in Hin.
    refine (window_bounds _ _ _ _ Hin). lia.
Qed.

End TableFacts.

(* ================================================================== *)
(** ** data-table: search, pages and navigation *)

Module TableExtra.
Import Num Val Arr ListFacts ObjFacts StrFacts RoundFacts SeriesFacts.
Import Table TableFacts Examples.
Local Open Scope string_scope.
Local Open Scope Z_scope.


(** X22.  The pages partition the rows found: the pages 1, ...,
    [totalPages], one after the other, are the rows found, in order, each
    row on one page. *)
Theorem pages_partition : forall data term,
  Z.of_nat (List.length data) <= Binary64.maxLength ->
  List.concat
    (map (fun p => paginatedData data {| currentPage := p; searchTerm := term |})
       (range 1 (totalPages data {| currentPage := 1; searchTerm := term |})))
  = filteredData data {| currentPage := 1; searchTerm := term |}.
Proof.
  intros data term Hlen.
  rewrite (totalPages_exact data _ Hlen).
  set (l := filteredData data {| currentPage := 1; searchTerm := term |}).
  pose proof (tenth_bounds (Z.of_nat (List.length l)) ltac:(lia)) as Hb.
  set (tp := (Z.of_nat (List.length l) + 9) / 10) in *. clearbody tp.
  rewrite range_nat by lia. rewrite map_map.
  rewrite (map_ext _ (fun i => firstn 10 (skipn (10 * i) l))).
  - rewrite chunks_concat. apply firstn_all2. lia.
  - intros i. unfold paginatedData, startIndex, itemsPerPage.
    cbn [currentPage].
    rewrite (filteredData_term data _ {| currentPage := 1; searchTerm := term |})
      by reflexivity.
    fold l. replace (Z.of_nat i + 1 - 1) with (Z.of_nat i) by lia.
    apply slice_page.
Qed.

Lemma pages_partition_witness :
  List.concat
    (map (fun p => paginatedData countdown {| currentPage := p; searchTerm := "1" |})
       (range 1 (totalPages countdown {| currentPage := 1; searchTerm := "1" |})))
  = filteredData countdown {| currentPage := 1; searchTerm := "1" |}.
Proof.
  apply (pages_partition countdown "1"). vm_compute. discriminate.
Defined.

(** X23.  On a page between 1 and [totalPages] the table shows at least
    one row and at most ten, exactly ten before the last page, and the
    "Showing a to b" line counts the rows shown.  On a page beyond the
    last one (which the handlers never reach, but a smaller dataset can
    leave behind) the table body is the "No data found" row, whatever
    was found. *)
Theorem page_bounds : forall data st,
  Z.of_nat (List.length data) <= Binary64.maxLength ->
  (1 <= currentPage st <= totalPages data st ->
   1 <= Z.of_nat (List.length (paginatedData data st)) <= 10
   /\ (currentPage st < totalPages data st ->
       List.length (paginatedData data st) = 10%nat)
   /\ Z.of_nat (List.length (paginatedData data st))
      = showingTo (DataTable data st) - showingFrom (DataTable data st) + 1
   /\ tableRows (DataTable data st) = Some (paginatedData data st))
  /\ (1 <= currentPage st -> totalPages data st < currentPage st ->
      paginatedData data st = []
      /\ tableRows (DataTable data st) = None).
Proof.
  intros data st Hlen.
  rewrite (totalPages_exact data st Hlen).
  set (n := Z.of_nat (List.length (filteredData data st))).
  pose proof (tenth_bounds n ltac:(unfold n; lia)) as Hb.
  set (tp := (n + 9) / 10) in *. clearbody tp.
  split.
  - intros Hcp.
    pose proof (page_length data st ltac:(lia)) as Hl. fold n in Hl.
    assert (Hpos : 1 <= Z.of_nat (List.length (paginatedData data st)) <= 10)
      by lia.
    split; [exact Hpos|]. split; [intros; lia|]. split.
    + unfold DataTable. cbn [showingTo showingFrom]. fold n.
      unfold startIndex, itemsPerPage.
      replace (0 <? n) with true by (symmetry; apply Z.ltb_lt; lia).
      lia.
    + unfold DataTable. cbn [tableRows].
      replace (0 <? List.length (paginatedData data st))%nat with true
        by (symmetry; apply Nat.ltb_lt; lia).
      reflexivity.
  - intros Hcp Hgt.
    pose proof (page_length data st Hcp) as Hl. fold n in Hl.
    assert (He : paginatedData data st = [])
      by (apply length_zero_iff_nil; lia).
    split; [exact He|].
    unfold DataTable. cbn [tableRows]. rewrite He. reflexivity.
Qed.

Lemma page_bounds_witness :
  List.length
    (paginatedData countdown {| currentPage := 1; searchTerm := "" |})
  = 10%nat.
Proof.
  assert (H : Z.of_nat (List.length countdown) <= Binary64.maxLength)
    by (vm_compute; discriminate).
  apply (proj1 (page_bounds countdown {| currentPage := 1; searchTerm := "" |}
                  H)).
  - vm_compute. split; discriminate.
  - vm_compute. reflexivity.
Defined.

(** X24.  Up to five pages the pager lists them all.  Beyond, it shows
    the first page, the last page and a window of three consecutive pages
    that starts at the page before the current one, kept between 2 and
    [totalPages - 3], with "..." exactly where pages are skipped: at most
    seven entries, every number is a page, and the current page is among
    them. *)
Theorem pager_entries : forall data st,
  1 <= currentPage st ->
  (totalPages data st <= 5 ->
   pageNumbers data st = map PageNum (range 1 (totalPages data st)))
  /\ (5 < totalPages data st ->
      let s :=
        Z.max 2 (Z.min (currentPage st - 1) (totalPages data st - 3)) in
      pageNumbers data st
      = ([PageNum 1]
         ++ (if 2 <? s then [Ellipsis] else [])
         ++ [PageNum s; PageNum (s + 1); PageNum (s + 2)]
         ++ (if s + 2 <? totalPages data st - 1 then [Ellipsis] else [])
         ++ [PageNum (totalPages data st)])%list)
  /\ (forall p, In (PageNum p) (pageNumbers data st) ->
        1 <= p <= totalPages data st)
  /\ (currentPage st <= totalPages data st ->
      In (PageNum (currentPage st)) (pageNumbers data st))
  /\ (List.length (pageNumbers data st) <= 7)%nat.
Proof.
  intros data st Hcp.
  remember (totalPages data st) as tp eqn:Htp.
  split; [intros Hle; apply (pageNumbers_all data st tp Htp Hle)|].
  split; [intros Hgt; apply (pageNumbers_window data st tp Htp Hgt Hcp)|].
  split; [intros p; apply (pageNumbers_bounds data st tp p Htp Hcp)|].
  destruct (Z.le_gt_cases tp 5) as [Hle|Hgt].
  - rewrite (pageNumbers_all data st tp Htp Hle). split.
    + intros Hc. apply in_map, In_range. lia.
    + rewrite length_map. unfold range. rewrite length_map, length_seq. lia.
  - rewrite (pageNumbers_window data st tp Htp Hgt Hcp).
    set (cp := currentPage st) in *. clearbody cp.
    set (s := Z.max 2 (Z.min (cp - 1) (tp - 3))).
    assert (Hs : s = Z.max 2 (Z.min (cp - 1) (tp - 3))) by reflexivity.
    clearbody s. split.
    + intros Hc.
      assert (Hw : cp = 1 \/ cp = tp \/ cp = s \/ cp = s + 1 \/ cp = s + 2)
        by lia.
      apply in_or_app.
      destruct Hw as [->|[->|Hw]]; [left; left; reflexivity| |].
      * right. apply in_or_app. right. apply in_or_app. right.
        apply in_or_app. right. left. reflexivity.
      * right. apply in_or_app. right. apply in_or_app. left.
        destruct Hw as [->|[->| ->]]; simpl; auto.
    + rewrite !length_app.
      destruct (2 <? s), (s + 2 <? tp - 1); simpl; lia.
Qed.

Lemma pager_entries_witness :
  pageNumbers countdown {| currentPage := 2; searchTerm := "" |}
  = [PageNum 1; PageNum 2; PageNum 3].
Proof.
  assert (H : 1 <= currentPage {| currentPage := 2; searchTerm := "" |})
    by (simpl; lia).
  rewrite (proj1 (pager_entries countdown
                    {| currentPage := 2; searchTerm := "" |} H)).
  - vm_compute. reflexivity.
  - vm_compute. discriminate.
Defined.

Section Invariant.
Variable data : list row.

(** The page is one of the pages, or page 1 when nothing is found. *)
Local Abbreviation inv :=
  (fun st : state => 1 <= currentPage st <= Z.max 1 (totalPages data st)).

Lemma handle_inv : forall st e, inv st -> inv (handle data st e).
Proof.
  intros st e Hi. cbv beta in *.
  destruct e as [term| | |index]; unfold handle.
  - cbn [currentPage]. lia.
  - remember (totalPages data st) as tp eqn:Htp.
    destruct (1 <? tp); [|rewrite <- Htp; exact Hi].
    rewrite (totalPages_term data _ st) by reflexivity.
    cbn [currentPage]. rewrite <- Htp. lia.
  - remember (totalPages data st) as tp eqn:Htp.
    destruct (Z.ltb_spec 1 tp); [|rewrite <- Htp; exact Hi].
    rewrite (totalPages_term data _ st) by reflexivity.
    cbn [currentPage]. rewrite <- Htp. lia.
  - remember (totalPages data st) as tp eqn:Htp.
    destruct (1 <? tp); [|rewrite <- Htp; exact Hi].
    destruct (nth_error (pageNumbers data st) index) as [[p|]|] eqn:Hn;
      try (rewrite <- Htp; exact Hi).
    apply nth_error_In in Hn.
    pose proof (pageNumbers_bounds data st tp p Htp ltac:(lia) Hn) as Hp.
    rewrite (totalPages_term data _ st) by reflexivity.
    cbn [currentPage]. rewrite <- Htp. lia.
Qed.

Lemma fold_inv : forall events st,
  inv st -> inv (fold_left (handle data) events st).
Proof.
  induction events as [|e events IH]; intros st Hi; [exact Hi|].
  cbn [fold_left]. apply IH, handle_inv, Hi.
Qed.

End Invariant.

(** X25.  Whatever the user does (typing in the search box, the
    Previous and Next buttons, clicks on the entries of the pager), the
    current page stays between 1 and the number of pages, so that the
    table never shows its "No data found" row while rows are found. *)
Theorem pager_invariant : forall data events,
  Z.of_nat (List.length data) <= Binary64.maxLength ->
  1 <= currentPage (run data events)
    <= Z.max 1 (totalPages data (run data events))
  /\ (filteredData data (run data events) <> [] ->
      paginatedData data (run data events) <> []
      /\ tableRows (DataTable data (run data events))
         = Some (paginatedData data (run data events))).
Proof.
  intros data events Hlen.
  assert (Hi : 1 <= currentPage (run data events)
               <= Z.max 1 (totalPages data (run data events))).
  { unfold run. apply fold_inv. unfold initialState. cbn [currentPage]. lia. }
  split; [exact Hi|].
  set (st := run data events) in *. clearbody st.
  intros Hne.
  rewrite (totalPages_exact data st Hlen) in Hi.
  pose proof (page_length data st ltac:(lia)) as Hl.
  set (n := Z.of_nat (List.length (filteredData data st))) in *.
  assert (Hn : 1 <= n).
  { unfold n. destruct (filteredData data st); [contradiction|].
    simpl List.length. lia. }
  pose proof (tenth_bounds n ltac:(lia)) as Hb.
  set (tp := (n + 9) / 10) in *. clearbody tp.
  assert (Hpos : (0 < List.length (paginatedData data st))%nat) by lia.
  split.
  - intros He. rewrite He in Hpos. simpl in Hpos. lia.
  - unfold DataTable. cbn [tableRows].
    replace (0 <? List.length (paginatedData data st))%nat with true
      by (symmetry; apply Nat.ltb_lt; exact Hpos).
    reflexivity.
Qed.

Lemma pager_invariant_witness :
  1 <= currentPage (run countdown [Next; Next; Next; Click 0; Previous])
    <= Z.max 1
         (totalPages countdown
            (run countdown [Next; Next; Next; Click 0; Previous])).
Proof.
  apply (pager_invariant countdown [Next; Next; Next; Click 0; Previous]).
  vm_compute. discriminate.
Defined.

End TableExtra.

(* ================================================================== *)
(** ** data-table: the number of pages *)

Module PagesExtra.
Import Num Val Arr ListFacts Table TableFacts Examples.
Local Open Scope string_scope.
Local Open Scope Z_scope.

(** X26.  The number of pages, computed in binary64 as
    [Math.ceil(filteredData.length / 10)], is the exact ceiling of a
    tenth of the number of rows found, for every dataset that fits in an
    array: it is 0 exactly when nothing is found, and the pagination is
    rendered exactly when more than ten rows are found. *)
Theorem total_pages : forall data st,
  Z.of_nat (List.length data) <= Binary64.maxLength ->
  totalPages data st * 10 - 9
    <= Z.of_nat (List.length (filteredData data st))
    <= totalPages data st * 10
  /\ (totalPages data st = 0 <-> filteredData data st = [])
  /\ (pager (DataTable data st) = Some (pageNumbers data st) <->
      10 < Z.of_nat (List.length (filteredData data st)))
  /\ (pager (DataTable data st) = None <->
      Z.of_nat (List.length (filteredData data st)) <= 10).
Proof.
  intros data st Hlen. unfold DataTable. cbn [pager].
  rewrite (totalPages_exact data st Hlen).
  set (n := Z.of_nat (List.length (filteredData data st))).
  pose proof (tenth_bounds n ltac:(unfold n; lia)) as Hb.
  assert (Hnil : filteredData data st = [] <-> n = 0).
  { unfold n. rewrite <- length_zero_iff_nil. lia. }
  set (tp := (n + 9) / 10) in *. clearbody tp.
  split; [lia|]. split; [rewrite Hnil; lia|].
  destruct (Z.ltb_spec 1 tp); split; split; intros H0;
    try reflexivity; try discriminate; lia.
Qed.

Lemma total_pages_witness :
  totalPages countdown initialState * 10 - 9
    <= Z.of_nat (List.length (filteredData countdown initialState))
    <= totalPages countdown initialState * 10.
Proof.
  apply (total_pages countdown initialState). vm_compute. discriminate.
Defined.

End PagesExtra.

(* ================================================================== *)
(** ** page.tsx: what the components are handed *)

Module HomeExtra.
Import Val Home.
Local Open Scope string_scope.

(** The columns are those of the first row whenever there is one. *)
Local Abbreviation inv :=
  (fun st : state =>
     match csvData st with
     | [] => True
     | row0 :: _ => columns st = Obj.keys row0
     end).

Lemma home_handle_inv : forall st e, inv st -> inv (handle st e).
Proof.
  intros st e Hi. cbv beta in *.
  destruct e as [[name|]|data|]; cbn [handle csvData columns]; try exact Hi.
  destruct data; [exact I|reflexivity].
Qed.

Lemma home_fold_inv : forall events st,
  inv st -> inv (fold_left handle events st).
Proof.
  induction events as [|e events IH]; intros st Hi; [exact Hi|].
  cbn [fold_left]. apply IH, home_handle_inv, Hi.
Qed.

(** X27.  Whatever files are chosen and whatever the parser returns, the
    page shows either the upload card, when the current dataset has no
    row, or the tabs, and then the table and the three charts are handed
    a dataset that is not empty together with the keys of its first row
    as columns.  (The components never see an empty dataset, nor
    columns left over from an earlier file.) *)
Theorem dashboard_columns : forall events,
  (csvData (run events) = [] /\ render (run events) = UploadCard)
  \/ (exists row0 rest,
        csvData (run events) = row0 :: rest
        /\ columns (run events) = Obj.keys row0
        /\ render (run events)
           = Dashboard (fileName (run events))
               (S (List.length rest)) (List.length (Obj.keys row0))
               (row0 :: rest) (Obj.keys row0)).
Proof.
  intros events.
  assert (Hi : inv (run events)).
  { unfold run. apply home_fold_inv. exact I. }
  cbv beta in Hi. unfold render.
  destruct (csvData (run events)) as [|row0 rest].
  - left. split; reflexivity.
  - right. exists row0, rest. rewrite Hi. repeat split.
Qed.

End HomeExtra.

(* ================================================================== *)
(** ** The selections the charts start with *)

Module SelectionExtra.
Import Num Val Utils Arr Roles ListFacts Examples.
Local Open Scope string_scope.

Lemma head_filter_In : forall (p : string -> bool) l c,
  nth_error (filter p l) 0 = Some c -> In c l.
Proof.
  intros p l c H. apply nth_error_In in H.
  apply (proj1 (filter_In _ _ _)) in H. tauto.
Qed.

(** [a || b] picks a column when [a] is the head of a selection of the
    columns and [b] is a column. *)
Lemma first_or_column : forall (p : string -> bool) columns b,
  (exists c, b = Some c /\ In c columns) ->
  exists c, first_or (nth_error (filter p columns) 0) b = Some c
            /\ In c columns.
Proof.
  intros p columns b [c0 [-> H0]].
  destruct (nth_error (filter p columns) 0) as [c|] eqn:Hc.
  - destruct c as [|ch c'].
    + exists c0. auto.
    + exists (String ch c'). split; [reflexivity|].
      apply (head_filter_In p), Hc.
  - exists c0. auto.
Qed.

Lemma second_or_first : forall columns : list string,
  columns <> [] ->
  exists c, first_or (nth_error columns 1) (nth_error columns 0) = Some c
            /\ In c columns.
Proof.
  intros [|c0 [|c1 cs]] H; [contradiction| |].
  - exists c0. simpl. auto.
  - destruct c1 as [|ch c'].
    + exists c0. simpl. auto.
    + exists (String ch c'). simpl. auto.
Qed.

(** X28.  As soon as there is a column, the selections the three charts
    start with are columns of the dataset: the two axes of the bar and
    line charts, the label and value columns of the pie chart; the state
    column of the line and pie charts is a column or empty.  Without any
    column the selections are undefined. *)
Theorem initial_selections : forall data columns,
  (columns <> [] ->
   (exists cx cy,
      Bar.xAxis (Bar.initialState data columns) = Some cx
      /\ Bar.yAxis (Bar.initialState data columns) = Some cy
      /\ In cx columns /\ In cy columns)
   /\ (exists cx cy,
         Line.xAxis (Line.initialState data columns) = Some cx
         /\ Line.yAxis (Line.initialState data columns) = Some cy
         /\ In cx columns /\ In cy columns)
   /\ (exists cl cv,
         Pie.labelColumn (Pie.initialState data columns) = Some cl
         /\ Pie.valueColumn (Pie.initialState data columns) = Some cv
         /\ In cl columns /\ In cv columns))
  /\ (Line.stateColumn (Line.initialState data columns) = ""
      \/ In (Line.stateColumn (Line.initialState data columns)) columns)
  /\ (Pie.stateColumn (Pie.initialState data columns) = ""
      \/ In (Pie.stateColumn (Pie.initialState data columns)) columns)
  /\ (columns = [] ->
      Bar.initialState data columns
      = {| Bar.xAxis := None; Bar.yAxis := None |}
      /\ Line.xAxis (Line.initialState data columns) = None
      /\ Line.yAxis (Line.initialState data columns) = None
      /\ Pie.labelColumn (Pie.initialState data columns) = None
      /\ Pie.valueColumn (Pie.initialState data columns) = None).
Proof.
  intros data columns.
  assert (Hstate : forall (p : string -> bool),
            match first_or (nth_error (filter p columns) 0) (Some "") with
            | Some s => s
            | None => ""
            end = ""
            \/ In match first_or (nth_error (filter p columns) 0) (Some "") with
                  | Some s => s
                  | None => ""
                  end columns).
  { intros p. destruct (nth_error (filter p columns) 0) as [c|] eqn:Hc.
    - destruct c as [|ch c']; [left; reflexivity|].
      right. apply (head_filter_In p), Hc.
    - left. reflexivity. }
  split; [|split; [|split]].
  - intros Hne.
    assert (H0 : exists c, nth_error columns 0 = Some c /\ In c columns).
    { destruct columns as [|c0 cs]; [contradiction|].
      exists c0. simpl. auto. }
    pose proof (second_or_first columns Hne) as H1.
    split; [|split].
    + unfold Bar.initialState. cbn [Bar.xAxis Bar.yAxis].
      unfold Bar.categoricalColumns, Bar.numericColumns, Roles.numericColumns.
      match goal with
      | |- exists cx cy,
             first_or (nth_error (filter ?p columns) 0) _ = _
             /\ first_or (nth_error (filter ?q columns) 0) _ = _ /\ _ =>
          destruct (first_or_column p columns _ H0) as [cx [Ex Hx]];
          destruct (first_or_column q columns _ H1) as [cy [Ey Hy]];
          exists cx, cy; auto
      end.
    + unfold Line.initialState. cbn [Line.xAxis Line.yAxis].
      unfold Line.sequentialColumns, Line.numericColumns,
        Roles.numericColumns.
      match goal with
      | |- exists cx cy,
             first_or (nth_error (filter ?p columns) 0) _ = _
             /\ first_or (nth_error (filter ?q columns) 0) _ = _ /\ _ =>
          destruct (first_or_column p columns _ H0) as [cx [Ex Hx]];
          destruct (first_or_column q columns _ H1) as [cy [Ey Hy]];
          exists cx, cy; auto
      end.
    + unfold Pie.initialState. cbn [Pie.labelColumn Pie.valueColumn].
      unfold Pie.categoricalColumns, Pie.numericColumns,
        Roles.numericColumns.
      match goal with
      | |- exists cx cy,
             first_or (nth_error (filter ?p columns) 0) _ = _
             /\ first_or (nth_error (filter ?q columns) 0) _ = _ /\ _ =>
          destruct (first_or_column p columns _ H0) as [cx [Ex Hx]];
          destruct (first_or_column q columns _ H1) as [cy [Ey Hy]];
          exists cx, cy; auto
      end.
  - unfold Line.initialState. cbn [Line.stateColumn].
    unfold Line.stateColumns, Roles.stateColumns. apply Hstate.
  - unfold Pie.initialState. cbn [Pie.stateColumn].
    unfold Pie.stateColumns, Roles.stateColumns. apply Hstate.
  - intros ->. split; [reflexivity|]. split; [reflexivity|].
    split; [reflexivity|]. split; reflexivity.
Qed.

End SelectionExtra.
